(** * Layer.ai MCP server: credential store, transport client, file transfer
      and job orchestration

    A shallow embedding of [token_manager.py],
    [production_ready_layer_ai_server.py] and [critical_bug_fixes.py].

    Conventions of the embedding.
    - A Python [str] is a Rocq [string]; the characters the modelled code
      inspects are code points below 256.
    - A Python exception is a value of [exn]; a function that may raise
      returns a [res].
    - Code that talks to the network or sleeps runs in the monad [M]: the
      state records every request sent and every second slept, and the
      replies come from an oracle indexed by the number of requests sent
      so far. *)

From Stdlib Require Import ZArith QArith Lia Ascii String.
From stdpp Require Import base strings gmap list pretty.

Set Warnings "-register-all".
Local Open Scope Z_scope.
Local Open Scope string_scope.

(** ** Python primitives *)

Module Py.

(** [s.startswith(p)] *)
Fixpoint startswith (s p : string) {struct p} : bool :=
  match p with
  | EmptyString => true
  | String c p' =>
      match s with
      | EmptyString => false
      | String d s' => Ascii.eqb c d && startswith s' p'
      end
  end.

(** [sub in s] for two strings *)
Fixpoint contains (sub s : string) : bool :=
  startswith s sub ||
  match s with
  | EmptyString => false
  | String _ s' => contains sub s'
  end.

(** [len(s)] *)
Definition len (s : string) : nat := String.length s.

Definition code (c : ascii) : nat := nat_of_ascii c.

Definition in_range (lo hi : nat) (c : ascii) : bool :=
  (lo <=? code c)%nat && (code c <=? hi)%nat.

Definition is_upper (c : ascii) : bool := in_range 65 90 c.
Definition is_lower (c : ascii) : bool := in_range 97 122 c.
Definition is_digit (c : ascii) : bool := in_range 48 57 c.

(** [c.lower()] on code points below 256: the ASCII capitals and the
    Latin-1 capitals U+00C0..U+00DE (U+00D7 is the multiplication sign). *)
Definition lower_char (c : ascii) : ascii :=
  if is_upper c || (in_range 192 222 c && negb (code c =? 215)%nat)
  then ascii_of_nat (code c + 32)
  else c.

(** [s.lower()] *)
Fixpoint lower (s : string) : string :=
  match s with
  | EmptyString => EmptyString
  | String c s' => String (lower_char c) (lower s')
  end.

(** [c.isspace()] on code points below 256 *)
Definition is_space (c : ascii) : bool :=
  in_range 9 13 c || in_range 28 32 c || (code c =? 133)%nat || (code c =? 160)%nat.

Fixpoint lstrip (s : string) : string :=
  match s with
  | EmptyString => EmptyString
  | String c s' => if is_space c then lstrip s' else s
  end.

Fixpoint rstrip (s : string) : string :=
  match s with
  | EmptyString => EmptyString
  | String c s' =>
      match rstrip s' with
      | EmptyString => if is_space c then EmptyString else String c EmptyString
      | r => String c r
      end
  end.

(** [s.strip()] *)
Definition strip (s : string) : string := rstrip (lstrip s).

(** *** The fragment of [re] the code uses

    A pattern is a sequence of pieces, each a character class taken once,
    a fixed number of times ([{n}]) or one or more times ([+]).  Every
    pattern of the code has the shape [^ pieces $] and is used through
    [re.match]. *)

Inductive piece :=
| One (cls : ascii -> bool)
| Rep (cls : ascii -> bool) (n : nat)
| Many1 (cls : ascii -> bool).

(** [$] without [re.MULTILINE]: the end of the string, or just before a
    newline that ends the string. *)
Definition at_dollar (s : string) : bool :=
  match s with
  | EmptyString => true
  | String c EmptyString => (code c =? 10)%nat
  | _ => false
  end.

Fixpoint match_pieces (ps : list piece) : string -> bool :=
  match ps with
  | [] => at_dollar
  | One cls :: ps' =>
      fun s =>
        match s with
        | String c s' => cls c && match_pieces ps' s'
        | EmptyString => false
        end
  | Rep cls n :: ps' =>
      (fix rep (n : nat) (s : string) : bool :=
         match n with
         | O => match_pieces ps' s
         | S n' =>
             match s with
             | String c s' => cls c && rep n' s'
             | EmptyString => false
             end
         end) n
  | Many1 cls :: ps' =>
      fix many (s : string) : bool :=
        match s with
        | String c s' => cls c && (many s' || match_pieces ps' s')
        | EmptyString => false
        end
  end.

(** [re.match(r'^ pieces $', s)] is not [None] *)
Definition re_match (ps : list piece) (s : string) : bool := match_pieces ps s.

Definition lit (c : ascii) : piece := One (Ascii.eqb c).

Fixpoint lits (s : string) : list piece :=
  match s with
  | EmptyString => []
  | String c s' => lit c :: lits s'
  end.

(** [Path(p).name]: the last component of a POSIX path; empty components
    and [.] components are dropped when the path is parsed. *)
Fixpoint path_components (cur : string) (s : string) : list string :=
  match s with
  | EmptyString => [cur]
  | String c s' =>
      if Ascii.eqb c "/" then cur :: path_components "" s'
      else path_components (cur ++ String c "") s'
  end.

Definition path_name (p : string) : string :=
  List.last (List.filter (fun x => negb (String.eqb x "" || String.eqb x "."))
                         (path_components "" p)) "".

(** [s.rfind('.')], as the number of characters before the last dot *)
Fixpoint rfind_dot (s : string) : option nat :=
  match s with
  | EmptyString => None
  | String c s' =>
      match rfind_dot s' with
      | Some i => Some (S i)
      | None => if Ascii.eqb c "." then Some O else None
      end
  end.

Fixpoint drop (n : nat) (s : string) : string :=
  match n, s with
  | O, _ => s
  | S n', String _ s' => drop n' s'
  | S _, EmptyString => EmptyString
  end.

(** [s[:n]] *)
Fixpoint take (n : nat) (s : string) : string :=
  match n, s with
  | S n', String c s' => String c (take n' s')
  | _, _ => EmptyString
  end.

(** [Path(p).suffix] (pathlib up to Python 3.13): the part of the name
    from its last dot on, when that dot is neither the first nor the last
    character of the name. *)
Definition path_suffix (p : string) : string :=
  let name := path_name p in
  match rfind_dot name with
  | Some i => if (0 <? i)%nat && (i <? len name - 1)%nat then drop i name else ""
  | None => ""
  end.

(** *** Numbers

    An [int], or a [float]: a finite float is the rational it denotes, as
    the code only compares numbers. *)
Inductive num := Int (z : Z) | Flt (q : Q) | NaN | PInf | NInf.

Definition Qltb (a b : Q) : bool := (Qnum a * QDen b <? Qnum b * QDen a)%Z.

Definition finite (n : num) : option Q :=
  match n with
  | Int z => Some (inject_Z z)
  | Flt q => Some q
  | _ => None
  end.

(** [a < b]; every comparison with NaN is false *)
Definition num_lt (a b : num) : bool :=
  match a, b with
  | NaN, _ | _, NaN => false
  | PInf, _ => false
  | _, PInf => true
  | _, NInf => false
  | NInf, _ => true
  | _, _ =>
      match finite a, finite b with
      | Some x, Some y => Qltb x y
      | _, _ => false
      end
  end.

(** [min(a, b)] keeps [a] unless [b < a]; [max(a, b)] keeps [a] unless
    [b > a]. *)
Definition min (a b : num) : num := if num_lt b a then b else a.
Definition max (a b : num) : num := if num_lt a b then b else a.

(** *** JSON values, as [json.loads] and [response.json()] return them and
    as the tool arguments arrive *)
Inductive json :=
| JNull
| JBool (b : bool)
| JNum (n : num)
| JStr (s : string)
| JArr (l : list json)
| JObj (m : gmap string json).

Definition num_truthy (n : num) : bool :=
  match n with
  | Int z => negb (z =? 0)%Z
  | Flt q => negb (Qeq_bool q 0)
  | _ => true
  end.

(** [bool(v)] *)
Definition truthy (v : json) : bool :=
  match v with
  | JNull => false
  | JBool b => b
  | JNum n => num_truthy n
  | JStr s => negb (String.eqb s "")
  | JArr l => match l with [] => false | _ => true end
  | JObj m => match map_to_list m with [] => false | _ => true end
  end.

(** *** Exceptions and results *)
Inductive exn_kind :=
| Exception | ValueError | TypeError | KeyError | IndexError | AttributeError
| OverflowError | OSError | FileNotFoundError | PermissionError
| JSONDecodeError | UnicodeDecodeError | InvalidToken | TransportError.

(** [emsg e] is [str(e)] *)
Record exn := { ekind : exn_kind; emsg : string }.

Inductive res (A : Type) := Ok (a : A) | Raise (e : exn).
Arguments Ok {A} a.
Arguments Raise {A} e.

Class Monad (F : Type -> Type) := {
  ret : forall {A}, A -> F A;
  bind : forall {A B}, F A -> (A -> F B) -> F B
}.

#[global] Instance res_monad : Monad res := {
  ret := fun A a => Ok a;
  bind := fun A B m f =>
    match m with
    | Ok a => f a
    | Raise e => Raise e
    end
}.

Definition throw {A} (k : exn_kind) (m : string) : res A :=
  Raise {| ekind := k; emsg := m |}.

(** The state and error monad of effectful code *)
Definition M (S A : Type) : Type := S -> res A * S.

#[global] Instance M_monad {S} : Monad (M S) := {
  ret := fun A a s => (Ok a, s);
  bind := fun A B m f s =>
    match m s with
    | (Ok a, s') => f a s'
    | (Raise e, s') => (Raise e, s')
    end
}.

Definition get {S} : M S S := fun s => (Ok s, s).
Definition put {S} (s : S) : M S unit := fun _ => (Ok tt, s).
Definition raise {S A} (k : exn_kind) (m : string) : M S A :=
  fun s => (throw k m, s).
Definition lift {S A} (r : res A) : M S A := fun s => (r, s).

(** [try: m  except Exception as e: h e] *)
Definition try_except {S A} (m : M S A) (h : exn -> M S A) : M S A :=
  fun s =>
    match m s with
    | (Ok a, s') => (Ok a, s')
    | (Raise e, s') => h e s'
    end.

(** [v[k]] for a string key *)
Definition getitem (v : json) (k : string) : res json :=
  match v with
  | JObj m =>
      match m !! k with
      | Some x => Ok x
      | None => throw KeyError ("'" ++ k ++ "'")
      end
  | JArr _ => throw TypeError "list indices must be integers or slices, not str"
  | JStr _ => throw TypeError "string indices must be integers, not 'str'"
  | _ => throw TypeError "object is not subscriptable"
  end.

(** [v.get(k, d)] *)
Definition dict_get (v : json) (k : string) (d : json) : res json :=
  match v with
  | JObj m => Ok (default d (m !! k))
  | _ => throw AttributeError "object has no attribute 'get'"
  end.

(** [k in v] for a string [k] *)
Definition py_in (k : string) (v : json) : res bool :=
  match v with
  | JObj m => Ok (bool_decide (is_Some (m !! k)))
  | JArr l =>
      Ok (existsb (fun x => match x with JStr s => String.eqb s k | _ => false end) l)
  | JStr s => Ok (contains k s)
  | _ => throw TypeError "argument is not iterable"
  end.

(** [v[0]] *)
Definition index0 (v : json) : res json :=
  match v with
  | JArr (x :: _) => Ok x
  | JArr [] => throw IndexError "list index out of range"
  | JStr (String c _) => Ok (JStr (String c ""))
  | JStr EmptyString => throw IndexError "string index out of range"
  | JObj _ => throw KeyError "0"
  | _ => throw TypeError "object is not subscriptable"
  end.

(** [os.path.basename(p)] *)
Definition basename (p : string) : string := List.last (path_components "" p) "".

(** The number a value counts as in a comparison: a [bool] is an [int]. *)
Definition as_number (v : json) : option num :=
  match v with
  | JNum n => Some n
  | JBool b => Some (Int (if b then 1 else 0))
  | _ => None
  end.

(** [a < b] *)
Definition py_lt (a b : json) : res bool :=
  match as_number a, as_number b with
  | Some x, Some y => Ok (num_lt x y)
  | _, _ => throw TypeError "'<' not supported between instances"
  end.

(** [min(a, b)] and [max(a, b)] on values: one of the two operands *)
Definition py_min (a b : json) : res json :=
  match py_lt b a with
  | Ok lt => Ok (if lt then b else a)
  | Raise e => Raise e
  end.

Definition py_max (a b : json) : res json :=
  match py_lt a b with
  | Ok gt => Ok (if gt then b else a)
  | Raise e => Raise e
  end.

(** The largest magnitude [float(int)] accepts is below 2^1024 - 2^970. *)
Definition float_limit : Z := 2 ^ 1024 - 2 ^ 970.

(** [float(v)].  The float of an [int] beyond 2^53 is rounded by Python
    and kept exact here; the code clamps every such value to a bound, so
    the value it submits is the same. *)
Definition py_float (float_of_string : string -> option num) (v : json) : res num :=
  match v with
  | JNum (Int z) =>
      if (Z.abs z <? float_limit)%Z then Ok (Flt (inject_Z z))
      else throw OverflowError "int too large to convert to float"
  | JNum n => Ok n
  | JBool b => Ok (Flt (if b then 1 else 0))
  | JStr s =>
      match float_of_string s with
      | Some n => Ok n
      | None => throw ValueError "could not convert string to float"
      end
  | _ => throw TypeError "float() argument must be a string or a real number"
  end.

(** [int(v)]: a float is truncated toward zero *)
Definition py_int (int_of_string : string -> option Z) (v : json) : res Z :=
  match v with
  | JNum (Int z) => Ok z
  | JNum (Flt q) => Ok (Z.quot (Qnum q) (QDen q))
  | JNum NaN => throw ValueError "cannot convert float NaN to integer"
  | JNum _ => throw OverflowError "cannot convert float infinity to integer"
  | JBool b => Ok (if b then 1 else 0)%Z
  | JStr s =>
      match int_of_string s with
      | Some z => Ok z
      | None => throw ValueError "invalid literal for int() with base 10"
      end
  | _ => throw TypeError "int() argument must be a string or a real number"
  end.

(** ["\n"] and [sep.join(l)] *)
Definition nl : string := String (ascii_of_nat 10) "".

Fixpoint join (sep : string) (l : list string) : string :=
  match l with
  | [] => ""
  | [x] => x
  | x :: l' => x ++ sep ++ join sep l'
  end.

(** [v == s] for a string literal [s] *)
Definition eq_str (v : json) (s : string) : bool :=
  match v with
  | JStr t => String.eqb t s
  | _ => false
  end.

(** *** UTF-8 for code points below 256 *)
Abbreviation bytes := (list N).

Definition encode_char (c : ascii) : bytes :=
  let n := N_of_ascii c in
  if (n <? 128)%N then [n] else [(192 + n / 64)%N; (128 + n mod 64)%N].

(** [s.encode()] *)
Fixpoint encode (s : string) : bytes :=
  match s with
  | EmptyString => []
  | String c s' => encode_char c ++ encode s'
  end.

(** [b.decode()]; a sequence that is malformed, or that encodes a code
    point from U+0100 on, which the string model does not have, is a
    decoding error. *)
Fixpoint decode (b : bytes) : option string :=
  match b with
  | [] => Some EmptyString
  | x :: b' =>
      if (x <? 128)%N then String (ascii_of_N x) <$> decode b'
      else if ((194 <=? x) && (x <=? 195))%N then
        match b' with
        | y :: b'' =>
            if ((128 <=? y) && (y <? 192))%N
            then String (ascii_of_N ((x - 192) * 64 + (y - 128))) <$> decode b''
            else None
        | [] => None
        end
      else None
  end.

(** [s.endswith(p)] *)
Fixpoint endswith (s p : string) : bool :=
  String.eqb s p ||
  match s with
  | EmptyString => false
  | String _ s' => endswith s' p
  end.

End Py.

Notation "x <- c1 ;; c2" := (Py.bind c1 (fun x => c2))
  (at level 100, c1 at next level, right associativity).

(** ** token_manager.py *)

Module TokenManager.

(** [[A-Za-z0-9_-]] *)
Definition token_char (c : ascii) : bool :=
  Py.is_upper c || Py.is_lower c || Py.is_digit c
  || (Py.code c =? 95)%nat || (Py.code c =? 45)%nat.

(** [r'^pat_[A-Za-z0-9_-]+$'] *)
Definition token_re : list Py.piece := Py.lits "pat_" ++ [Py.Many1 token_char].

(** [SecureTokenManager._validate_token] *)
Definition _validate_token (token : string) : bool :=
  if decide (token = "") then false
  else if negb (Py.startswith token "pat_") then false
  else if (Py.len token <? 50)%nat || (200 <? Py.len token)%nat then false
  else if negb (Py.re_match token_re token) then false
  else true.

(** A file of the configuration directory: absent, present but not
    readable by the process, or present with its content. *)
Inductive file := Missing | Unreadable | Content (b : Py.bytes).

(** The configuration directory, with the number of values drawn so far
    from the system's entropy. *)
Record disk := {
  token_file : file;
  key_file : file;
  read_only : bool;
  drawn : nat
}.

Record credentials := { api_token : Py.json; workspace_id : Py.json }.

Definition exists_ (f : file) : bool :=
  match f with Missing => false | _ => true end.

Definition read_bytes (f : file) : Py.res Py.bytes :=
  match f with
  | Content b => Py.Ok b
  | Unreadable => Py.throw Py.PermissionError "Permission denied"
  | Missing => Py.throw Py.FileNotFoundError "No such file or directory"
  end.

Definition hex_char (c : ascii) : bool := Py.is_digit c || Py.in_range 97 102 c.

Definition dash : Py.piece := Py.lit "-".

(** [r'^[0-9a-f]{8}-[0-9a-f]{4}-[0-9a-f]{4}-[0-9a-f]{4}-[0-9a-f]{12}$'] *)
Definition uuid_re : list Py.piece :=
  [Py.Rep hex_char 8; dash; Py.Rep hex_char 4; dash; Py.Rep hex_char 4; dash;
   Py.Rep hex_char 4; dash; Py.Rep hex_char 12].

Section Store.

(** The [cryptography] and [json] libraries and the entropy of the
    system are outside the repository. *)
Variable urandom : nat -> Py.bytes.
Variable fernet_key_ok : Py.bytes -> bool.
Variable fernet_generate_key : Py.bytes -> Py.bytes.
Variable fernet_encrypt : Py.bytes -> Py.bytes -> Py.bytes -> Py.bytes.
Variable fernet_decrypt : Py.bytes -> Py.bytes -> option Py.bytes.
Variable json_loads : string -> option Py.json.
Variable json_dumps : Py.json -> string.
Variable sha256_hexdigest : Py.bytes -> string.

Definition draw : Py.M disk Py.bytes :=
  st <- Py.get ;;
  _ <- Py.put {| token_file := token_file st; key_file := key_file st;
                read_only := read_only st; drawn := S (drawn st) |} ;;
  Py.ret (urandom (drawn st)).

Definition write_key (key : Py.bytes) : Py.M disk unit :=
  st <- Py.get ;;
  if read_only st then Py.raise Py.OSError "Read-only file system"
  else Py.put {| token_file := token_file st; key_file := Content key;
                 read_only := read_only st; drawn := drawn st |}.

Definition write_token (data : Py.bytes) : Py.M disk unit :=
  st <- Py.get ;;
  if read_only st then Py.raise Py.OSError "Read-only file system"
  else Py.put {| token_file := Content data; key_file := key_file st;
                 read_only := read_only st; drawn := drawn st |}.

(** [SecureTokenManager._get_or_create_key] *)
Definition _get_or_create_key : Py.M disk Py.bytes :=
  st <- Py.get ;;
  if exists_ (key_file st) then Py.lift (read_bytes (key_file st))
  else
    r <- draw ;;
    let key := fernet_generate_key r in
    _ <- write_key key ;;
    Py.ret key.

(** [Fernet(key)] *)
Definition Fernet (key : Py.bytes) : Py.M disk Py.bytes :=
  if fernet_key_ok key then Py.ret key
  else Py.raise Py.ValueError "Fernet key must be 32 url-safe base64-encoded bytes.".

(** [SecureTokenManager._encrypt_data] *)
Definition _encrypt_data (data : string) : Py.M disk Py.bytes :=
  key <- _get_or_create_key ;;
  f <- Fernet key ;;
  r <- draw ;;
  Py.ret (fernet_encrypt f r (Py.encode data)).

(** [SecureTokenManager._decrypt_data] *)
Definition _decrypt_data (encrypted_data : Py.bytes) : Py.M disk string :=
  key <- _get_or_create_key ;;
  f <- Fernet key ;;
  match fernet_decrypt f encrypted_data with
  | None => Py.raise Py.InvalidToken ""
  | Some plain =>
      match Py.decode plain with
      | None => Py.raise Py.UnicodeDecodeError "'utf-8' codec can't decode"
      | Some s => Py.ret s
      end
  end.

(** The dictionary [store_token] serializes *)
Definition token_data (token workspace_id : string) : Py.json :=
  Py.JObj (<["api_token" := Py.JStr token]>
           (<["workspace_id" := Py.JStr workspace_id]>
            (<["token_hash" :=
                 Py.JStr (Py.take 16 (sha256_hexdigest (Py.encode token)))]> ∅))).

(** [SecureTokenManager.store_token] *)
Definition store_token (token workspace_id : string) : Py.M disk bool :=
  Py.try_except
    (if negb (_validate_token token)
     then Py.raise Py.ValueError "Invalid Layer.ai token format"
     else
       encrypted_data <- _encrypt_data (json_dumps (token_data token workspace_id)) ;;
       _ <- write_token encrypted_data ;;
       Py.ret true)
    (fun _ => Py.ret false).

(** [_validate_token] applied to a value read back from the record: only
    a string has [startswith]. *)
Definition validate_stored (v : Py.json) : Py.res bool :=
  if negb (Py.truthy v) then Py.Ok false
  else match v with
       | Py.JStr s => Py.Ok (_validate_token s)
       | _ => Py.throw Py.AttributeError "object has no attribute 'startswith'"
       end.

(** [SecureTokenManager.get_token] *)
Definition get_token : Py.M disk (option credentials) :=
  Py.try_except
    (st <- Py.get ;;
     if negb (exists_ (token_file st)) then Py.ret None
     else
       encrypted_data <- Py.lift (read_bytes (token_file st)) ;;
       decrypted_data <- _decrypt_data encrypted_data ;;
       match json_loads decrypted_data with
       | None => Py.raise Py.JSONDecodeError "Expecting value"
       | Some td =>
           tok <- Py.lift (Py.getitem td "api_token") ;;
           valid <- Py.lift (validate_stored tok) ;;
           if negb valid then Py.ret None
           else
             a <- Py.lift (Py.getitem td "api_token") ;;
             w <- Py.lift (Py.getitem td "workspace_id") ;;
             Py.ret (Some {| api_token := a; workspace_id := w |})
       end)
    (fun _ => Py.ret None).

(** [os.getenv(name, "")] *)
Definition getenv (env : gmap string string) (name : string) : string :=
  default "" (env !! name).

(** [EnvironmentTokenManager.get_token] *)
Definition env_get_token (env : gmap string string) : option credentials :=
  let api_token := Py.strip (getenv env "LAYER_API_TOKEN") in
  let workspace_id := Py.strip (getenv env "LAYER_WORKSPACE_ID") in
  if String.eqb api_token "" || String.eqb workspace_id "" then None
  else if negb (Py.startswith api_token "pat_") || (Py.len api_token <? 50)%nat then None
  else if negb (Py.re_match uuid_re workspace_id) then None
  else Some {| api_token := Py.JStr api_token; workspace_id := Py.JStr workspace_id |}.

(** [LayerTokenManager.get_credentials] *)
Definition get_credentials (env : gmap string string) : Py.M disk (option credentials) :=
  credentials <- get_token ;;
  match credentials with
  | Some c => Py.ret (Some c)
  | None =>
      match env_get_token env with
      | Some c => Py.ret (Some c)
      | None => Py.ret None
      end
  end.

(** [LayerTokenManager.store_credentials] *)
Definition store_credentials (api_token workspace_id : string) : Py.M disk bool :=
  store_token api_token workspace_id.

(** [self.token_file.unlink()] *)
Definition unlink_token : Py.M disk unit :=
  st <- Py.get ;;
  if read_only st then Py.raise Py.OSError "Read-only file system"
  else Py.put {| token_file := Missing; key_file := key_file st;
                 read_only := read_only st; drawn := drawn st |}.

(** [SecureTokenManager.clear_token] *)
Definition clear_token : Py.M disk bool :=
  Py.try_except
    (st <- Py.get ;;
     _ <- (if exists_ (token_file st) then unlink_token else Py.ret tt) ;;
     Py.ret true)
    (fun _ => Py.ret false).

(** [LayerTokenManager.setup_interactive]; [typed_token] and
    [typed_workspace] are the lines the two calls of [input] return (the
    second is not asked for when the first is blank). *)
Definition setup_interactive (typed_token typed_workspace : string) : Py.M disk bool :=
  let api_token := Py.strip typed_token in
  if String.eqb api_token "" then Py.ret false
  else
    let workspace_id := Py.strip typed_workspace in
    if String.eqb workspace_id "" then Py.ret false
    else
      stored <- store_credentials api_token workspace_id ;;
      if stored then Py.ret true else Py.ret false.

End Store.

End TokenManager.

(** ** The world of the server: network, clock and file system *)

Module World.

Inductive request :=
| Post (operation : string) (variables : Py.json)
| Put (url : string) (file_path : string)
| Get (url : string).

(** What [httpx] gives back: an exception (connection error, timeout),
    or a response; [body] is [response.json()], absent when the text is
    not JSON. *)
Inductive reply :=
| Failure (e : Py.exn)
| Response (status_code : Z) (headers : gmap string string) (text : string)
           (body : option Py.json).

Inductive node :=
| Directory
| RegularFile (size : N) (readable : bool).

Inductive level := INFO | WARNING | ERROR.

(** [outbox] lists the requests sent and [log] the records of [logger],
    latest first; [slept] is the sum of the arguments of
    [asyncio.sleep]. *)
Record world := {
  outbox : list request;
  slept : Z;
  fs : gmap string node;
  log : list (level * string)
}.

Section Oracle.

(** [net n] answers the request sent when [n] requests had been sent. *)
Variable net : nat -> reply.

Definition send (r : request) : Py.M world reply :=
  w <- Py.get ;;
  _ <- Py.put {| outbox := r :: outbox w; slept := slept w; fs := fs w;
                log := log w |} ;;
  Py.ret (net (length (outbox w))).

(** [await asyncio.sleep(seconds)] *)
Definition sleep (seconds : Z) : Py.M world unit :=
  w <- Py.get ;;
  Py.put {| outbox := outbox w; slept := slept w + seconds; fs := fs w;
            log := log w |}.

(** The file system after a write *)
Definition set_fs (fs' : gmap string node) : Py.M world unit :=
  w <- Py.get ;;
  Py.put {| outbox := outbox w; slept := slept w; fs := fs'; log := log w |}.

(** [logger.info], [logger.warning], [logger.error] *)
Definition logger (l : level) (message : string) : Py.M world unit :=
  w <- Py.get ;;
  Py.put {| outbox := outbox w; slept := slept w; fs := fs w;
            log := (l, message) :: log w |}.

(** [os.path.exists], [os.path.isfile] *)
Definition stat (w : world) (p : string) : option node :=
  if String.eqb p "" then None else fs w !! p.

Definition path_exists (p : string) : Py.M world bool :=
  w <- Py.get ;; Py.ret (bool_decide (is_Some (stat w p))).

Definition path_isfile (p : string) : Py.M world bool :=
  w <- Py.get ;;
  Py.ret (match stat w p with Some (RegularFile _ _) => true | _ => false end).

(** [open(p, 'rb').read()], for what the model keeps of it: whether it
    raises *)
Definition read_file (p : string) : Py.M world unit :=
  w <- Py.get ;;
  match stat w p with
  | Some (RegularFile _ true) => Py.ret tt
  | Some (RegularFile _ false) => Py.raise Py.PermissionError "Permission denied"
  | Some Directory => Py.raise Py.OSError "Is a directory"
  | None => Py.raise Py.FileNotFoundError "No such file or directory"
  end.

End Oracle.

(** The loop over [input_files], the same text in [_create_asset] and in
    [_handle_input_files]; [upload] is the [_upload_file_to_layer] of the
    server at hand.  It returns [file_urls] and [failed_uploads]. *)
Section InputFiles.

Variable upload : string -> Py.M world string.

Fixpoint upload_each (input_files : list string) (file_urls : list Py.json)
    (failed_uploads : list string) : Py.M world (list Py.json * list string) :=
  match input_files with
  | [] => Py.ret (file_urls, failed_uploads)
  | file_path :: rest =>
      e <- path_exists file_path ;;
      if negb e
      then upload_each rest file_urls
             (failed_uploads ++ [file_path ++ " (file not found)"])
      else
        r <- Py.try_except
               (file_url <- upload file_path ;;
                _ <- logger INFO ("✅ Uploaded: " ++ file_path) ;;
                Py.ret (inl file_url))
               (fun e =>
                  _ <- logger ERROR
                         ("❌ Failed to upload " ++ file_path ++ ": " ++ Py.emsg e) ;;
                  Py.ret (inr e)) ;;
        match r with
        | inl file_url =>
            upload_each rest
              (file_urls ++ [Py.JObj {[ "url" := Py.JStr file_url ]}]) failed_uploads
        | inr e =>
            upload_each rest file_urls
              (failed_uploads ++ [file_path ++ " (" ++ Py.emsg e ++ ")"])
        end
  end.

(** [error_msg] of both servers *)
Definition upload_error_msg (failed_uploads : list string) : string :=
  "❌ Failed to upload " ++ pretty (length failed_uploads) ++ " file(s):" ++ Py.nl
  ++ Py.join Py.nl (List.map (fun f => "  • " ++ f) failed_uploads).

End InputFiles.

End World.

(** ** pathlib on POSIX paths, up to Python 3.13 *)

Module Pathlib.

(** A parsed path: its root, which is empty, [/] or [//], and its
    components *)
Record path := { root : string; tail : list string }.

(** [posixpath.splitroot]: exactly two leading slashes are kept *)
Definition parse_root (p : string) : string :=
  if Py.startswith p "/" then
    if Py.startswith p "//" && negb (Py.startswith p "///") then "//" else "/"
  else "".

(** The components of a path: empty ones and [.] are dropped. *)
Definition components (p : string) : list string :=
  List.filter (fun x => negb (String.eqb x "" || String.eqb x "."))
              (Py.path_components "" p).

(** [Path(p)] *)
Definition Path (p : string) : path :=
  {| root := parse_root p; tail := components p |}.

(** [str(path)] *)
Definition str (p : path) : string :=
  if String.eqb (root p) "" then
    match tail p with
    | [] => "."
    | _ :: _ => Py.join "/" (tail p)
    end
  else root p ++ Py.join "/" (tail p).

(** [path.name] *)
Definition name (p : path) : string := List.last (tail p) "".

(** [path.suffix] *)
Definition suffix (p : path) : string :=
  let name := name p in
  match Py.rfind_dot name with
  | Some i => if (0 <? i)%nat && (i <? Py.len name - 1)%nat then Py.drop i name else ""
  | None => ""
  end.

(** [path.stem] *)
Definition stem (p : path) : string :=
  let name := name p in
  match Py.rfind_dot name with
  | Some i => if (0 <? i)%nat && (i <? Py.len name - 1)%nat then Py.take i name else name
  | None => name
  end.

(** [path.with_suffix(suffix)].  The message of an invalid suffix shows
    the suffix between quotes, as [repr] does for a string without quotes
    or escapes. *)
Definition with_suffix (p : path) (sfx : string) : Py.res path :=
  if Py.contains "/" sfx then Py.throw Py.ValueError ("Invalid suffix '" ++ sfx ++ "'")
  else if (negb (String.eqb sfx "") && negb (Py.startswith sfx "."))
          || String.eqb sfx "."
  then Py.throw Py.ValueError ("Invalid suffix '" ++ sfx ++ "'")
  else
    let name := name p in
    if String.eqb name ""
    then Py.throw Py.ValueError ("PosixPath('" ++ str p ++ "') has an empty name")
    else
      let old_suffix := suffix p in
      let name :=
        if String.eqb old_suffix "" then name ++ sfx
        else Py.take (Py.len name - Py.len old_suffix) name ++ sfx in
      Py.Ok {| root := root p; tail := removelast (tail p) ++ [name] |}.

(** [path / key] for a string [key]: an absolute [key] replaces the
    path. *)
Definition joinpath (p : path) (key : string) : path :=
  if Py.startswith key "/" then Path key
  else {| root := root p; tail := tail p ++ components key |}.

End Pathlib.

(** ** production_ready_layer_ai_server.py *)

Module ProductionReady.
Import World.

Section Server.

Variable net : nat -> reply.
Variable workspace_id : string.

(** [str(v)] of a number or of a container, which the code only prints *)
Variable repr : Py.json -> string.

(** [str(v)] *)
Definition str (v : Py.json) : string :=
  match v with
  | Py.JStr s => s
  | Py.JNull => "None"
  | Py.JBool true => "True"
  | Py.JBool false => "False"
  | _ => repr v
  end.

(** What one attempt makes of the response: the JSON result, or an
    exception. *)
Definition read_response (response : reply) : Py.res Py.json :=
  match response with
  | Failure e => Py.Raise e
  | Response status_code _ text body =>
      if (status_code =? 200)%Z then
        match body with
        | None => Py.throw Py.JSONDecodeError "Expecting value"
        | Some result =>
            has_errors <- Py.py_in "errors" result ;;
            if has_errors : bool then
              errors <- Py.getitem result "errors" ;;
              first <- Py.index0 errors ;;
              error_msg <- Py.dict_get first "message" (Py.JStr "Unknown GraphQL error") ;;
              Py.throw Py.Exception ("GraphQL error: " ++ str error_msg)
            else Py.Ok result
        end
      else
        Py.throw Py.Exception
          ("API request failed with status " ++ pretty status_code ++ ": " ++ text)
  end.

(** The body of the [try] of one attempt: post, then read the response. *)
Definition attempt_once (operation : string) (variables : Py.json) : Py.M world Py.json :=
  response <- send net (Post operation variables) ;;
  Py.lift (read_response response).

Definition str_last_error (last_error : option Py.exn) : string :=
  match last_error with
  | Some e => Py.emsg e
  | None => "None"
  end.

(** The [for attempt in range(max_retries)] loop, over the attempts that
    remain, and the [raise] that follows it *)
Fixpoint attempts (operation : string) (variables : Py.json) (max_retries : nat)
    (todo : list nat) (last_error : option Py.exn) : Py.M world Py.json :=
  match todo with
  | [] =>
      Py.raise Py.Exception
        ("GraphQL request failed after " ++ pretty max_retries ++ " attempts: "
         ++ str_last_error last_error)
  | attempt :: todo' =>
      r <- Py.try_except
            (result <- attempt_once operation variables ;; Py.ret (inl result))
            (fun e =>
               _ <- (if (attempt <? max_retries - 1)%nat
                    then
                      let wait_time := 2 ^ Z.of_nat attempt in
                      _ <- logger WARNING
                             ("Request failed (attempt " ++ pretty (attempt + 1)%nat
                              ++ "/" ++ pretty max_retries ++ "), retrying in "
                              ++ pretty wait_time ++ "s: " ++ Py.emsg e) ;;
                      sleep wait_time
                    else
                      logger ERROR
                        ("All " ++ pretty max_retries ++ " attempts failed")) ;;
               Py.ret (inr e)) ;;
      match r with
      | inl result => Py.ret result
      | inr e => attempts operation variables max_retries todo' (Some e)
      end
  end.

(** [_make_graphql_request(query, variables, max_retries)] *)
Definition _make_graphql_request_n (operation : string) (variables : Py.json)
    (max_retries : nat) : Py.M world Py.json :=
  attempts operation variables max_retries (seq 0 max_retries) None.

(** [_make_graphql_request(query, variables)], [max_retries] left to its
    default *)
Definition _make_graphql_request (operation : string) (variables : Py.json)
    : Py.M world Py.json :=
  _make_graphql_request_n operation variables 3.

Definition upload_variables (filename : string) : Py.json :=
  Py.JObj {[ "input" :=
    Py.JObj (<["workspaceId" := Py.JStr workspace_id]>
             {[ "filenames" := Py.JArr [Py.JStr filename] ]}) ]}.

(** The first [try] of [_upload_file_to_layer]: ask for an upload slot. *)
Definition get_upload_url (filename : string) : Py.M world (Py.json * Py.json) :=
  Py.try_except
    (result <- _make_graphql_request "CreateUploadUrls" (upload_variables filename) ;;
     data <- Py.lift (Py.dict_get result "data" (Py.JObj ∅)) ;;
     create_upload_response <- Py.lift (Py.dict_get data "createUploadUrls" Py.JNull) ;;
     if negb (Py.truthy create_upload_response)
     then Py.raise Py.Exception "Invalid response from createUploadUrls"
     else
       has_message <- Py.lift (Py.py_in "message" create_upload_response) ;;
       if has_message then
         m <- Py.lift (Py.getitem create_upload_response "message") ;;
         Py.raise Py.Exception ("Upload URL creation failed: " ++ str m)
       else
         upload_urls <- Py.lift
           (Py.dict_get create_upload_response "uploadUrls" (Py.JArr [])) ;;
         if negb (Py.truthy upload_urls)
         then Py.raise Py.Exception "No upload URLs received from Layer.ai API"
         else
           upload_info <- Py.lift (Py.index0 upload_urls) ;;
           upload_url <- Py.lift (Py.dict_get upload_info "url" Py.JNull) ;;
           file_id <- Py.lift (Py.dict_get upload_info "fileId" Py.JNull) ;;
           if negb (Py.truthy upload_url) || negb (Py.truthy file_id)
           then Py.raise Py.Exception "Invalid upload URL or file ID received"
           else Py.ret (upload_url, file_id))
    (fun e => Py.raise Py.Exception ("Failed to get upload URL: " ++ Py.emsg e)).

(** The second [try]: read the file and send its bytes. *)
Definition put_file (file_path : string) (upload_url : Py.json) : Py.M world unit :=
  Py.try_except
    (_ <- read_file file_path ;;
     match upload_url with
     | Py.JStr url =>
         upload_response <- send net (Put url file_path) ;;
         match upload_response with
         | Failure e => Py.lift (Py.Raise e)
         | Response status_code _ text _ =>
             if negb ((status_code =? 200)%Z || (status_code =? 201)%Z)
             then Py.raise Py.Exception
                    ("Upload failed with status " ++ pretty status_code ++ ": " ++ text)
             else Py.ret tt
         end
     | _ => Py.raise Py.TypeError "Invalid type for url"
     end)
    (fun e => Py.raise Py.Exception ("Failed to upload file: " ++ Py.emsg e)).

Definition media_url (file_id : Py.json) (filename : string) : string :=
  "https://media.app.layer.ai/workspaces/" ++ workspace_id ++ "/files/"
  ++ str file_id ++ "/" ++ filename.

(** [_upload_file_to_layer] *)
Definition _upload_file_to_layer (file_path : string) : Py.M world string :=
  if String.eqb file_path "" then Py.raise Py.ValueError "File path cannot be empty"
  else
    e <- path_exists file_path ;;
    if negb e then Py.raise Py.FileNotFoundError ("File not found: " ++ file_path)
    else
      f <- path_isfile file_path ;;
      if negb f then Py.raise Py.ValueError ("Path is not a file: " ++ file_path)
      else
        let filename := Py.basename file_path in
        slot <- get_upload_url filename ;;
        let '(upload_url, file_id) := slot in
        _ <- put_file file_path upload_url ;;
        Py.ret (media_url file_id filename).

(** [_determine_file_extension] *)
Definition _determine_file_extension (content_type filename : string) : string :=
  let content_type_lower := Py.lower content_type in
  if Py.contains "image" content_type_lower then
    if Py.contains "png" content_type_lower then ".png"
    else if Py.contains "jpeg" content_type_lower || Py.contains "jpg" content_type_lower
    then ".jpg"
    else if Py.contains "gif" content_type_lower then ".gif"
    else if Py.contains "svg" content_type_lower then ".svg"
    else if Py.contains "webp" content_type_lower then ".webp"
    else ".png"
  else if Py.contains "video" content_type_lower then
    if Py.contains "mp4" content_type_lower then ".mp4"
    else if Py.contains "webm" content_type_lower then ".webm"
    else ".mp4"
  else if Py.contains "audio" content_type_lower then
    if Py.contains "wav" content_type_lower then ".wav"
    else if Py.contains "mp3" content_type_lower then ".mp3"
    else ".wav"
  else if Py.contains "model" content_type_lower
          || Py.contains "application/octet-stream" content_type_lower
  then ".glb"
  else
    let file_ext := Py.path_suffix filename in
    if negb (String.eqb file_ext "") then file_ext else ".png".

(** *** Downloading the result *)

(** What follows a [200] in [_download_result_files]: resolve the target
    path from [save_path], the file name and the extension, create its
    directory and write the file.  It gives the path written, or
    raises. *)
Variable persist : string -> string -> string -> gmap string node ->
                   Py.res (string * gmap string node).

Inductive download_report :=
| NoFilesGenerated
| NoDownloadUrl
| FileSaved (full_path : string) (file_size : nat) (file_url content_type : string)
| DownloadFailed (status_code : Z)
| DownloadError (e : Py.exn).

(** The [try] of [_download_result_files].  The URL and the name of a
    file are strings in the replies of the API; another value makes the
    library calls raise. *)
Definition fetch_and_save (file_url filename : Py.json) (save_path : string)
    : Py.M world download_report :=
  Py.try_except
    (match file_url with
     | Py.JStr url =>
         download_response <- send net (Get url) ;;
         match download_response with
         | Failure e => Py.lift (Py.Raise e)
         | Response status_code headers text _ =>
             if (status_code =? 200)%Z then
               let content_type := default "" (headers !! "content-type") in
               match filename with
               | Py.JStr name =>
                   let ext := _determine_file_extension content_type name in
                   w <- Py.get ;;
                   match persist save_path name ext (fs w) with
                   | Py.Ok (full_path, fs') =>
                       _ <- set_fs fs' ;;
                       Py.ret (FileSaved full_path (Py.len text) url content_type)
                   | Py.Raise e => Py.lift (Py.Raise e)
                   end
               | _ => Py.raise Py.TypeError "expected str, bytes or os.PathLike object"
               end
             else Py.ret (DownloadFailed status_code)
         end
     | _ => Py.raise Py.TypeError "Invalid type for url"
     end)
    (fun e => Py.ret (DownloadError e)).

(** [_download_result_files] *)
Definition _download_result_files (inference_data : Py.json) (save_path : string)
    : Py.M world download_report :=
  files <- Py.lift (Py.dict_get inference_data "files" (Py.JArr [])) ;;
  if negb (Py.truthy files) then Py.ret NoFilesGenerated
  else
    file_info <- Py.lift (Py.index0 files) ;;
    file_url <- Py.lift (Py.dict_get file_info "url" Py.JNull) ;;
    id <- Py.lift (Py.getitem inference_data "id") ;;
    filename <- Py.lift (Py.dict_get file_info "name" (Py.JStr ("result_" ++ str id))) ;;
    if negb (Py.truthy file_url) then Py.ret NoDownloadUrl
    else fetch_and_save file_url filename save_path.

(** *** Waiting for completion *)

Definition max_wait_time : Z := 300.
Definition check_interval : Z := 5.
Definition max_consecutive_failures : Z := 3.

(** The local variables the loop updates *)
Record locals := { elapsed_time : Z; consecutive_failures : Z }.

Inductive poll_report :=
| InferenceNotFound
| Completed (elapsed : Z) (download : download_report)
| GenerationFailed (elapsed : Z)
| GenerationCancelled (elapsed : Z)
| StatusCheckFailed (failures : Z) (last_error : Py.exn)
| TimedOut (after : Z).

Definition in_world {A} (m : Py.M world A) : Py.M (world * locals) A :=
  fun s => let (r, w') := m (fst s) in (r, (w', snd s)).

Definition get_locals : Py.M (world * locals) locals :=
  fun s => (Py.Ok (snd s), s).

(** [consecutive_failures = n] *)
Definition set_failures (n : Z) : Py.M (world * locals) unit :=
  fun s => (Py.Ok tt, (fst s, {| elapsed_time := elapsed_time (snd s);
                                 consecutive_failures := n |})).

(** [elapsed_time += seconds] *)
Definition add_elapsed (seconds : Z) : Py.M (world * locals) unit :=
  fun s => (Py.Ok tt, (fst s, {| elapsed_time := elapsed_time (snd s) + seconds;
                                 consecutive_failures := consecutive_failures (snd s) |})).

Definition status_variables (inference_id : Py.json) : Py.json :=
  Py.JObj {[ "input" := Py.JObj {[ "inferenceIds" := Py.JArr [inference_id] ]} ]}.

(** The validation of the response in the [try] of one iteration: the
    value of [inferences], or an exception. *)
Definition read_inferences (status_result : Py.json) : Py.res Py.json :=
  data <- Py.dict_get status_result "data" (Py.JObj ∅) ;;
  get_inferences_response <- Py.dict_get data "getInferencesById" Py.JNull ;;
  if negb (Py.truthy get_inferences_response)
  then Py.throw Py.Exception "Invalid response structure from getInferencesById"
  else
    has_message <- Py.py_in "message" get_inferences_response ;;
    if has_message : bool then
      m <- Py.getitem get_inferences_response "message" ;;
      Py.throw Py.Exception ("API error: " ++ str m)
    else Py.dict_get get_inferences_response "inferences" (Py.JArr []).

(** What the [try] does with the response; [Some report] is a
    [return]. *)
Definition examine (status_result : Py.json) (save_path : string)
    : Py.M (world * locals) (option poll_report) :=
  inferences <- Py.lift (read_inferences status_result) ;;
  if negb (Py.truthy inferences) then Py.ret (Some InferenceNotFound)
  else
    _ <- set_failures 0 ;;
    l <- get_locals ;;
    inference_data <- Py.lift (Py.index0 inferences) ;;
    current_status <- Py.lift
      (Py.dict_get inference_data "status" (Py.JStr "UNKNOWN")) ;;
    if Py.eq_str current_status "COMPLETE" then
      d <- in_world (_download_result_files inference_data save_path) ;;
      Py.ret (Some (Completed (elapsed_time l) d))
    else if Py.eq_str current_status "FAILED" then
      Py.ret (Some (GenerationFailed (elapsed_time l)))
    else if Py.eq_str current_status "CANCELLED" then
      Py.ret (Some (GenerationCancelled (elapsed_time l)))
    else Py.ret None.

(** The [try] of one iteration: ask for the status, then examine the
    response. *)
Definition poll (inference_id : Py.json) (save_path : string)
    : Py.M (world * locals) (option poll_report) :=
  status_result <- in_world
    (_make_graphql_request "GetInferenceStatus" (status_variables inference_id)) ;;
  examine status_result save_path.

(** The [except] of one iteration *)
Definition poll_failed (e : Py.exn) : Py.M (world * locals) (option poll_report) :=
  l <- get_locals ;;
  let failures := consecutive_failures l + 1 in
  _ <- set_failures failures ;;
  _ <- in_world (logger WARNING
         ("Failed to check inference status (attempt " ++ pretty failures ++ "): "
          ++ Py.emsg e)) ;;
  if (failures >=? max_consecutive_failures)%Z
  then Py.ret (Some (StatusCheckFailed failures e))
  else Py.ret None.

(** The [while] loop and the [return] after it; [None] when the fuel of
    the model runs out before the loop ends. *)
Fixpoint wait_loop (fuel : nat) (inference_id : Py.json) (save_path : string)
    : Py.M (world * locals) (option poll_report) :=
  match fuel with
  | O => Py.ret None
  | S fuel' =>
      l <- get_locals ;;
      if (elapsed_time l <? max_wait_time)%Z then
        r <- Py.try_except (poll inference_id save_path) poll_failed ;;
        match r with
        | Some report => Py.ret (Some report)
        | None =>
            _ <- in_world (sleep check_interval) ;;
            _ <- add_elapsed check_interval ;;
            wait_loop fuel' inference_id save_path
        end
      else Py.ret (Some (TimedOut max_wait_time))
  end.

(** [_wait_for_completion_with_retry] *)
Definition _wait_for_completion_with_retry (fuel : nat) (inference_id : Py.json)
    (save_path : string) : Py.M world (option poll_report) :=
  fun w =>
    let (r, s) := wait_loop fuel inference_id save_path
                    (w, {| elapsed_time := 0; consecutive_failures := 0 |}) in
    (r, fst s).

(** *** Creating an asset *)

(** [float(s)] and [int(s)] of a string, from the Python runtime, and the
    effect of [Path(p).parent.mkdir(parents=True, exist_ok=True)] on the
    file system *)
Variable float_of_string : string -> option Py.num.
Variable int_of_string : string -> option Z.
Variable mkdir_parents : string -> gmap string node -> Py.res (gmap string node).

(** [arguments.get(k, d)] *)
Definition arg (arguments : gmap string Py.json) (k : string) (d : Py.json) : Py.json :=
  default d (arguments !! k).

(** [max(lo, min(hi, v))] on a value of the arguments *)
Definition clamp (lo hi : Py.num) (v : Py.json) : Py.res Py.json :=
  m <- Py.py_min (Py.JNum hi) v ;;
  Py.py_max (Py.JNum lo) m.

(** [max(lo, min(hi, x))] on a number *)
Definition clamp_num (lo hi x : Py.num) : Py.num := Py.max lo (Py.min hi x).

Definition is_none (v : Py.json) : bool :=
  match v with Py.JNull => true | _ => false end.

(** [# Add optional parameters] *)
Definition optional_parameters (arguments : gmap string Py.json)
    (parameters : gmap string Py.json) : Py.res (gmap string Py.json) :=
  let negative_prompt := arg arguments "negative_prompt" Py.JNull in
  let seed := arg arguments "seed" Py.JNull in
  let creativity := arg arguments "creativity" Py.JNull in
  let resemblance := arg arguments "resemblance" Py.JNull in
  let upscale_ratio := arg arguments "upscale_ratio" Py.JNull in
  let duration_seconds := arg arguments "duration_seconds" Py.JNull in
  let transparency := arg arguments "transparency" Py.JNull in
  let tileability := arg arguments "tileability" Py.JNull in
  let include_textures := arg arguments "include_textures" Py.JNull in
  let face_limit := arg arguments "face_limit" Py.JNull in
  parameters <-
    (if Py.truthy negative_prompt then
       match negative_prompt with
       | Py.JStr s => Py.Ok (<["negativePrompt" := Py.JStr (Py.strip s)]> parameters)
       | _ => Py.throw Py.AttributeError "object has no attribute 'strip'"
       end
     else Py.Ok parameters) ;;
  parameters <-
    (if negb (is_none seed) then
       z <- Py.py_int int_of_string seed ;;
       Py.Ok (<["seed" := Py.JNum (Py.Int z)]> parameters)
     else Py.Ok parameters) ;;
  parameters <-
    (if negb (is_none creativity) then
       x <- Py.py_float float_of_string creativity ;;
       Py.Ok (<["creativity" := Py.JNum (clamp_num (Py.Flt 0) (Py.Flt 1) x)]> parameters)
     else Py.Ok parameters) ;;
  parameters <-
    (if negb (is_none resemblance) then
       x <- Py.py_float float_of_string resemblance ;;
       Py.Ok (<["resemblance" := Py.JNum (clamp_num (Py.Flt 0) (Py.Flt 1) x)]> parameters)
     else Py.Ok parameters) ;;
  parameters <-
    (if Py.truthy upscale_ratio then
       x <- Py.py_float float_of_string upscale_ratio ;;
       Py.Ok (<["upscaleRatio" := Py.JNum (clamp_num (Py.Flt 1) (Py.Flt 8) x)]> parameters)
     else Py.Ok parameters) ;;
  parameters <-
    (if Py.truthy duration_seconds then
       x <- Py.py_float float_of_string duration_seconds ;;
       Py.Ok (<["durationSeconds" := Py.JNum (clamp_num (Py.Flt 1) (Py.Flt 60) x)]>
                parameters)
     else Py.Ok parameters) ;;
  let parameters :=
    if negb (is_none transparency)
    then <["transparency" := Py.JBool (Py.truthy transparency)]> parameters
    else parameters in
  let parameters :=
    if negb (is_none tileability)
    then <["tileability" := Py.JBool (Py.truthy tileability)]> parameters
    else parameters in
  let parameters :=
    if negb (is_none include_textures)
    then <["includeTextures" := Py.JBool (Py.truthy include_textures)]> parameters
    else parameters in
  if Py.truthy face_limit then
    z <- Py.py_int int_of_string face_limit ;;
    Py.Ok (<["faceLimit" := Py.JNum (clamp_num (Py.Int 100) (Py.Int 10000) (Py.Int z))]>
             parameters)
  else Py.Ok parameters.

(** The paths an [input_files] value yields when iterated.  The tool
    declares an array of strings; any other value is taken to raise. *)
Fixpoint path_items (l : list Py.json) : Py.res (list string) :=
  match l with
  | [] => Py.Ok []
  | Py.JStr p :: l' => ps <- path_items l' ;; Py.Ok (p :: ps)
  | _ :: _ => Py.throw Py.TypeError "expected str, bytes or os.PathLike object"
  end.

Definition iter_paths (input_files : Py.json) : Py.res (list string) :=
  match input_files with
  | Py.JArr l => path_items l
  | _ => Py.throw Py.TypeError "expected a list of paths"
  end.

Inductive asset_result :=
| PromptRequired
| UploadsFailed (error_msg : string)
| GenerationRejected (message : Py.json)
| InvalidInferenceResponse (inference_response : Py.json)
| Started (inference_id status created_at : Py.json)
| Waited (inference_id status created_at : Py.json) (completion : option poll_report)
| CreationFailed (e : Py.exn).

(** [# Handle input files]: [inl] is the early [return], [inr] the
    parameters to submit. *)
Definition handle_input_files (input_files : Py.json)
    (parameters : gmap string Py.json)
    : Py.M world (asset_result + gmap string Py.json) :=
  if Py.truthy input_files then
    paths <- Py.lift (iter_paths input_files) ;;
    r <- upload_each _upload_file_to_layer paths [] [] ;;
    let '(file_urls, failed_uploads) := r in
    let error_msg := upload_error_msg failed_uploads in
    let all_failed :=
      match failed_uploads, file_urls with
      | _ :: _, [] => true
      | _, _ => false
      end in
    if all_failed then Py.ret (inl (UploadsFailed error_msg))
    else
      _ <- (match failed_uploads with
            | _ :: _ => logger WARNING error_msg
            | [] => Py.ret tt
            end) ;;
      match file_urls with
      | _ :: _ => Py.ret (inr (<["files" := Py.JArr file_urls]> parameters))
      | [] => Py.ret (inr parameters)
      end
  else Py.ret (inr parameters).

Definition inference_variables (parameters : gmap string Py.json) : Py.json :=
  Py.JObj {[ "input" :=
    Py.JObj (<["workspaceId" := Py.JStr workspace_id]>
             {[ "parameters" := Py.JObj parameters ]}) ]}.

(** [# Create inference] and what follows it *)
Definition create_inference (fuel : nat) (parameters : gmap string Py.json)
    (wait_for_completion : Py.json) (save_path : string) : Py.M world asset_result :=
  result <- _make_graphql_request "CreateInference" (inference_variables parameters) ;;
  data <- Py.lift (Py.getitem result "data") ;;
  inference_response <- Py.lift (Py.getitem data "createInference") ;;
  has_message <- Py.lift (Py.py_in "message" inference_response) ;;
  if has_message then
    m <- Py.lift (Py.getitem inference_response "message") ;;
    Py.ret (GenerationRejected m)
  else
    has_id <- (if negb (Py.truthy inference_response) then Py.ret false
               else Py.lift (Py.py_in "id" inference_response)) ;;
    if negb has_id then Py.ret (InvalidInferenceResponse inference_response)
    else
      inference_id <- Py.lift (Py.getitem inference_response "id") ;;
      status <- Py.lift (Py.getitem inference_response "status") ;;
      created_at <- Py.lift (Py.getitem inference_response "createdAt") ;;
      if negb (Py.truthy wait_for_completion)
      then Py.ret (Started inference_id status created_at)
      else
        completion_result <- _wait_for_completion_with_retry fuel inference_id save_path ;;
        Py.ret (Waited inference_id status created_at completion_result).

(** [_create_asset] up to [# Create inference]: [inl] is an early
    [return], [inr] carries the parameters to submit together with
    [wait_for_completion] and [save_path]. *)
Definition prepare_submission (arguments : gmap string Py.json)
    : Py.M world (asset_result + gmap string Py.json * Py.json * string) :=
  let prompt := arg arguments "prompt" Py.JNull in
  stripped <- (if negb (Py.truthy prompt) then Py.ret None
               else match prompt with
                    | Py.JStr s => Py.ret (Some (Py.strip s))
                    | _ => Py.raise Py.AttributeError "object has no attribute 'strip'"
                    end) ;;
  match stripped with
  | None => Py.ret (inl PromptRequired)
  | Some p =>
      if String.eqb p "" then Py.ret (inl PromptRequired)
      else
        let generation_type := arg arguments "generation_type" (Py.JStr "CREATE") in
        width <- Py.lift (clamp (Py.Int 64) (Py.Int 2048)
                            (arg arguments "width" (Py.JNum (Py.Int 512)))) ;;
        height <- Py.lift (clamp (Py.Int 64) (Py.Int 2048)
                             (arg arguments "height" (Py.JNum (Py.Int 512)))) ;;
        let quality := arg arguments "quality" (Py.JStr "HIGH") in
        steps <- Py.lift (clamp (Py.Int 1) (Py.Int 100)
                            (arg arguments "steps" (Py.JNum (Py.Int 20)))) ;;
        guidance_scale <- Py.lift
          (clamp (Py.Flt 1) (Py.Flt 20)
             (arg arguments "guidance_scale" (Py.JNum (Py.Flt 7.5)))) ;;
        let input_files := arg arguments "input_files" (Py.JArr []) in
        let save_path := arg arguments "save_path" (Py.JStr "./assets/generated_asset.png") in
        let wait_for_completion :=
          match arg arguments "wait_for_completion" (Py.JBool true) with
          | Py.JStr s => Py.JBool (String.eqb (Py.lower s) "true")
          | v => v
          end in
        save_path <- (match save_path with
                      | Py.JStr sp =>
                          w <- Py.get ;;
                          fs' <- Py.lift (mkdir_parents sp (fs w)) ;;
                          _ <- set_fs fs' ;;
                          Py.ret sp
                      | _ => Py.raise Py.TypeError
                               "expected str, bytes or os.PathLike object"
                      end) ;;
        let parameters : gmap string Py.json :=
          <["generationType" := generation_type]>
          (<["prompt" := Py.JStr p]>
          (<["width" := width]>
          (<["height" := height]>
          (<["quality" := quality]>
          (<["numInferenceSteps" := steps]>
          (<["guidanceScale" := guidance_scale]> ∅)))))) in
        parameters <- Py.lift (optional_parameters arguments parameters) ;;
        r <- handle_input_files input_files parameters ;;
        match r with
        | inl early => Py.ret (inl early)
        | inr parameters => Py.ret (inr (parameters, wait_for_completion, save_path))
        end
  end.

(** The body of the [try] of [_create_asset] *)
Definition create_asset_body (fuel : nat) (arguments : gmap string Py.json)
    : Py.M world asset_result :=
  r <- prepare_submission arguments ;;
  match r with
  | inl early => Py.ret early
  | inr (parameters, wait_for_completion, save_path) =>
      create_inference fuel parameters wait_for_completion save_path
  end.

(** [_create_asset] *)
Definition _create_asset (fuel : nat) (arguments : gmap string Py.json)
    : Py.M world asset_result :=
  Py.try_except (create_asset_body fuel arguments)
    (fun e =>
       _ <- logger ERROR ("Asset creation failed: " ++ Py.emsg e) ;;
       Py.ret (CreationFailed e)).

(** *** Encoding an image *)

(** The bytes of a file, and what
    [base64.b64encode(content).decode('utf-8')] makes of them *)
Variable file_content : string -> Py.bytes.
Variable b64encode : Py.bytes -> string.

(** [except (OSError, IOError)]: the exceptions of the operating
    system *)
Definition is_oserror (e : Py.exn) : bool :=
  match Py.ekind e with
  | Py.OSError | Py.FileNotFoundError | Py.PermissionError => true
  | _ => false
  end.

(** [os.path.getsize]; the code asks for the size of a regular file
    only, and the model keeps no size for a directory. *)
Definition getsize (p : string) : Py.M world N :=
  w <- Py.get ;;
  match stat w p with
  | Some (RegularFile size _) => Py.ret size
  | Some Directory => Py.raise Py.OSError "Is a directory"
  | None => Py.raise Py.FileNotFoundError "No such file or directory"
  end.

(** The two [except] clauses of [_encode_image_to_base64] *)
Definition encode_image_failed {A} (image_path : string) (e : Py.exn) : Py.M world A :=
  if is_oserror e
  then Py.raise Py.Exception
         ("Failed to read image file " ++ image_path ++ ": " ++ Py.emsg e)
  else Py.raise Py.Exception
         ("Failed to encode image " ++ image_path ++ ": " ++ Py.emsg e).

(** [_encode_image_to_base64] *)
Definition _encode_image_to_base64 (image_path : string) : Py.M world string :=
  Py.try_except
    (if String.eqb image_path "" then Py.raise Py.ValueError "Image path cannot be empty"
     else
       e <- path_exists image_path ;;
       if negb e
       then Py.raise Py.FileNotFoundError ("Image file not found: " ++ image_path)
       else
         f <- path_isfile image_path ;;
         if negb f then Py.raise Py.ValueError ("Path is not a file: " ++ image_path)
         else
           file_size <- getsize image_path ;;
           if (file_size =? 0)%N
           then Py.raise Py.ValueError ("Image file is empty: " ++ image_path)
           else if (50 * 1024 * 1024 <? file_size)%N
           then Py.raise Py.ValueError ("Image file too large (>50MB): " ++ image_path)
           else
             _ <- read_file image_path ;;
             Py.ret (b64encode (file_content image_path)))
    (encode_image_failed image_path).

(** *** The tool dispatcher *)

Inductive tool_result :=
| Asset (r : asset_result)
| InProgress (feature : string)
| WorkspaceInformation (workspace : string)
| UnknownTool (name : string)
| ToolError (e : Py.exn).

(** [handle_call_tool] *)
Definition handle_call_tool (fuel : nat) (name : string)
    (arguments : gmap string Py.json) : Py.M world tool_result :=
  Py.try_except
    (_ <- logger INFO ("Calling tool: " ++ name) ;;
     if String.eqb name "create_asset" then
       r <- _create_asset fuel arguments ;; Py.ret (Asset r)
     else if String.eqb name "remove_background" then
       Py.ret (InProgress "Background removal")
     else if String.eqb name "describe_image" then
       Py.ret (InProgress "Image description")
     else if String.eqb name "generate_prompt" then
       Py.ret (InProgress "Prompt generation")
     else if String.eqb name "get_workspace_info" then
       Py.ret (WorkspaceInformation workspace_id)
     else Py.ret (UnknownTool name))
    (fun e =>
       _ <- logger ERROR ("Error calling tool " ++ name ++ ": " ++ Py.emsg e) ;;
       Py.ret (ToolError e)).

End Server.

(** *** The target of a download *)

Section Persist.

(** [full_path.parent.mkdir(parents=True, exist_ok=True)] and the write
    of the content to [full_path]: their effect on the file system *)
Variable write_file : string -> gmap string node -> Py.res (gmap string node).

(** [# Handle file path] *)
Definition full_path (save_path filename ext : string) : Py.res Pathlib.path :=
  if Py.endswith save_path "/"
  then Py.Ok (Pathlib.joinpath (Pathlib.Path save_path)
                (Pathlib.stem (Pathlib.Path filename) ++ ext))
  else
    let full_path := Pathlib.Path save_path in
    if String.eqb (Pathlib.suffix full_path) ""
    then Pathlib.with_suffix full_path ext
    else Py.Ok full_path.

(** What follows a [200] in [_download_result_files], from the path to
    the write *)
Definition persist_file (save_path filename ext : string) (fs : gmap string node)
    : Py.res (string * gmap string node) :=
  p <- full_path save_path filename ext ;;
  fs' <- write_file (Pathlib.str p) fs ;;
  Py.Ok (Pathlib.str p, fs').

End Persist.

(** *** Loading the credentials *)

(** The process at start-up: the configuration directory, the records
    of [logger], latest first, and the two attributes of the server. *)
Record startup := {
  config : TokenManager.disk;
  records : list (level * string);
  api_token : Py.json;
  workspace_id : Py.json
}.

Definition on_config {A} (m : Py.M TokenManager.disk A) : Py.M startup A :=
  fun s =>
    let (r, d) := m (config s) in
    (r, {| config := d; records := records s; api_token := api_token s;
           workspace_id := workspace_id s |}).

Definition log_record (l : level) (message : string) : Py.M startup unit :=
  fun s =>
    (Py.Ok tt, {| config := config s; records := (l, message) :: records s;
                  api_token := api_token s; workspace_id := workspace_id s |}).

(** [self.api_token = v] and [self.workspace_id = v] *)
Definition set_api_token (v : Py.json) : Py.M startup unit :=
  fun s =>
    (Py.Ok tt, {| config := config s; records := records s; api_token := v;
                  workspace_id := workspace_id s |}).

Definition set_workspace_id (v : Py.json) : Py.M startup unit :=
  fun s =>
    (Py.Ok tt, {| config := config s; records := records s;
                  api_token := api_token s; workspace_id := v |}).

Definition missing_credentials : string :=
  "Missing Layer.ai credentials. Please run 'python setup_credentials.py' "
  ++ "or set LAYER_API_TOKEN and LAYER_WORKSPACE_ID environment variables.".

Section Credentials.

Variable urandom : nat -> Py.bytes.
Variable fernet_key_ok : Py.bytes -> bool.
Variable fernet_generate_key : Py.bytes -> Py.bytes.
Variable fernet_decrypt : Py.bytes -> Py.bytes -> option Py.bytes.
Variable json_loads : string -> option Py.json.
Variable env : gmap string string.

(** [LayerTokenManager] as the server sees it: [None] when the import of
    [token_manager] failed, and otherwise what constructing the manager
    does, which creates the configuration directory and may raise. *)
Variable LayerTokenManager : option (Py.res unit).

(** The lines from the construction of the manager to the [return], the
    same in both servers; [true] is the [return]. *)
Definition load_secure (construct : Py.res unit) : Py.M startup bool :=
  _ <- Py.lift construct ;;
  credentials <- on_config
    (TokenManager.get_credentials urandom fernet_key_ok fernet_generate_key
       fernet_decrypt json_loads env) ;;
  match credentials with
  | Some c =>
      _ <- set_api_token (TokenManager.api_token c) ;;
      _ <- set_workspace_id (TokenManager.workspace_id c) ;;
      _ <- log_record INFO "🔐 Loaded credentials securely" ;;
      Py.ret true
  | None => Py.ret false
  end.

(** [_load_credentials] *)
Definition _load_credentials : Py.M startup unit :=
  loaded <- match LayerTokenManager with
            | Some construct =>
                Py.try_except (load_secure construct)
                  (fun e =>
                     _ <- log_record WARNING
                            ("Failed to load secure credentials: " ++ Py.emsg e) ;;
                     Py.ret false)
            | None => Py.ret false
            end ;;
  if loaded : bool then Py.ret tt
  else
    _ <- set_api_token
           (Py.JStr (Py.strip (TokenManager.getenv env "LAYER_API_TOKEN"))) ;;
    _ <- set_workspace_id
           (Py.JStr (Py.strip (TokenManager.getenv env "LAYER_WORKSPACE_ID"))) ;;
    s <- Py.get ;;
    if negb (Py.truthy (api_token s)) || negb (Py.truthy (workspace_id s))
    then Py.raise Py.ValueError missing_credentials
    else log_record INFO "🔑 Using environment variable credentials".

End Credentials.

End ProductionReady.

(** ** critical_bug_fixes.py

    The methods of [BugFixedLayerMCPServer] are written to replace those
    of the server; [_make_graphql_request] and [_download_result_files]
    are the server's own. *)

Module CriticalBugFixes.
Import World.

Section Server.

Variable net : nat -> reply.
Variable workspace_id : string.
Variable repr : Py.json -> string.
Variable persist : string -> string -> string -> gmap string node ->
                   Py.res (string * gmap string node).

(** [_upload_file_to_layer]; its two [try] blocks are those of the
    production-ready server, line for line. *)
Definition _upload_file_to_layer (file_path : string) : Py.M world string :=
  e <- path_exists file_path ;;
  if String.eqb file_path "" || negb e
  then Py.raise Py.ValueError ("Invalid file path: " ++ file_path)
  else
    let filename := Py.basename file_path in
    slot <- ProductionReady.get_upload_url net workspace_id repr filename ;;
    let '(upload_url, file_id) := slot in
    _ <- ProductionReady.put_file net file_path upload_url ;;
    Py.ret (ProductionReady.media_url workspace_id repr file_id filename).


(** [_wait_for_completion_with_retry]: the text of the production-ready
    server, line for line *)
Definition _wait_for_completion_with_retry :=
  ProductionReady._wait_for_completion_with_retry net repr persist.

(** [_determine_file_extension] *)
Definition _determine_file_extension (content_type filename : string) : string :=
  let content_type_lower := Py.lower content_type in
  if Py.contains "image" content_type_lower then
    if Py.contains "png" content_type_lower then ".png"
    else if Py.contains "jpeg" content_type_lower || Py.contains "jpg" content_type_lower
    then ".jpg"
    else if Py.contains "gif" content_type_lower then ".gif"
    else if Py.contains "svg" content_type_lower then ".svg"
    else if Py.contains "webp" content_type_lower then ".webp"
    else ".png"
  else if Py.contains "video" content_type_lower then
    if Py.contains "mp4" content_type_lower then ".mp4"
    else if Py.contains "webm" content_type_lower then ".webm"
    else if Py.contains "avi" content_type_lower then ".avi"
    else ".mp4"
  else if Py.contains "audio" content_type_lower then
    if Py.contains "wav" content_type_lower then ".wav"
    else if Py.contains "mp3" content_type_lower then ".mp3"
    else if Py.contains "ogg" content_type_lower then ".ogg"
    else ".wav"
  else if Py.contains "model" content_type_lower
          || Py.contains "application/octet-stream" content_type_lower
  then ".glb"
  else
    let file_ext := Py.path_suffix filename in
    if negb (String.eqb file_ext "") then file_ext else ".png".

Variable file_content : string -> Py.bytes.
Variable b64encode : Py.bytes -> string.

(** [_encode_image_to_base64]: the file is read first, and the checks
    are on the length of what was read. *)
Definition _encode_image_to_base64 (image_path : string) : Py.M world string :=
  Py.try_except
    (e <- path_exists image_path ;;
     if negb e
     then Py.raise Py.FileNotFoundError ("Image file not found: " ++ image_path)
     else
       f <- path_isfile image_path ;;
       if negb f then Py.raise Py.ValueError ("Path is not a file: " ++ image_path)
       else
         _ <- read_file image_path ;;
         let content := file_content image_path in
         if (N.of_nat (length content) =? 0)%N
         then Py.raise Py.ValueError ("Image file is empty: " ++ image_path)
         else if (50 * 1024 * 1024 <? N.of_nat (length content))%N
         then Py.raise Py.ValueError ("Image file too large (>50MB): " ++ image_path)
         else Py.ret (b64encode content))
    (ProductionReady.encode_image_failed image_path).

End Server.

Section Credentials.

Variable urandom : nat -> Py.bytes.
Variable fernet_key_ok : Py.bytes -> bool.
Variable fernet_generate_key : Py.bytes -> Py.bytes.
Variable fernet_decrypt : Py.bytes -> Py.bytes -> option Py.bytes.
Variable json_loads : string -> option Py.json.
Variable env : gmap string string.
Variable LayerTokenManager : option (Py.res unit).

(** [_load_credentials]: no [try] around the manager, and the values of
    the environment are taken as they are. *)
Definition _load_credentials : Py.M ProductionReady.startup unit :=
  loaded <- match LayerTokenManager with
            | Some construct =>
                ProductionReady.load_secure urandom fernet_key_ok fernet_generate_key
                  fernet_decrypt json_loads env construct
            | None => Py.ret false
            end ;;
  if loaded : bool then Py.ret tt
  else
    _ <- ProductionReady.set_api_token
           (Py.JStr (TokenManager.getenv env "LAYER_API_TOKEN")) ;;
    _ <- ProductionReady.set_workspace_id
           (Py.JStr (TokenManager.getenv env "LAYER_WORKSPACE_ID")) ;;
    s <- Py.get ;;
    if negb (Py.truthy (ProductionReady.api_token s))
       || negb (Py.truthy (ProductionReady.workspace_id s))
    then
      _ <- ProductionReady.log_record ERROR "❌ No valid credentials found" ;;
      Py.raise Py.ValueError ProductionReady.missing_credentials
    else Py.ret tt.

End Credentials.

End CriticalBugFixes.

(** ** Statements of the specification, in its own words *)

Module Claims.

Fixpoint all_chars (p : ascii -> bool) (s : string) : bool :=
  match s with
  | EmptyString => true
  | String c s' => p c && all_chars p s'
  end.

Fixpoint repeat_string (n : nat) (s : string) : string :=
  match n with
  | O => EmptyString
  | S n' => s ++ repeat_string n' s
  end.

(** The token shape as the specification words it: the fixed prefix, a
    length between 50 and 200, and only letters, digits, hyphens and
    underscores after the prefix. *)
Definition token_shape (t : string) : bool :=
  Py.startswith t "pat_"
  && (50 <=? Py.len t)%nat && (Py.len t <=? 200)%nat
  && all_chars TokenManager.token_char (Py.drop 4 t).

(** A token of 51 characters that ends in a newline *)
Definition newline_token : string := "pat_" ++ repeat_string 46 "a" ++ Py.nl.

(** The extension table as the specification words it: the listed
    content types, then any other type of the same family, then the
    extension of the file name. *)
Definition claimed_extension (content_type filename : string) : string :=
  let ct := Py.lower content_type in
  if String.eqb ct "image/png" then ".png"
  else if String.eqb ct "image/jpeg" || String.eqb ct "image/jpg" then ".jpg"
  else if String.eqb ct "image/gif" then ".gif"
  else if String.eqb ct "image/svg" then ".svg"
  else if String.eqb ct "image/webp" then ".webp"
  else if Py.startswith ct "image/" then ".png"
  else if String.eqb ct "video/mp4" then ".mp4"
  else if String.eqb ct "video/webm" then ".webm"
  else if String.eqb ct "video/avi" then ".avi"
  else if Py.startswith ct "video/" then ".mp4"
  else if String.eqb ct "audio/wav" then ".wav"
  else if String.eqb ct "audio/mp3" then ".mp3"
  else if String.eqb ct "audio/ogg" then ".ogg"
  else if Py.startswith ct "audio/" then ".wav"
  else if Py.startswith ct "model/" || String.eqb ct "application/octet-stream"
  then ".glb"
  else
    let file_ext := Py.path_suffix filename in
    if String.eqb file_ext "" then ".png" else file_ext.

(** The two branches the production-ready server lacks *)
Definition avi_case (content_type : string) : bool :=
  let l := Py.lower content_type in
  negb (Py.contains "image" l) && Py.contains "video" l
  && negb (Py.contains "mp4" l) && negb (Py.contains "webm" l)
  && Py.contains "avi" l.

Definition ogg_case (content_type : string) : bool :=
  let l := Py.lower content_type in
  negb (Py.contains "image" l) && negb (Py.contains "video" l)
  && Py.contains "audio" l
  && negb (Py.contains "wav" l) && negb (Py.contains "mp3" l)
  && Py.contains "ogg" l.

(** The decision tree of [_determine_file_extension], branch by branch *)
Definition substring_rules (ct fn : string) : Prop :=
  let ext := CriticalBugFixes._determine_file_extension ct fn in
  let has w := Py.contains w (Py.lower ct) in
  (* the image family *)
  (has "image" = true ->
     (has "png" = true -> ext = ".png")
     /\ (has "png" = false -> has "jpeg" || has "jpg" = true -> ext = ".jpg")
     /\ (has "png" = false -> has "jpeg" || has "jpg" = false ->
         has "gif" = true -> ext = ".gif")
     /\ (has "png" = false -> has "jpeg" || has "jpg" = false ->
         has "gif" = false -> has "svg" = true -> ext = ".svg")
     /\ (has "png" = false -> has "jpeg" || has "jpg" = false ->
         has "gif" = false -> has "svg" = false -> has "webp" = true ->
         ext = ".webp")
     /\ (has "png" = false -> has "jpeg" || has "jpg" = false ->
         has "gif" = false -> has "svg" = false -> has "webp" = false ->
         ext = ".png"))
  (* the video family *)
  /\ (has "image" = false -> has "video" = true ->
     (has "mp4" = true -> ext = ".mp4")
     /\ (has "mp4" = false -> has "webm" = true -> ext = ".webm")
     /\ (has "mp4" = false -> has "webm" = false -> has "avi" = true ->
         ext = ".avi")
     /\ (has "mp4" = false -> has "webm" = false -> has "avi" = false ->
         ext = ".mp4"))
  (* the audio family *)
  /\ (has "image" = false -> has "video" = false -> has "audio" = true ->
     (has "wav" = true -> ext = ".wav")
     /\ (has "wav" = false -> has "mp3" = true -> ext = ".mp3")
     /\ (has "wav" = false -> has "mp3" = false -> has "ogg" = true ->
         ext = ".ogg")
     /\ (has "wav" = false -> has "mp3" = false -> has "ogg" = false ->
         ext = ".wav"))
  (* models *)
  /\ (has "image" = false -> has "video" = false -> has "audio" = false ->
      has "model" || has "application/octet-stream" = true -> ext = ".glb")
  (* the file name *)
  /\ (has "image" = false -> has "video" = false -> has "audio" = false ->
      has "model" || has "application/octet-stream" = false ->
      ext = if String.eqb (Py.path_suffix fn) "" then ".png" else Py.path_suffix fn)
  (* the other server *)
  /\ (avi_case ct = false -> ogg_case ct = false ->
      ProductionReady._determine_file_extension ct fn = ext).

(** The content types the specification lists *)
Definition listed_rows (f : string -> string -> string) (fn : string) : Prop :=
  f "image/png" fn = ".png" /\ f "image/jpeg" fn = ".jpg"
  /\ f "image/jpg" fn = ".jpg" /\ f "image/gif" fn = ".gif"
  /\ f "image/svg" fn = ".svg" /\ f "image/webp" fn = ".webp"
  /\ f "image/bmp" fn = ".png"
  /\ f "video/mp4" fn = ".mp4" /\ f "video/webm" fn = ".webm"
  /\ f "video/quicktime" fn = ".mp4"
  /\ f "audio/wav" fn = ".wav" /\ f "audio/mp3" fn = ".mp3"
  /\ f "audio/flac" fn = ".wav"
  /\ f "model/gltf-binary" fn = ".glb" /\ f "application/octet-stream" fn = ".glb"
  /\ f "text/plain" "a.foo" = ".foo" /\ f "text/plain" "a" = ".png".






(** *** Concrete worlds and inputs for the examples *)

Definition empty_world : World.world :=
  {| World.outbox := []; World.slept := 0; World.fs := ∅; World.log := [] |}.

Definition connection_refused : Py.exn :=
  {| Py.ekind := Py.TransportError; Py.emsg := "connection refused" |}.

Definition offline (n : nat) : World.reply := World.Failure connection_refused.

Definition mkdir_ok (p : string) (fs : gmap string World.node)
    : Py.res (gmap string World.node) := Py.Ok fs.

Definition persist_ok (save_path filename ext : string) (fs : gmap string World.node)
    : Py.res (string * gmap string World.node) := Py.Ok (save_path, fs).

Definition repr_opaque (v : Py.json) : string := "<value>".

Definition no_number {A} (s : string) : option A := None.



(** An application-level rejection in a 200 body, then a result *)
Definition rejection : World.reply :=
  World.Response 200 ∅ ""
    (Some (Py.JObj {[ "errors" :=
       Py.JArr [Py.JObj {[ "message" := Py.JStr "Invalid input" ]}] ]})).

Definition accepted : World.reply :=
  World.Response 200 ∅ "" (Some (Py.JObj {[ "data" := Py.JObj ∅ ]})).

Definition rejected_once (n : nat) : World.reply :=
  match n with
  | O => rejection
  | S _ => accepted
  end.

(** A storage service that grants every upload slot and accepts every
    upload: requests come in pairs, the slot and then the bytes. *)
Definition slot_granted : World.reply :=
  World.Response 200 ∅ ""
    (Some (Py.JObj {[ "data" := Py.JObj {[ "createUploadUrls" :=
       Py.JObj {[ "uploadUrls" :=
         Py.JArr [Py.JObj (<["url" := Py.JStr "https://upload.example/slot"]>
                           {[ "fileId" := Py.JStr "f1" ]})] ]} ]} ]})).

Definition bytes_accepted : World.reply := World.Response 200 ∅ "" None.

Definition storage (n : nat) : World.reply :=
  if Nat.even n then slot_granted else bytes_accepted.

Definition world_with (files : gmap string World.node) : World.world :=
  {| World.outbox := []; World.slept := 0; World.fs := files; World.log := [] |}.

(** An empty file, and a file one byte over 50 MiB *)
Definition odd_sizes : gmap string World.node :=
  <["empty.png" := World.RegularFile 0 true]>
  {[ "huge.bin" := World.RegularFile (50 * 1024 * 1024 + 1) true ]}.



(** The canonical UUID shape: five groups of 8, 4, 4, 4 and 12 lower-case
    hexadecimal digits, joined by hyphens. *)
Definition uuid_shape (s : string) : Prop :=
  exists a b c d e,
    s = a ++ "-" ++ b ++ "-" ++ c ++ "-" ++ d ++ "-" ++ e
    /\ Py.len a = 8%nat /\ Py.len b = 4%nat /\ Py.len c = 4%nat
    /\ Py.len d = 4%nat /\ Py.len e = 12%nat
    /\ all_chars TokenManager.hex_char a = true
    /\ all_chars TokenManager.hex_char b = true
    /\ all_chars TokenManager.hex_char c = true
    /\ all_chars TokenManager.hex_char d = true
    /\ all_chars TokenManager.hex_char e = true.

Fixpoint last_char (s : string) : option ascii :=
  match s with
  | EmptyString => None
  | String c EmptyString => Some c
  | String _ s' => last_char s'
  end.

Section StoredRecord.

Variable urandom : nat -> Py.bytes.
Variable fernet_key_ok : Py.bytes -> bool.
Variable fernet_generate_key : Py.bytes -> Py.bytes.
Variable fernet_decrypt : Py.bytes -> Py.bytes -> option Py.bytes.
Variable json_loads : string -> option Py.json.

(** The key the store works with: the one on disk, or a fresh one when
    there is none and it can be written. *)
Definition key_in_use (st : TokenManager.disk) : option Py.bytes :=
  match TokenManager.key_file st with
  | TokenManager.Content k => Some k
  | TokenManager.Unreadable => None
  | TokenManager.Missing =>
      if TokenManager.read_only st then None
      else Some (fernet_generate_key (urandom (TokenManager.drawn st)))
  end.

(** Decrypt-and-validate of the local encrypted record, every failure
    being "absent": no token file, no usable key, a ciphertext the key
    does not decrypt, bytes that are not text, text that is not JSON, no
    token in it, a token of the wrong shape, no workspace id. *)
Definition stored_record (st : TokenManager.disk) : option TokenManager.credentials :=
  match TokenManager.token_file st, key_in_use st with
  | TokenManager.Content data, Some key =>
      if fernet_key_ok key then
        match fernet_decrypt key data with
        | Some plain =>
            match Py.decode plain with
            | Some text =>
                match json_loads text with
                | Some td =>
                    match Py.getitem td "api_token", Py.getitem td "workspace_id" with
                    | Py.Ok (Py.JStr tok), Py.Ok ws =>
                        if TokenManager._validate_token tok
                        then Some {| TokenManager.api_token := Py.JStr tok;
                                     TokenManager.workspace_id := ws |}
                        else None
                    | _, _ => None
                    end
                | None => None
                end
            | None => None
            end
        | None => None
        end
      else None
  | _, _ => None
  end.

End StoredRecord.

(** The rule for credentials from the environment *)
Definition env_rule (env : gmap string string) (c : TokenManager.credentials) : Prop :=
  let tok := Py.strip (TokenManager.getenv env "LAYER_API_TOKEN") in
  let ws := Py.strip (TokenManager.getenv env "LAYER_WORKSPACE_ID") in
  c = {| TokenManager.api_token := Py.JStr tok;
         TokenManager.workspace_id := Py.JStr ws |}
  /\ tok <> "" /\ ws <> ""
  /\ Py.startswith tok "pat_" = true /\ (50 <= Py.len tok)%nat
  /\ uuid_shape ws.

(** A toy cipher for the examples: a ciphertext is the plaintext behind
    a marker byte. *)
Definition toy_encrypt (key r plain : Py.bytes) : Py.bytes := 1%N :: plain.

Definition toy_decrypt (key data : Py.bytes) : option Py.bytes :=
  match data with
  | 1%N :: plain => Some plain
  | _ => None
  end.

Definition toy_key_ok (key : Py.bytes) : bool := true.
Definition toy_generate_key (r : Py.bytes) : Py.bytes := r.
Definition toy_urandom (n : nat) : Py.bytes := [N.of_nat n].
Definition toy_json_loads (s : string) : option Py.json := None.
Definition toy_json_dumps (v : Py.json) : string := "{}".
Definition toy_sha256 (b : Py.bytes) : string := "".

Definition empty_disk : TokenManager.disk :=
  {| TokenManager.token_file := TokenManager.Missing;
     TokenManager.key_file := TokenManager.Missing;
     TokenManager.read_only := false;
     TokenManager.drawn := 0 |}.

(** A record whose ciphertext is damaged *)
Definition damaged_disk : TokenManager.disk :=
  {| TokenManager.token_file := TokenManager.Content [7%N; 7%N];
     TokenManager.key_file := TokenManager.Content [1%N];
     TokenManager.read_only := false;
     TokenManager.drawn := 0 |}.

(** An environment token with characters outside the allowed set *)
Definition lax_token : string := "pat_" ++ repeat_string 46 "!".

Definition lax_env : gmap string string :=
  <["LAYER_API_TOKEN" := lax_token]>
  {[ "LAYER_WORKSPACE_ID" := "01234567-89ab-cdef-0123-456789abcdef" ]}.

(** A status reply for a job in the given state *)
Definition status_reply (status : string) (files : list Py.json) : World.reply :=
  World.Response 200 ∅ ""
    (Some (Py.JObj {[ "data" := Py.JObj {[ "getInferencesById" :=
       Py.JObj {[ "inferences" :=
         Py.JArr [Py.JObj (<["id" := Py.JStr "job-1"]>
                           (<["status" := Py.JStr status]>
                            {[ "files" := Py.JArr files ]}))] ]} ]} ]})).

(** A reply with no inference for the job *)
Definition no_inference : World.reply :=
  World.Response 200 ∅ ""
    (Some (Py.JObj {[ "data" := Py.JObj {[ "getInferencesById" :=
       Py.JObj {[ "inferences" := Py.JArr [] ]} ]} ]})).


(** The start of the loop *)
Definition loop_start : ProductionReady.locals :=
  {| ProductionReady.elapsed_time := 0; ProductionReady.consecutive_failures := 0 |}.

End Claims.

(** ** Relations between states *)

Module Frames.
Import Py World.

(** [keeps R m]: running [m] takes every state to a state related to it
    by [R]. *)
Definition keeps {S A} (R : S -> S -> Prop) (m : M S A) : Prop :=
  forall s, R s (snd (m s)).

(** The requests sent before are still in the outbox, below the new
    ones. *)
Definition grows (w w' : world) : Prop :=
  exists later, outbox w' = (later ++ outbox w)%list.

(** What became of one input file *)
Inductive file_outcome :=
| NotFound (file_path : string)
| Uploaded (file_path : string) (file_url : string)
| UploadFailed (file_path : string) (e : exn).



Fixpoint failures (os : list file_outcome) : list string :=
  match os with
  | [] => []
  | NotFound file_path :: os' => (file_path ++ " (file not found)") :: failures os'
  | UploadFailed file_path e :: os' =>
      (file_path ++ " (" ++ emsg e ++ ")") :: failures os'
  | Uploaded _ _ :: os' => failures os'
  end.

(** No sleep: the clock of the world is where it was. *)
Definition still (w w' : world) : Prop := slept w' = slept w.

(** No sleep and no wait counted by the loop *)
Definition calm (s s' : world * ProductionReady.locals) : Prop :=
  slept (fst s') = slept (fst s)
  /\ ProductionReady.elapsed_time (snd s') = ProductionReady.elapsed_time (snd s).

End Frames.

(** ** What the token manager gives a server *)

Module Outcomes.

Section Resolve.

Variable urandom : nat -> Py.bytes.
Variable fernet_key_ok : Py.bytes -> bool.
Variable fernet_generate_key : Py.bytes -> Py.bytes.
Variable fernet_decrypt : Py.bytes -> Py.bytes -> option Py.bytes.
Variable json_loads : string -> option Py.json.
Variable env : gmap string string.

(** The credentials the token manager gives a server: none when the
    manager was not imported or cannot be constructed, and otherwise the
    stored record or, failing that, the checked environment. *)
Definition secure_credentials (LayerTokenManager : option (Py.res unit))
    (st : TokenManager.disk) : option TokenManager.credentials :=
  match LayerTokenManager with
  | Some (Py.Ok _) =>
      match Claims.stored_record urandom fernet_key_ok fernet_generate_key
              fernet_decrypt json_loads st with
      | Some c => Some c
      | None => TokenManager.env_get_token env
      end
  | _ => None
  end.
End Resolve.

End Outcomes.

(** ** Shapes of names and extensions *)

Module Shapes.

Definition not_slash (c : ascii) : bool := negb (Ascii.eqb c "/").

Definition not_dot (c : ascii) : bool := negb (Ascii.eqb c ".").

(** An extension: a dot, then at least one character, none of them a
    dot or a slash *)
Definition dot_extension (ext : string) : Prop :=
  exists rest,
    ext = String "." rest /\ rest <> ""
    /\ Claims.all_chars not_dot rest = true
    /\ Claims.all_chars not_slash rest = true.

(** A name that stays in its directory: one component, neither empty
    nor [.] nor [..] *)
Definition plain_name (name : string) : Prop :=
  name <> "" /\ name <> "." /\ name <> ".."
  /\ Claims.all_chars not_slash name = true.

End Shapes.

(** ** Inputs of the examples *)

Module Examples.
Import Claims.

(** A token of the valid format, 50 characters long *)
Definition good_token : string := "pat_" ++ repeat_string 46 "a".

(** A JSON reader that knows one text: the record of [good_token] *)
Definition good_record_loads (s : string) : option Py.json :=
  Some (TokenManager.token_data toy_sha256 good_token "ws").

(** The server before its credentials are loaded *)
Definition blank_startup : ProductionReady.startup :=
  {| ProductionReady.config := empty_disk; ProductionReady.records := [];
     ProductionReady.api_token := Py.JStr "";
     ProductionReady.workspace_id := Py.JStr "" |}.

(** The configuration directory cannot be created. *)
Definition mkdir_denied : Py.exn :=
  {| Py.ekind := Py.PermissionError; Py.emsg := "Permission denied" |}.

(** One image of three bytes, and its encoding *)
Definition one_image : gmap string World.node :=
  {[ "a.png" := World.RegularFile 3 true ]}.

Definition three_bytes (p : string) : Py.bytes := [1%N; 2%N; 3%N].

Definition toy_b64encode (b : Py.bytes) : string := "AQID".

(** A finished job with one file, and the same job without its id *)
Definition result_file : Py.json :=
  Py.JObj (<["url" := Py.JStr "https://cdn.example/r"]>
           {[ "name" := Py.JStr "../../etc/dragon" ]}).

Definition finished_job : gmap string Py.json :=
  <["id" := Py.JStr "job-1"]> {[ "files" := Py.JArr [result_file] ]}.

Definition no_id_job : gmap string Py.json :=
  {[ "files" := Py.JArr [result_file] ]}.

(** A server of files that answers every request with a PNG of seven
    bytes, and a file system that takes every write *)
Definition cdn (n : nat) : World.reply :=
  World.Response 200 {[ "content-type" := "image/png" ]} "PNGDATA" None.

Definition write_ok (p : string) (fs : gmap string World.node)
    : Py.res (gmap string World.node) :=
  Py.Ok (<[p := World.RegularFile 7 true]> fs).

(** A file the process cannot read, and a directory *)
Definition locked_file : gmap string World.node :=
  {[ "secret.png" := World.RegularFile 5 false ]}.

Definition one_directory : gmap string World.node :=
  {[ "assets" := World.Directory ]}.

(** The API turns a job down. *)
Definition rejection_response : gmap string Py.json :=
  {[ "message" := Py.JStr "Insufficient credits" ]}.

Definition rejection_body : Py.json :=
  Py.JObj {[ "data" :=
    Py.JObj {[ "createInference" := Py.JObj rejection_response ]} ]}.

Definition job_rejected (n : nat) : World.reply :=
  World.Response 200 ∅ "" (Some rejection_body).

(** A request that asks to wait with a word other than [true] *)
Definition eager_request : gmap string Py.json :=
  <["prompt" := Py.JStr "a red dragon"]>
  {[ "wait_for_completion" := Py.JStr "yes" ]}.

(** A job that never leaves the state [IN_PROGRESS] *)
Definition in_progress (n : nat) : World.reply := status_reply "IN_PROGRESS" [].

(** A record whose key is lost *)
Definition orphan_record : TokenManager.disk :=
  {| TokenManager.token_file := TokenManager.Content [1%N; 2%N];
     TokenManager.key_file := TokenManager.Missing;
     TokenManager.read_only := false;
     TokenManager.drawn := 0 |}.

End Examples.

(** ** Properties of the primitives *)

Module PyFacts.
Import Py Claims.

Lemma app_cons c (s t : string) : String c s ++ t = String c (s ++ t).
Proof. reflexivity. Qed.

Lemma app_empty_r (s : string) : s ++ EmptyString = s.
Proof.
  induction s as [|c s IH]; [reflexivity|]. rewrite app_cons, IH. reflexivity.
Qed.

Lemma many1_cons cls ps c s :
  match_pieces (Many1 cls :: ps) (String c s)
  = cls c && (match_pieces (Many1 cls :: ps) s || match_pieces ps s).
Proof. reflexivity. Qed.

Lemma many1_nil cls ps : match_pieces (Many1 cls :: ps) EmptyString = false.
Proof. reflexivity. Qed.

Lemma rep_succ cls n ps c s :
  match_pieces (Rep cls (S n) :: ps) (String c s)
  = cls c && match_pieces (Rep cls n :: ps) s.
Proof. reflexivity. Qed.

Lemma rep_zero cls ps s : match_pieces (Rep cls 0 :: ps) s = match_pieces ps s.
Proof. destruct s; reflexivity. Qed.

Lemma startswith_app p r : startswith (p ++ r) p = true.
Proof.
  induction p as [|c p IH]; simpl; [reflexivity|].
  rewrite Ascii.eqb_refl. exact IH.
Qed.

Lemma startswith_split s p :
  startswith s p = true -> exists r, s = p ++ r.
Proof.
  revert s. induction p as [|c p IH]; intros s H; simpl in *.
  - exists s. reflexivity.
  - destruct s as [|d s]; [discriminate|].
    apply andb_prop in H as [Hc Hs]. apply Ascii.eqb_eq in Hc. subst d.
    destruct (IH _ Hs) as [r ->]. exists r. reflexivity.
Qed.

(** A literal prefix of a pattern matches exactly that prefix. *)
Lemma match_lits p ps r :
  match_pieces (lits p ++ ps) (p ++ r) = match_pieces ps r.
Proof.
  induction p as [|c p IH]; simpl; [reflexivity|].
  rewrite Ascii.eqb_refl. exact IH.
Qed.

(** [cls+$]: a non-empty run of the class, then the end of the string or
    one final newline *)
Lemma many1_dollar cls s :
  match_pieces [Many1 cls] s = true <->
  exists a b, s = a ++ b /\ a <> EmptyString /\ all_chars cls a = true
              /\ at_dollar b = true.
Proof.
  induction s as [|c s IH].
  - rewrite many1_nil. split; [discriminate|].
    intros (a & b & Hs & Ha & _). destruct a; [congruence|discriminate].
  - rewrite many1_cons. split.
    + intros H. apply andb_prop in H as [Hc H].
      apply orb_prop in H as [H|H].
      * apply IH in H as (a & b & -> & _ & Ha & Hb).
        exists (String c a), b. simpl. rewrite Hc, Ha. auto.
      * exists (String c EmptyString), s. simpl. rewrite Hc. auto.
    + intros (a & b & Hs & Ha & Hall & Hb).
      destruct a as [|c' a]; [congruence|].
      simpl in Hs. injection Hs as <- ->.
      simpl in Hall. apply andb_prop in Hall as [Hc Hall]. rewrite Hc. simpl.
      destruct a as [|c'' a].
      * apply orb_true_iff. right. exact Hb.
      * apply orb_true_iff. left. apply IH.
        exists (String c'' a), b. auto.
Qed.

Lemma app_assoc_string (a b c : string) : (a ++ b) ++ c = a ++ (b ++ c).
Proof.
  induction a as [|x a IH]; [reflexivity|].
  rewrite !app_cons, IH. reflexivity.
Qed.

(** [c] then the rest *)
Lemma lit_split c ps s :
  match_pieces (lit c :: ps) s = true <->
  exists r, s = String c r /\ match_pieces ps r = true.
Proof.
  destruct s as [|d s]; simpl.
  - split; [discriminate|]. intros (r & E & _). discriminate.
  - unfold lit. split.
    + intros H. apply andb_prop in H as [Hc H]. apply Ascii.eqb_eq in Hc.
      subst d. eauto.
    + intros (r & E & H). injection E as -> ->.
      rewrite Ascii.eqb_refl. exact H.
Qed.

(** [cls{n}] then the rest *)
Lemma rep_split cls n ps s :
  match_pieces (Rep cls n :: ps) s = true <->
  exists a r, s = a ++ r /\ len a = n /\ all_chars cls a = true
              /\ match_pieces ps r = true.
Proof.
  revert s. induction n as [|n IH]; intros s.
  - rewrite rep_zero. split.
    + intros H. exists EmptyString, s. auto.
    + intros (a & r & -> & Ha & _ & H). destruct a; [exact H|discriminate].
  - destruct s as [|c s].
    + split; [discriminate|].
      intros (a & r & E & Ha & _). destruct a; discriminate.
    + rewrite rep_succ. split.
      * intros H. apply andb_prop in H as [Hc H].
        apply IH in H as (a & r & -> & Ha & Hall & H).
        exists (String c a), r. simpl. rewrite Hc, Hall.
        unfold len in *. simpl. auto.
      * intros (a & r & E & Ha & Hall & H).
        destruct a as [|c' a]; [discriminate|].
        rewrite app_cons in E. injection E as <- ->.
        simpl in Hall. apply andb_prop in Hall as [Hc Hall]. rewrite Hc. simpl.
        apply IH. exists a, r. unfold len in *. simpl in Ha. auto.
Qed.

Lemma last_char_app s c : last_char (s ++ String c EmptyString) = Some c.
Proof.
  induction s as [|x s IH]; [reflexivity|].
  rewrite app_cons. simpl. rewrite IH.
  destruct (s ++ String c EmptyString) eqn:E; [|reflexivity].
  destruct s; discriminate.
Qed.

(** A stripped string does not end in white space. *)
Lemma rstrip_last s :
  match last_char (rstrip s) with
  | Some c => is_space c = false
  | None => True
  end.
Proof.
  induction s as [|x s IH]; simpl; [exact I|].
  destruct (rstrip s) as [|y r] eqn:E.
  - destruct (is_space x) eqn:Hx; simpl; [exact I|exact Hx].
  - simpl in *. exact IH.
Qed.

Lemma strip_no_newline s u : strip s <> u ++ nl.
Proof.
  intros E. pose proof (rstrip_last (lstrip s)) as H.
  unfold strip in E. rewrite E in H. unfold nl in H.
  rewrite last_char_app in H. discriminate.
Qed.

End PyFacts.

(** ** The credential store *)

Module TokenManagerFacts.
Import Py Claims TokenManager PyFacts.

(** What [_validate_token] accepts: the prefix, a length from 50 to 200,
    and after the prefix a run of allowed characters, possibly followed
    by one newline. *)
Lemma validate_token_accepts t :
  _validate_token t = true <->
  (50 <= len t <= 200)%nat /\
  exists body rest,
    t = "pat_" ++ body ++ rest /\ body <> EmptyString
    /\ all_chars token_char body = true /\ at_dollar rest = true.
Proof.
  unfold _validate_token. split.
  - intros H. destruct (decide (t = "")) as [|_]; [discriminate|].
    destruct (startswith t "pat_") eqn:Hp; cbn [negb] in H; [|discriminate].
    destruct ((len t <? 50)%nat || (200 <? len t)%nat) eqn:Hl; [discriminate|].
    destruct (re_match token_re t) eqn:Hr; cbn [negb] in H; [|discriminate].
    apply orb_false_elim in Hl as [Hl1 Hl2].
    apply Nat.ltb_ge in Hl1, Hl2. split; [lia|].
    apply startswith_split in Hp as [r ->].
    unfold re_match, token_re in Hr. rewrite match_lits in Hr.
    apply many1_dollar in Hr as (a & b & -> & Ha & Hall & Hb).
    exists a, b. auto.
  - intros (Hl & body & rest & -> & Hb & Hall & Hd).
    assert (Hr : re_match token_re ("pat_" ++ body ++ rest) = true).
    { unfold re_match, token_re. rewrite match_lits.
      apply many1_dollar. exists body, rest. auto. }
    assert (Hn : (len ("pat_" ++ body ++ rest) <? 50)%nat
                 || (200 <? len ("pat_" ++ body ++ rest))%nat = false).
    { apply orb_false_intro; apply Nat.ltb_ge; lia. }
    rewrite Hn, Hr, startswith_app.
    destruct (decide _) as [E|_]; [discriminate|reflexivity].
Qed.

(** C4 (the code at the failing input): [_validate_token] accepts a token
    of 51 characters that ends in a newline, although a newline is not in
    the allowed set, so the shape the specification states does not
    hold of it. *)
Theorem validate_token_trailing_newline :
  _validate_token newline_token = true /\ token_shape newline_token = false.
Proof. split; vm_compute; reflexivity. Qed.

(** Every token of the stated shape is accepted. *)
Lemma token_shape_accepted t :
  token_shape t = true -> _validate_token t = true.
Proof.
  unfold token_shape. intros H.
  apply andb_prop in H as [H Hall]. apply andb_prop in H as [H Hhi].
  apply andb_prop in H as [Hp Hlo].
  apply Nat.leb_le in Hlo, Hhi.
  apply startswith_split in Hp as [r ->].
  apply validate_token_accepts. split; [lia|].
  exists r, EmptyString. simpl in Hall.
  assert (r <> EmptyString).
  { intros ->. simpl in Hlo. lia. }
  rewrite app_empty_r. auto.
Qed.

Lemma at_dollar_cases tail :
  at_dollar tail = true -> tail = EmptyString \/ tail = nl.
Proof.
  destruct tail as [|c [|d t]]; simpl; auto; [|discriminate].
  intros H. apply Nat.eqb_eq in H. right. unfold nl. f_equal.
  rewrite <- (ascii_nat_embedding c). unfold code in H. rewrite H. reflexivity.
Qed.

(** The pattern of the workspace id: the UUID shape, possibly followed by
    one newline. *)
Lemma uuid_match s :
  re_match uuid_re s = true <->
  exists u tail, s = u ++ tail /\ uuid_shape u /\ at_dollar tail = true.
Proof.
  unfold re_match, uuid_re, dash. split.
  - intros H.
    apply rep_split in H as (a & r & -> & La & Ha & H).
    apply lit_split in H as (r1 & -> & H).
    apply rep_split in H as (b & r & -> & Lb & Hb & H).
    apply lit_split in H as (r2 & -> & H).
    apply rep_split in H as (c & r & -> & Lc & Hc & H).
    apply lit_split in H as (r3 & -> & H).
    apply rep_split in H as (d & r & -> & Ld & Hd & H).
    apply lit_split in H as (r4 & -> & H).
    apply rep_split in H as (e & tail & -> & Le & He & H).
    exists (a ++ "-" ++ b ++ "-" ++ c ++ "-" ++ d ++ "-" ++ e), tail.
    split; [|split; [|exact H]].
    + rewrite !app_assoc_string. reflexivity.
    + exists a, b, c, d, e. auto 12.
  - intros (u & tail & -> & (a & b & c & d & e & -> & La & Lb & Lc & Ld & Le
                              & Ha & Hb & Hc & Hd & He) & H).
    rewrite !app_assoc_string.
    apply rep_split. exists a. eexists. split; [reflexivity|].
    split; [exact La|]. split; [exact Ha|].
    apply lit_split. eexists. split; [reflexivity|].
    apply rep_split. exists b. eexists. split; [reflexivity|].
    split; [exact Lb|]. split; [exact Hb|].
    apply lit_split. eexists. split; [reflexivity|].
    apply rep_split. exists c. eexists. split; [reflexivity|].
    split; [exact Lc|]. split; [exact Hc|].
    apply lit_split. eexists. split; [reflexivity|].
    apply rep_split. exists d. eexists. split; [reflexivity|].
    split; [exact Ld|]. split; [exact Hd|].
    apply lit_split. eexists. split; [reflexivity|].
    apply rep_split. exists e, tail. auto.
Qed.

(** On a stripped string the pattern is the UUID shape. *)
Lemma uuid_match_stripped s :
  re_match uuid_re (strip s) = true <-> uuid_shape (strip s).
Proof.
  rewrite uuid_match. split.
  - intros (u & tail & E & Hu & Ht).
    destruct (at_dollar_cases _ Ht) as [->| ->].
    + rewrite app_empty_r in E. rewrite E. exact Hu.
    + exfalso. exact (strip_no_newline _ _ E).
  - intros H. exists (strip s), EmptyString. rewrite app_empty_r. auto.
Qed.

(** Credentials from the environment: the two variables stripped, both
    non-empty, the token with the prefix and at least 50 characters, the
    workspace id of the UUID shape. *)
Lemma env_get_token_rule env c :
  env_get_token env = Some c <-> env_rule env c.
Proof.
  unfold env_get_token, env_rule. cbv zeta.
  set (tok := strip (getenv env "LAYER_API_TOKEN")).
  set (ws := strip (getenv env "LAYER_WORKSPACE_ID")).
  destruct (String.eqb_spec tok "") as [Et|Et].
  { simpl. split; [discriminate|]. intros (_ & H & _). contradiction. }
  destruct (String.eqb_spec ws "") as [Ew|Ew].
  { simpl. split; [discriminate|]. intros (_ & _ & H & _). contradiction. }
  cbn [orb].
  destruct (startswith tok "pat_") eqn:Hp.
  2:{ simpl. split; [discriminate|]. intros (_ & _ & _ & H & _). discriminate. }
  cbn [negb orb].
  destruct (Nat.ltb_spec (len tok) 50) as [Hl|Hl].
  { split; [discriminate|]. intros (_ & _ & _ & _ & H & _). lia. }
  destruct (re_match uuid_re ws) eqn:Hu; cbn [negb].
  - apply uuid_match_stripped in Hu. split.
    + intros E. injection E as <-. auto 10.
    + intros (-> & _). reflexivity.
  - split; [discriminate|]. intros (_ & _ & _ & _ & _ & H).
    apply uuid_match_stripped in H. fold ws in H. congruence.
Qed.

End TokenManagerFacts.

(** ** File extensions *)

Module ExtensionFacts.
Import Claims.

Ltac by_rows f :=
  intros; unfold f; cbv zeta;
  repeat match goal with
         | H : _ = true |- _ => rewrite H; clear H
         | H : _ = false |- _ => rewrite H; clear H
         end;
  reflexivity.

(** The production-ready server chooses as [critical_bug_fixes.py] does,
    outside the two branches it lacks. *)
Lemma production_agrees ct fn :
  avi_case ct = false -> ogg_case ct = false ->
  ProductionReady._determine_file_extension ct fn
  = CriticalBugFixes._determine_file_extension ct fn.
Proof.
  unfold avi_case, ogg_case, ProductionReady._determine_file_extension,
    CriticalBugFixes._determine_file_extension. cbv zeta.
  destruct (Py.contains "image" (Py.lower ct)); [reflexivity|].
  destruct (Py.contains "video" (Py.lower ct)).
  - destruct (Py.contains "mp4" (Py.lower ct)); [reflexivity|].
    destruct (Py.contains "webm" (Py.lower ct)); [reflexivity|].
    destruct (Py.contains "avi" (Py.lower ct)); [discriminate|reflexivity].
  - destruct (Py.contains "audio" (Py.lower ct)); [|reflexivity].
    destruct (Py.contains "wav" (Py.lower ct)); [reflexivity|].
    destruct (Py.contains "mp3" (Py.lower ct)); [reflexivity|].
    destruct (Py.contains "ogg" (Py.lower ct)); [discriminate|reflexivity].
Qed.

Lemma substring_rules_hold ct fn : substring_rules ct fn.
Proof.
  unfold substring_rules. cbv zeta.
  repeat match goal with
         | |- _ /\ _ => split
         | |- _ = true -> _ => intro
         | |- _ = false -> _ => intro
         end;
  try (by_rows CriticalBugFixes._determine_file_extension).
  - unfold CriticalBugFixes._determine_file_extension. cbv zeta.
    repeat match goal with
           | H : _ = false |- _ => rewrite H; clear H
           end.
    destruct (String.eqb (Py.path_suffix fn) ""); reflexivity.
  - apply production_agrees; assumption.
Qed.

Lemma listed_rows_critical fn : listed_rows CriticalBugFixes._determine_file_extension fn.
Proof. unfold listed_rows. repeat split; reflexivity. Qed.

Lemma listed_rows_production fn : listed_rows ProductionReady._determine_file_extension fn.
Proof. unfold listed_rows. repeat split; reflexivity. Qed.

(** C5 (as amended): the extension is chosen by substring tests on the
    lower-cased content type, in a fixed order of families (image, video,
    audio, model or octet-stream) and of formats within a family; a
    content type with none of the family words takes the suffix of the
    file name, or [.png] when the name has none.  The content types the
    specification lists get the extensions it lists, with [video/avi] and
    [audio/ogg] in [critical_bug_fixes.py]; the production-ready server
    chooses as [critical_bug_fixes.py] does outside the avi and ogg
    branches. *)
Theorem determine_file_extension_by_substring :
  (forall ct fn, substring_rules ct fn)
  /\ (forall fn, listed_rows CriticalBugFixes._determine_file_extension fn
                 /\ CriticalBugFixes._determine_file_extension "video/avi" fn = ".avi"
                 /\ CriticalBugFixes._determine_file_extension "audio/ogg" fn = ".ogg")
  /\ (forall fn, listed_rows ProductionReady._determine_file_extension fn).
Proof.
  split; [exact substring_rules_hold|]. split.
  - intros fn. split; [apply listed_rows_critical|]. split; reflexivity.
  - exact listed_rows_production.
Qed.

(** The rules at [image/pjpeg]: the jpeg branch of the image family *)
Lemma determine_file_extension_by_substring_witness :
  CriticalBugFixes._determine_file_extension "image/pjpeg" "x" = ".jpg".
Proof.
  destruct determine_file_extension_by_substring as [rules _].
  destruct (rules "image/pjpeg" "x") as [image _].
  apply image; reflexivity.
Defined.

(** C5 (as stated) fails: [image/pjpeg] is an image type other than the
    five listed, for which the table gives [.png]; both servers answer
    [.jpg]. *)
Lemma determine_file_extension_not_the_table :
  claimed_extension "image/pjpeg" "x" = ".png"
  /\ CriticalBugFixes._determine_file_extension "image/pjpeg" "x" = ".jpg"
  /\ ProductionReady._determine_file_extension "image/pjpeg" "x" = ".jpg"
  /\ CriticalBugFixes._determine_file_extension "image/pjpeg" "x"
     <> claimed_extension "image/pjpeg" "x".
Proof. repeat split; try reflexivity. vm_compute. discriminate. Qed.

End ExtensionFacts.

(** ** The monads *)

Module MonadFacts.
Import Py Frames.


Lemma bind_ok {S A B} (m : M S A) (f : A -> M S B) s b s' :
  bind m f s = (Ok b, s') ->
  exists a s1, m s = (Ok a, s1) /\ f a s1 = (Ok b, s').
Proof.
  simpl. destruct (m s) as [[a|e] s1]; [eauto|discriminate].
Qed.

Lemma bind_run {S A B} (m : M S A) (f : A -> M S B) s :
  bind m f s = match m s with
               | (Ok a, s1) => f a s1
               | (Raise e, s1) => (Raise e, s1)
               end.
Proof. reflexivity. Qed.

Lemma lift_ok {S A} (r : res A) (s s' : S) a :
  lift r s = (Ok a, s') -> r = Ok a /\ s' = s.
Proof. unfold lift. intros H. injection H as -> ->. auto. Qed.

Lemma ret_ok {S A} (x a : A) (s s' : S) :
  ret x s = (Ok a, s') -> a = x /\ s' = s.
Proof. simpl. intros H. injection H as -> ->. auto. Qed.

Lemma bind_lift {S A B} (r : res A) (f : A -> M S B) s :
  bind (lift r) f s = match r with
                      | Ok a => f a s
                      | Raise e => (Raise e, s)
                      end.
Proof. rewrite bind_run. unfold lift. destruct r; reflexivity. Qed.

Section Keeps.

Context {S : Type} (R : S -> S -> Prop) `{!Reflexive R} `{!Transitive R}.

Lemma keeps_ret {A} (a : A) : keeps R (ret a : M S A).
Proof. intros s. simpl. reflexivity. Qed.

Lemma keeps_raise {A} k m : keeps R (raise k m : M S A).
Proof. intros s. simpl. reflexivity. Qed.

Lemma keeps_lift {A} (r : res A) : keeps R (lift r : M S A).
Proof. intros s. simpl. reflexivity. Qed.

Lemma keeps_get : keeps R (get : M S S).
Proof. intros s. simpl. reflexivity. Qed.

Lemma keeps_bind {A B} (m : M S A) (f : A -> M S B) :
  keeps R m -> (forall a, keeps R (f a)) -> keeps R (bind m f).
Proof.
  intros Hm Hf s. rewrite bind_run. specialize (Hm s).
  destruct (m s) as [[a|e] s1]; simpl in *; [|exact Hm].
  etransitivity; [exact Hm|apply Hf].
Qed.

Lemma keeps_try_except {A} (m : M S A) (h : exn -> M S A) :
  keeps R m -> (forall e, keeps R (h e)) -> keeps R (try_except m h).
Proof.
  intros Hm Hh s. unfold try_except. specialize (Hm s).
  destruct (m s) as [[a|e] s1]; simpl in *; [exact Hm|].
  etransitivity; [exact Hm|apply Hh].
Qed.

End Keeps.

(** Steps of a proof that a computation keeps a relation *)
Ltac keeps_steps :=
  repeat match goal with
         | |- keeps _ (bind _ _) => (apply keeps_bind; try exact _); [|intros ?]
         | |- keeps _ (lift _) => apply keeps_lift; exact _
         | |- keeps _ (raise _ _) => apply keeps_raise; exact _
         | |- keeps _ (ret _) => apply keeps_ret; exact _
         | |- keeps _ get => apply keeps_get; exact _
         | |- keeps _ (try_except _ _) =>
             (apply keeps_try_except; try exact _); [|intros ?]
         | |- keeps _ (if ?c then _ else _) => destruct c
         | |- keeps _ (match ?x with _ => _ end) => destruct x
         end.

End MonadFacts.

(** ** Generation parameters *)

Module ParameterFacts.
Import Py Claims MonadFacts World.


Lemma Qltb_ge a b : Qltb a b = false -> (b <= a)%Q.
Proof. unfold Qltb, Qle. apply Z.ltb_ge. Qed.






#[local] Arguments Py.num_lt : simpl never.











Section Optional.

Variable float_of_string : string -> option num.
Variable int_of_string : string -> option Z.


End Optional.

Section Prepare.

Variable net : nat -> reply.
Variable workspace_id : string.
Variable repr : json -> string.
Variable float_of_string : string -> option num.
Variable int_of_string : string -> option Z.
Variable mkdir_parents : string -> gmap string node -> res (gmap string node).

Local Abbreviation handle_input_files :=
  (ProductionReady.handle_input_files net workspace_id repr).
Local Abbreviation prepare_submission :=
  (ProductionReady.prepare_submission net workspace_id repr float_of_string
     int_of_string mkdir_parents).






Variable persist : string -> string -> string -> gmap string node ->
                   res (string * gmap string node).


End Prepare.


End ParameterFacts.

(** ** The transport client *)

Module TransportFacts.
Import Py Claims MonadFacts World.

Section Transport.

Variable net : nat -> reply.
Variable repr : json -> string.

Local Abbreviation read_response := (ProductionReady.read_response repr).
Local Abbreviation _make_graphql_request :=
  (ProductionReady._make_graphql_request net repr).

(** One turn of the loop of attempts: the request is sent; a result is
    returned, an exception is kept as the last error, after a warning
    and a sleep of [2 ** attempt] seconds unless the attempt was the
    last. *)
Lemma attempts_step operation variables max_retries attempt todo last w :
  ProductionReady.attempts net repr operation variables max_retries
    (attempt :: todo) last w
  = let w1 := {| outbox := Post operation variables :: outbox w; slept := slept w;
                 fs := fs w; log := log w |} in
    match read_response (net (length (outbox w))) with
    | Ok result => (Ok result, w1)
    | Raise e =>
        ProductionReady.attempts net repr operation variables max_retries todo (Some e)
          (if (attempt <? max_retries - 1)%nat
           then {| outbox := outbox w1; slept := slept w + 2 ^ Z.of_nat attempt;
                   fs := fs w;
                   log := (WARNING,
                           "Request failed (attempt " ++ pretty (attempt + 1)%nat
                           ++ "/" ++ pretty max_retries ++ "), retrying in "
                           ++ pretty (2 ^ Z.of_nat attempt)%Z ++ "s: " ++ emsg e)
                          :: log w |}
           else {| outbox := outbox w1; slept := slept w; fs := fs w;
                   log := (ERROR, "All " ++ pretty max_retries ++ " attempts failed")
                          :: log w |})
    end.
Proof.
  cbn [ProductionReady.attempts]. cbv zeta.
  rewrite bind_run. unfold try_except, ProductionReady.attempt_once.
  rewrite bind_run. rewrite bind_run. unfold send at 1. rewrite bind_run.
  cbn [get]. rewrite bind_run. cbn [put ret M_monad]. unfold lift.
  destruct (read_response (net (length (outbox w)))) as [result|e]; [reflexivity|].
  destruct (attempt <? max_retries - 1)%nat; reflexivity.
Qed.

(** What [read_response] raises on: a transport failure, a status other
    than 200, and also an error list in the body of a 200. *)
Lemma read_response_raises :
  (forall e, read_response (Failure e) = Raise e)
  /\ (forall status headers text body,
        status <> 200%Z ->
        read_response (Response status headers text body)
        = throw Exception ("API request failed with status " ++ pretty status
                           ++ ": " ++ text))
  /\ (forall headers text (m : gmap string json),
        is_Some (m !! "errors") ->
        exists e, read_response (Response 200 headers text (Some (JObj m))) = Raise e)
  /\ (forall headers text (m : gmap string json),
        m !! "errors" = None ->
        read_response (Response 200 headers text (Some (JObj m))) = Ok (JObj m)).
Proof.
  repeat split.
  - intros status headers text body H. unfold ProductionReady.read_response.
    destruct (Z.eqb_spec status 200); [contradiction|reflexivity].
  - intros headers text m [errs H]. unfold ProductionReady.read_response.
    cbn [Z.eqb Pos.eqb py_in]. rewrite bool_decide_eq_true_2 by eauto.
    cbn [bind res_monad getitem]. rewrite H.
    destruct (index0 errs) as [first|e]; [|eauto].
    cbn [bind res_monad].
    destruct (dict_get first _ _) as [msg|e]; cbn [bind res_monad]; eauto.
  - intros headers text m H. unfold ProductionReady.read_response.
    cbn [Z.eqb Pos.eqb py_in]. rewrite bool_decide_eq_false_2; [reflexivity|].
    rewrite H. intros [x E]. discriminate.
Qed.

(** The request is sent at least once, and nothing else is. *)
Lemma request_sent operation variables w :
  exists later,
    outbox (snd (_make_graphql_request operation variables w))
    = (later ++ Post operation variables :: outbox w)%list.
Proof.
  unfold ProductionReady._make_graphql_request,
    ProductionReady._make_graphql_request_n.
  cbn [seq]. rewrite attempts_step. cbv zeta.
  destruct (read_response (net (length (outbox w)))) as [r0|e0];
    [exists []; reflexivity|].
  rewrite attempts_step. cbv zeta. cbn [Nat.ltb Nat.leb Nat.sub outbox length].
  destruct (read_response (net (S (length (outbox w))))) as [r1|e1];
    [exists [Post operation variables]; reflexivity|].
  rewrite attempts_step. cbv zeta. cbn [Nat.ltb Nat.leb Nat.sub outbox length].
  exists [Post operation variables; Post operation variables].
  destruct (read_response (net (S (S (length (outbox w)))))) as [r2|e2];
    reflexivity.
Qed.

(** C2 (as amended): [_make_graphql_request] sends the request at most
    3 times; the first attempt that yields a result ends it; every
    failing attempt is followed by the next one, whatever made it fail (a
    transport error, a status other than 200, or an error list in the
    body of a 200), after sleeping [2 ** attempt] seconds, so 1 and then 2
    seconds; when the third attempt fails it raises an exception whose
    message ends with the message of that last failure. *)
Theorem make_graphql_request_retries operation variables w :
  let n := length (outbox w) in
  let post := Post operation variables in
  let run := _make_graphql_request operation variables w in
  match read_response (net n), read_response (net (S n)),
        read_response (net (S (S n))) with
  | Ok result, _, _ =>
      fst run = Ok result
      /\ outbox (snd run) = post :: outbox w /\ slept (snd run) = slept w
  | Raise _, Ok result, _ =>
      fst run = Ok result
      /\ outbox (snd run) = post :: post :: outbox w
      /\ slept (snd run) = slept w + 2 ^ 0
  | Raise _, Raise _, Ok result =>
      fst run = Ok result
      /\ outbox (snd run) = post :: post :: post :: outbox w
      /\ slept (snd run) = slept w + 2 ^ 0 + 2 ^ 1
  | Raise _, Raise _, Raise e =>
      fst run = throw Exception
                  ("GraphQL request failed after 3 attempts: " ++ emsg e)
      /\ outbox (snd run) = post :: post :: post :: outbox w
      /\ slept (snd run) = slept w + 2 ^ 0 + 2 ^ 1
  end
  /\ fs (snd run) = fs w.
Proof.
  cbv zeta.
  unfold ProductionReady._make_graphql_request,
    ProductionReady._make_graphql_request_n.
  cbn [seq]. rewrite attempts_step. cbv zeta.
  destruct (read_response (net (length (outbox w)))) as [r0|e0];
    [repeat split; reflexivity|].
  rewrite attempts_step. cbv zeta. cbn [Nat.ltb Nat.leb Nat.sub outbox length].
  destruct (read_response (net (S (length (outbox w))))) as [r1|e1];
    [repeat split; reflexivity|].
  rewrite attempts_step. cbv zeta. cbn [Nat.ltb Nat.leb Nat.sub outbox length].
  destruct (read_response (net (S (S (length (outbox w)))))) as [r2|e2];
    repeat split; reflexivity.
Qed.

End Transport.

(** C2 (as stated) fails: the first response is a 200 whose body
    carries an error list, and the request is sent a second time, one
    second later, and returns the result of the second attempt. *)
Lemma application_error_is_retried :
  let run := ProductionReady._make_graphql_request rejected_once repr_opaque
               "CreateInference" JNull empty_world in
  (exists e, ProductionReady.read_response repr_opaque (rejected_once 0) = Raise e
             /\ emsg e = "GraphQL error: Invalid input")
  /\ fst run = Ok (JObj {[ "data" := JObj ∅ ]})
  /\ length (outbox (snd run)) = 2%nat
  /\ slept (snd run) = 1.
Proof.
  cbv zeta. split; [eexists; split; reflexivity|].
  repeat split; vm_compute; reflexivity.
Qed.

End TransportFacts.

(** ** File transfer: uploads *)

Module UploadFacts.
Import Py Claims Frames MonadFacts World.

#[local] Instance grows_refl : Reflexive grows.
Proof. intros w. exists []. reflexivity. Qed.

#[local] Instance grows_trans : Transitive grows.
Proof.
  intros a b c [l1 H1] [l2 H2]. exists (l2 ++ l1)%list.
  rewrite H2, H1. apply app_assoc.
Qed.

Section Loop.

Variable upload : string -> M world string.


End Loop.


Section Decision.

Variable net : nat -> reply.
Variable workspace_id : string.
Variable repr : json -> string.

Local Abbreviation production_upload :=
  (ProductionReady._upload_file_to_layer net workspace_id repr).
Local Abbreviation critical_upload :=
  (CriticalBugFixes._upload_file_to_layer net workspace_id repr).



End Decision.

Section Validation.

Variable net : nat -> reply.
Variable workspace_id : string.
Variable repr : json -> string.

Local Abbreviation slot_request filename :=
  (Post "CreateUploadUrls" (ProductionReady.upload_variables workspace_id filename)).

Lemma send_grows r : keeps grows (send net r).
Proof. intros w. exists [r]. reflexivity. Qed.

Lemma read_file_grows p : keeps grows (read_file p).
Proof. unfold read_file. keeps_steps. Qed.

(** Asking for an upload slot leaves the world as the request left it. *)
Lemma get_upload_url_world filename w :
  snd (ProductionReady.get_upload_url net workspace_id repr filename w)
  = snd (ProductionReady._make_graphql_request net repr "CreateUploadUrls"
           (ProductionReady.upload_variables workspace_id filename) w).
Proof.
  unfold ProductionReady.get_upload_url, try_except. rewrite bind_run.
  destruct (ProductionReady._make_graphql_request _ _ _ _ w) as [[result|e] w1];
    [|reflexivity].
  cbn [snd].
  match goal with
  | |- snd (match ?c w1 with _ => _ end) = _ =>
      assert (Hpure : keeps eq c) by keeps_steps;
      specialize (Hpure w1); destruct (c w1) as [[x|e] w2]
  end; cbn [snd] in *; subst w2; reflexivity.
Qed.

Lemma put_file_grows file_path upload_url :
  keeps grows (ProductionReady.put_file net file_path upload_url).
Proof.
  unfold ProductionReady.put_file. keeps_steps;
    try apply read_file_grows; try apply send_grows.
Qed.

(** Once the path is accepted, the request for an upload slot is
    sent. *)
Lemma slot_requested file_path w
    (rest : json * json -> M world string) :
  (forall slot, keeps grows (rest slot)) ->
  exists later,
    outbox (snd (bind (ProductionReady.get_upload_url net workspace_id repr
                         (basename file_path)) rest w))
    = (later ++ slot_request (basename file_path) :: outbox w)%list.
Proof.
  intros Hrest. rewrite bind_run.
  pose proof (get_upload_url_world (basename file_path) w) as Hw.
  destruct (TransportFacts.request_sent net repr "CreateUploadUrls"
              (ProductionReady.upload_variables workspace_id (basename file_path)) w)
    as [l1 Hl]. rewrite <- Hw in Hl. clear Hw.
  destruct (ProductionReady.get_upload_url _ _ _ _ w) as [[slot|e] w1];
    cbn [snd] in *; [|eauto].
  destruct (Hrest slot w1) as [l2 H2]. exists (l2 ++ l1)%list.
  rewrite H2, Hl. apply app_assoc.
Qed.

End Validation.

Section Statements.

Variable net : nat -> reply.
Variable workspace_id : string.
Variable repr : json -> string.
Variable persist : string -> string -> string -> gmap string node ->
                   res (string * gmap string node).
Variable float_of_string : string -> option num.
Variable int_of_string : string -> option Z.
Variable mkdir_parents : string -> gmap string node -> res (gmap string node).

Local Abbreviation production_upload :=
  (ProductionReady._upload_file_to_layer net workspace_id repr).
Local Abbreviation critical_upload :=
  (CriticalBugFixes._upload_file_to_layer net workspace_id repr).
Local Abbreviation slot_request file_path :=
  (Post "CreateUploadUrls"
     (ProductionReady.upload_variables workspace_id (basename file_path))).

(** C7 (as amended): before any network call the upload checks that the
    path is not empty and exists, and in the production-ready server
    that it is a regular file; otherwise it raises at once, with a
    message that names the path, and sends nothing.  The size of the file
    is not looked at: for a regular file of any size the request for an
    upload slot is sent. *)
Theorem upload_validation file_path w :
  (file_path = "" ->
     production_upload file_path w
     = (throw ValueError "File path cannot be empty", w)
     /\ critical_upload file_path w
        = (throw ValueError ("Invalid file path: " ++ file_path), w))
  /\ (file_path <> "" -> stat w file_path = None ->
     production_upload file_path w
     = (throw FileNotFoundError ("File not found: " ++ file_path), w)
     /\ critical_upload file_path w
        = (throw ValueError ("Invalid file path: " ++ file_path), w))
  /\ (stat w file_path = Some Directory ->
     production_upload file_path w
     = (throw ValueError ("Path is not a file: " ++ file_path), w))
  /\ (forall size readable,
        stat w file_path = Some (RegularFile size readable) ->
        exists later,
          outbox (snd (production_upload file_path w))
          = (later ++ slot_request file_path :: outbox w)%list)
  /\ (forall nd,
        stat w file_path = Some nd ->
        exists later,
          outbox (snd (critical_upload file_path w))
          = (later ++ slot_request file_path :: outbox w)%list).
Proof.
  assert (Hne : forall nd, stat w file_path = Some nd ->
                           String.eqb file_path "" = false).
  { unfold stat. destruct (String.eqb file_path ""); [discriminate|reflexivity]. }
  assert (Hrest : forall slot : json * json,
            keeps grows
              (let '(upload_url, file_id) := slot in
               bind (ProductionReady.put_file net file_path upload_url)
                 (fun _ => ret (ProductionReady.media_url workspace_id repr file_id
                                  (basename file_path))))).
  { intros [u f]. keeps_steps. apply put_file_grows. }
  split; [|split; [|split; [|split]]].
  - intros ->. split; reflexivity.
  - intros Hp Hs. split.
    + unfold ProductionReady._upload_file_to_layer.
      destruct (String.eqb_spec file_path ""); [contradiction|].
      rewrite bind_run. unfold path_exists. rewrite bind_run. cbn [get ret M_monad].
      rewrite Hs. reflexivity.
    + unfold CriticalBugFixes._upload_file_to_layer.
      rewrite bind_run. unfold path_exists. rewrite bind_run. cbn [get ret M_monad].
      rewrite Hs. rewrite bool_decide_eq_false_2 by (intros [x E]; discriminate).
      rewrite orb_true_r. reflexivity.
  - intros Hs. unfold ProductionReady._upload_file_to_layer.
    rewrite (Hne _ Hs).
    rewrite bind_run. unfold path_exists. rewrite bind_run. cbn [get ret M_monad].
    rewrite Hs. rewrite bool_decide_eq_true_2 by eauto. cbn [negb].
    rewrite bind_run. unfold path_isfile. rewrite bind_run. cbn [get ret M_monad].
    rewrite Hs. reflexivity.
  - intros size readable Hs. unfold ProductionReady._upload_file_to_layer.
    rewrite (Hne _ Hs).
    rewrite bind_run. unfold path_exists. rewrite bind_run. cbn [get ret M_monad].
    rewrite Hs. rewrite bool_decide_eq_true_2 by eauto. cbn [negb].
    rewrite bind_run. unfold path_isfile. rewrite bind_run. cbn [get ret M_monad].
    rewrite Hs. cbn [negb]. cbv zeta.
    apply slot_requested. exact Hrest.
  - intros nd Hs. unfold CriticalBugFixes._upload_file_to_layer.
    rewrite bind_run. unfold path_exists. rewrite bind_run. cbn [get ret M_monad].
    rewrite Hs, (Hne _ Hs). rewrite bool_decide_eq_true_2 by eauto.
    cbn [negb orb]. cbv zeta.
    apply slot_requested. exact Hrest.
Qed.


End Statements.

(** A path that does not exist: both servers raise and send nothing. *)
Lemma upload_validation_witness :
  ProductionReady._upload_file_to_layer offline "ws" repr_opaque "missing.png"
    empty_world
  = (throw FileNotFoundError "File not found: missing.png", empty_world).
Proof.
  destruct (upload_validation offline "ws" repr_opaque "missing.png" empty_world)
    as (_ & H & _).
  apply H; [discriminate|reflexivity].
Defined.

(** C7 (as stated) fails: an empty file and a file over 50 MiB pass the
    validation of the upload, which asks for a slot, sends the bytes and
    returns the URL of the file. *)
Lemma odd_sizes_uploaded :
  let run p := ProductionReady._upload_file_to_layer storage "ws" repr_opaque p
                 (world_with odd_sizes) in
  stat (world_with odd_sizes) "empty.png" = Some (RegularFile 0 true)
  /\ fst (run "empty.png")
     = Ok "https://media.app.layer.ai/workspaces/ws/files/f1/empty.png"
  /\ length (outbox (snd (run "empty.png"))) = 2%nat
  /\ stat (world_with odd_sizes) "huge.bin" = Some (RegularFile 52428801 true)
  /\ fst (run "huge.bin")
     = Ok "https://media.app.layer.ai/workspaces/ws/files/f1/huge.bin"
  /\ length (outbox (snd (run "huge.bin"))) = 2%nat.
Proof. cbv zeta. repeat split; vm_compute; reflexivity. Qed.


End UploadFacts.

(** ** The credential store: resolution and round trip *)

Module CredentialFacts.
Import Py Claims MonadFacts TokenManager TokenManagerFacts.

Lemma decode_encode_char c rest :
  decode (encode_char c ++ rest)%list = String c <$> decode rest.
Proof. destruct c as [[] [] [] [] [] [] [] []]; reflexivity. Qed.

(** Decoding what was encoded gives the string back. *)
Lemma decode_encode s : decode (encode s) = Some s.
Proof.
  induction s as [|c s IH]; [reflexivity|].
  cbn [encode]. rewrite decode_encode_char, IH. reflexivity.
Qed.

#[local] Arguments TokenManager._validate_token : simpl never.
#[local] Arguments Py.getitem : simpl never.
#[local] Arguments Py.decode : simpl never.
#[local] Arguments Py.encode : simpl never.
#[local] Arguments Py.truthy : simpl never.

Section Store.

Variable urandom : nat -> bytes.
Variable fernet_key_ok : bytes -> bool.
Variable fernet_generate_key : bytes -> bytes.
Variable fernet_encrypt : bytes -> bytes -> bytes -> bytes.
Variable fernet_decrypt : bytes -> bytes -> option bytes.
Variable json_loads : string -> option json.
Variable json_dumps : json -> string.
Variable sha256_hexdigest : bytes -> string.

Local Abbreviation get_token :=
  (TokenManager.get_token urandom fernet_key_ok fernet_generate_key fernet_decrypt
     json_loads).
Local Abbreviation get_credentials :=
  (TokenManager.get_credentials urandom fernet_key_ok fernet_generate_key
     fernet_decrypt json_loads).
Local Abbreviation stored_record :=
  (Claims.stored_record urandom fernet_key_ok fernet_generate_key fernet_decrypt
     json_loads).
Local Abbreviation _get_or_create_key :=
  (TokenManager._get_or_create_key urandom fernet_generate_key).
Local Abbreviation _encrypt_data :=
  (TokenManager._encrypt_data urandom fernet_key_ok fernet_generate_key
     fernet_encrypt).
Local Abbreviation _decrypt_data :=
  (TokenManager._decrypt_data urandom fernet_key_ok fernet_generate_key
     fernet_decrypt).

(** The key [_get_or_create_key] returns is the key in use; it raises
    when there is none. *)
Lemma get_or_create_key_in_use st :
  match key_in_use urandom fernet_generate_key st with
  | Some key => exists st', _get_or_create_key st = (Ok key, st')
                            /\ token_file st' = token_file st
  | None => exists e st', _get_or_create_key st = (Raise e, st')
  end.
Proof.
  unfold key_in_use, TokenManager._get_or_create_key.
  destruct st as [tf kf ro dr]. cbn [key_file read_only drawn].
  destruct kf as [| |k]; [destruct ro| |]; cbn; eauto.
Qed.

(** [get_token] never raises: it is the decrypt-and-validate of the
    record, every failure giving [None]. *)
Lemma get_token_stored st : fst (get_token st) = Ok (stored_record st).
Proof.
  unfold TokenManager.get_token, try_except, Claims.stored_record.
  rewrite bind_run. cbn [get].
  destruct (token_file st) as [| |data] eqn:Et; cbn [exists_ negb read_bytes];
    [reflexivity| |].
  { rewrite bind_lift. reflexivity. }
  rewrite bind_lift. unfold TokenManager._decrypt_data.
  rewrite !bind_run.
  pose proof (get_or_create_key_in_use st) as Hk.
  destruct (key_in_use urandom fernet_generate_key st) as [key|].
  2:{ destruct Hk as (e & st' & ->). reflexivity. }
  destruct Hk as (st' & -> & _).
  unfold TokenManager.Fernet.
  destruct (fernet_key_ok key); simpl; [|reflexivity].
  destruct (fernet_decrypt key data) as [plain|]; simpl; [|reflexivity].
  destruct (decode plain) as [text|]; simpl; [|reflexivity].
  destruct (json_loads text) as [td|]; simpl; [|reflexivity].
  destruct (getitem td "api_token") as [tok|e]; simpl; [|reflexivity].
  unfold validate_stored.
  destruct tok as [|b|n|t|l|m];
    try (destruct (truthy _); simpl;
         destruct (getitem td "workspace_id"); reflexivity).
  assert (Hv : truthy (JStr t) = false -> _validate_token t = false).
  { unfold truthy. destruct (String.eqb_spec t "") as [->|]; [reflexivity|].
    discriminate. }
  destruct (truthy (JStr t)); simpl.
  - destruct (_validate_token t); simpl;
      destruct (getitem td "workspace_id") as [ws|e]; reflexivity.
  - rewrite Hv by reflexivity.
    destruct (getitem td "workspace_id") as [ws|e]; reflexivity.
Qed.

(** [get_credentials]: the stored record first, the environment next. *)
Lemma get_credentials_tiers env st :
  fst (get_credentials env st)
  = Ok (match stored_record st with
        | Some c => Some c
        | None => env_get_token env
        end).
Proof.
  unfold TokenManager.get_credentials. rewrite bind_run.
  pose proof (get_token_stored st) as H.
  destruct (get_token st) as [[c|e] st']; cbn [fst] in H; [|discriminate].
  injection H as ->.
  destruct (stored_record st); [reflexivity|].
  destruct (env_get_token env); reflexivity.
Qed.




End Store.




End CredentialFacts.

(** ** The polling loop *)

Module PollingFacts.
Import Py Claims Frames MonadFacts World.

#[local] Instance still_refl : Reflexive still.
Proof. intros w. reflexivity. Qed.

#[local] Instance still_trans : Transitive still.
Proof. unfold still. intros a b c H1 H2. congruence. Qed.

#[local] Instance calm_refl : Reflexive calm.
Proof. intros s. split; reflexivity. Qed.

#[local] Instance calm_trans : Transitive calm.
Proof. unfold calm. intros a b c [H1 H2] [H3 H4]. split; congruence. Qed.

Section Polling.

Variable net : nat -> reply.
Variable repr : json -> string.
Variable persist : string -> string -> string -> gmap string node ->
                   res (string * gmap string node).

Local Abbreviation _make_graphql_request :=
  (ProductionReady._make_graphql_request net repr).
Local Abbreviation _download_result_files :=
  (ProductionReady._download_result_files net repr persist).
Local Abbreviation examine := (ProductionReady.examine net repr persist).
Local Abbreviation poll := (ProductionReady.poll net repr persist).
Local Abbreviation wait_loop := (ProductionReady.wait_loop net repr persist).
Local Abbreviation _wait_for_completion_with_retry :=
  (ProductionReady._wait_for_completion_with_retry net repr persist).
Local Abbreviation status_request inference_id :=
  (_make_graphql_request "GetInferenceStatus"
     (ProductionReady.status_variables inference_id)).




Lemma logger_still l m : keeps still (logger l m).
Proof. intros w. reflexivity. Qed.






(** The [except] of an iteration counts the failure and returns: an
    abort at the third failure in a row, and otherwise nothing. *)
Lemma poll_failed_run e w l :
  ProductionReady.poll_failed e (w, l)
  = let failures := ProductionReady.consecutive_failures l + 1 in
    (Ok (if (failures >=? 3)%Z
         then Some (ProductionReady.StatusCheckFailed failures e)
         else None),
     (snd (logger WARNING
             ("Failed to check inference status (attempt " ++ pretty failures
              ++ "): " ++ emsg e) w),
      {| ProductionReady.elapsed_time := ProductionReady.elapsed_time l;
         ProductionReady.consecutive_failures := failures |})).
Proof.
  unfold ProductionReady.poll_failed. cbv zeta.
  unfold ProductionReady.max_consecutive_failures.
  destruct (ProductionReady.consecutive_failures l + 1 >=? 3)%Z eqn:E;
    cbn; rewrite E; reflexivity.
Qed.

(** The state after the wait that ends an iteration *)
Local Abbreviation after_wait w elapsed failures :=
  (snd (sleep ProductionReady.check_interval w),
   {| ProductionReady.elapsed_time := elapsed + ProductionReady.check_interval;
      ProductionReady.consecutive_failures := failures |}).

(** One turn of the loop, on what its [try] and [except] come to *)
Lemma wait_loop_turn fuel inference_id save_path w l :
  wait_loop (S fuel) inference_id save_path (w, l)
  = if (ProductionReady.elapsed_time l <? 300)%Z then
      match try_except (poll inference_id save_path) ProductionReady.poll_failed
              (w, l) with
      | (Ok (Some report), s1) => (Ok (Some report), s1)
      | (Ok None, (w1, l1)) =>
          wait_loop fuel inference_id save_path
            (after_wait w1 (ProductionReady.elapsed_time l1)
               (ProductionReady.consecutive_failures l1))
      | (Raise e, s1) => (Raise e, s1)
      end
    else (Ok (Some (ProductionReady.TimedOut 300)), (w, l)).
Proof.
  cbn [ProductionReady.wait_loop]. rewrite bind_run.
  cbn [ProductionReady.get_locals snd].
  change ProductionReady.max_wait_time with 300%Z.
  destruct (ProductionReady.elapsed_time l <? 300)%Z; [|reflexivity].
  rewrite bind_run.
  destruct (try_except _ _ (w, l)) as [[[report|]|e] [w1 l1]]; reflexivity.
Qed.

(** The [try] and the [except] of one turn, on the request and on the
    examination of its response *)
Lemma poll_turn inference_id save_path w l :
  try_except (poll inference_id save_path) ProductionReady.poll_failed (w, l)
  = match status_request inference_id w with
    | (Ok status_result, w1) =>
        match examine status_result save_path (w1, l) with
        | (Ok r, s2) => (Ok r, s2)
        | (Raise e, s2) => ProductionReady.poll_failed e s2
        end
    | (Raise e, w1) => ProductionReady.poll_failed e (w1, l)
    end.
Proof.
  unfold try_except, ProductionReady.poll. rewrite bind_run.
  unfold ProductionReady.in_world at 1. cbn [fst snd].
  destruct (status_request inference_id w) as [[status_result|e] w1];
    reflexivity.
Qed.



(** The world after the failure of a poll is logged *)
Local Abbreviation counted e failures w :=
  (snd (logger WARNING
          ("Failed to check inference status (attempt " ++ pretty failures
           ++ "): " ++ emsg e) w)).

Local Abbreviation at_ elapsed failures :=
  {| ProductionReady.elapsed_time := elapsed;
     ProductionReady.consecutive_failures := failures |}.

Lemma examine_not_found status_result save_path w l inferences :
  ProductionReady.read_inferences repr status_result = Ok inferences ->
  truthy inferences = false ->
  examine status_result save_path (w, l)
  = (Ok (Some ProductionReady.InferenceNotFound), (w, l)).
Proof.
  intros Hr Ht. unfold ProductionReady.examine.
  rewrite bind_lift, Hr, Ht. reflexivity.
Qed.


Lemma examine_status status_result save_path w l inferences inference_data status :
  ProductionReady.read_inferences repr status_result = Ok inferences ->
  truthy inferences = true ->
  index0 inferences = Ok inference_data ->
  dict_get inference_data "status" (JStr "UNKNOWN") = Ok status ->
  examine status_result save_path (w, l)
  = let elapsed := ProductionReady.elapsed_time l in
    if eq_str status "COMPLETE" then
      match _download_result_files inference_data save_path w with
      | (Ok d, w2) =>
          (Ok (Some (ProductionReady.Completed elapsed d)), (w2, at_ elapsed 0))
      | (Raise e, w2) => (Raise e, (w2, at_ elapsed 0))
      end
    else if eq_str status "FAILED" then
      (Ok (Some (ProductionReady.GenerationFailed elapsed)), (w, at_ elapsed 0))
    else if eq_str status "CANCELLED" then
      (Ok (Some (ProductionReady.GenerationCancelled elapsed)), (w, at_ elapsed 0))
    else (Ok None, (w, at_ elapsed 0)).
Proof.
  intros Hr Ht Hi Hs. unfold ProductionReady.examine.
  rewrite bind_lift, Hr, Ht. cbn [negb]. rewrite bind_run.
  cbn [ProductionReady.set_failures fst snd]. rewrite bind_run.
  cbn [ProductionReady.get_locals snd ProductionReady.elapsed_time].
  rewrite bind_lift, Hi, bind_lift, Hs. cbv zeta.
  destruct (eq_str status "COMPLETE").
  - rewrite bind_run. unfold ProductionReady.in_world. cbn [fst snd].
    destruct (_download_result_files inference_data save_path w) as [[d|e] w2];
      reflexivity.
  - destruct (eq_str status "FAILED"); [reflexivity|].
    destruct (eq_str status "CANCELLED"); reflexivity.
Qed.


(** C10: when the status request succeeds and the list of inferences of
    the response is empty, the loop returns "Inference not found" at
    once, in the world the request left and with its counters untouched:
    no failure is counted, nothing is sent again, nothing is slept, the
    deadline plays no part.  The report is none of the others. *)
Theorem empty_inferences_not_found inference_id save_path :
  (forall fuel w l status_result w1 inferences,
     ProductionReady.elapsed_time l < 300 ->
     status_request inference_id w = (Ok status_result, w1) ->
     ProductionReady.read_inferences repr status_result = Ok inferences ->
     truthy inferences = false ->
     wait_loop (S fuel) inference_id save_path (w, l)
     = (Ok (Some ProductionReady.InferenceNotFound), (w1, l)))
  /\ (forall (body data response : gmap string json),
        body !! "data" = Some (JObj data) ->
        data !! "getInferencesById" = Some (JObj response) ->
        response !! "message" = None ->
        response !! "inferences" = Some (JArr []) ->
        ProductionReady.read_inferences repr (JObj body) = Ok (JArr [])
        /\ truthy (JArr []) = false)
  /\ (forall elapsed d failures e,
        ProductionReady.InferenceNotFound <> ProductionReady.Completed elapsed d
        /\ ProductionReady.InferenceNotFound <> ProductionReady.GenerationFailed elapsed
        /\ ProductionReady.InferenceNotFound
           <> ProductionReady.GenerationCancelled elapsed
        /\ ProductionReady.InferenceNotFound
           <> ProductionReady.StatusCheckFailed failures e
        /\ ProductionReady.InferenceNotFound <> ProductionReady.TimedOut elapsed).
Proof.
  split; [|split].
  - intros fuel w l status_result w1 inferences Hl Hr Hi Ht.
    rewrite wait_loop_turn.
    destruct (Z.ltb_spec (ProductionReady.elapsed_time l) 300); [|lia].
    rewrite poll_turn, Hr, (examine_not_found _ _ _ _ _ Hi Ht). reflexivity.
  - intros body data response Hb Hd Hm Hi. split; [|reflexivity].
    unfold ProductionReady.read_inferences.
    cbn [dict_get bind res_monad]. rewrite Hb. cbn [default id dict_get].
    rewrite Hd. cbn [default id].
    assert (Ht : truthy (JObj response) = true).
    { cbn [truthy]. destruct (map_to_list response) eqn:E; [|reflexivity].
      apply map_to_list_empty_iff in E. subst response.
      rewrite lookup_empty in Hi. discriminate. }
    rewrite Ht. cbn [negb py_in].
    rewrite bool_decide_eq_false_2 by (rewrite Hm; intros [x E]; discriminate).
    cbn [dict_get]. rewrite Hi. reflexivity.
  - intros elapsed d failures e. repeat split; discriminate.
Qed.

End Polling.



(** A reply with an empty list of inferences, at the first poll *)
Lemma empty_inferences_not_found_witness :
  exists w1,
    ProductionReady.wait_loop (fun _ => no_inference) repr_opaque persist_ok 1
      (JStr "job-1") "out.png" (empty_world, loop_start)
    = (Ok (Some ProductionReady.InferenceNotFound), (w1, loop_start))
    /\ slept w1 = 0 /\ length (outbox w1) = 1%nat.
Proof.
  destruct (empty_inferences_not_found (fun _ => no_inference) repr_opaque
              persist_ok (JStr "job-1") "out.png") as [H _].
  eexists. split.
  - eapply (H 0%nat empty_world loop_start).
    + cbn. lia.
    + vm_compute. reflexivity.
    + vm_compute. reflexivity.
    + reflexivity.
  - split; reflexivity.
Defined.

End PollingFacts.

(** ** The credential store: writing, clearing and interactive setup *)

Module StoreFacts.
Import Py Claims Examples MonadFacts TokenManager TokenManagerFacts.

#[local] Arguments TokenManager._validate_token : simpl never.
#[local] Arguments Py.getitem : simpl never.
#[local] Arguments Py.decode : simpl never.
#[local] Arguments Py.encode : simpl never.
#[local] Arguments Py.truthy : simpl never.

Section Store.

Variable urandom : nat -> bytes.
Variable fernet_key_ok : bytes -> bool.
Variable fernet_generate_key : bytes -> bytes.
Variable fernet_encrypt : bytes -> bytes -> bytes -> bytes.
Variable fernet_decrypt : bytes -> bytes -> option bytes.
Variable json_loads : string -> option json.
Variable json_dumps : json -> string.
Variable sha256_hexdigest : bytes -> string.

Local Abbreviation store_token :=
  (TokenManager.store_token urandom fernet_key_ok fernet_generate_key fernet_encrypt
     json_dumps sha256_hexdigest).
Local Abbreviation key_in_use := (Claims.key_in_use urandom fernet_generate_key).
Local Abbreviation token_data := (TokenManager.token_data sha256_hexdigest).

(** [store_token] on every disk: what it returns and what it leaves *)
Lemma store_token_run token workspace_id st :
  store_token token workspace_id st
  = if _validate_token token then
      match key_in_use st with
      | Some key =>
          let drawn1 := match key_file st with
                        | Missing => S (drawn st)
                        | _ => drawn st
                        end in
          if fernet_key_ok key then
            if read_only st
            then (Ok false, {| token_file := token_file st; key_file := Content key;
                               read_only := true; drawn := S drawn1 |})
            else (Ok true,
                  {| token_file :=
                       Content (fernet_encrypt key (urandom drawn1)
                                  (encode (json_dumps (token_data token workspace_id))));
                     key_file := Content key; read_only := false;
                     drawn := S drawn1 |})
          else (Ok false, {| token_file := token_file st; key_file := Content key;
                             read_only := read_only st; drawn := drawn1 |})
      | None =>
          (Ok false,
           match key_file st with
           | Missing => {| token_file := token_file st; key_file := Missing;
                           read_only := read_only st; drawn := S (drawn st) |}
           | _ => st
           end)
      end
    else (Ok false, st).
Proof.
  unfold TokenManager.store_token, try_except, Claims.key_in_use.
  destruct (_validate_token token); [|reflexivity].
  destruct st as [tf kf ro dr]. cbn [key_file read_only drawn token_file negb].
  unfold TokenManager._encrypt_data, TokenManager._get_or_create_key,
    TokenManager.Fernet.
  destruct kf as [| |k]; [destruct ro| |]; cbn; try reflexivity.
  - destruct (fernet_key_ok _); reflexivity.
  - destruct (fernet_key_ok k); [|reflexivity]. destruct ro; reflexivity.
Qed.

Local Abbreviation get_token :=
  (TokenManager.get_token urandom fernet_key_ok fernet_generate_key fernet_decrypt
     json_loads).
Local Abbreviation get_credentials :=
  (TokenManager.get_credentials urandom fernet_key_ok fernet_generate_key
     fernet_decrypt json_loads).
Local Abbreviation stored_record :=
  (Claims.stored_record urandom fernet_key_ok fernet_generate_key fernet_decrypt
     json_loads).
Local Abbreviation setup_interactive :=
  (TokenManager.setup_interactive urandom fernet_key_ok fernet_generate_key
     fernet_encrypt json_dumps sha256_hexdigest).

(** What a successful [store_token] leaves on the disk *)
Lemma store_token_stored token workspace_id st st' :
  store_token token workspace_id st = (Ok true, st') ->
  _validate_token token = true
  /\ read_only st = false
  /\ exists key r,
       key_in_use st = Some key /\ fernet_key_ok key = true
       /\ key_file st' = Content key
       /\ token_file st'
          = Content (fernet_encrypt key r
                       (encode (json_dumps (token_data token workspace_id)))).
Proof.
  rewrite store_token_run.
  destruct (_validate_token token); [|discriminate].
  destruct (key_in_use st) as [key|]; [|discriminate]. cbv zeta.
  destruct (fernet_key_ok key) eqn:Hok; [|discriminate].
  destruct (read_only st); [discriminate|].
  intros H. injection H as <-. cbn. eauto 10.
Qed.

(** [store_token] returns a boolean. *)
Lemma store_token_returns token workspace_id st :
  exists stored st', store_token token workspace_id st = (Ok stored, st').
Proof.
  rewrite store_token_run.
  destruct (_validate_token token); [|eauto].
  destruct (key_in_use st) as [key|]; [|eauto]. cbv zeta.
  destruct (fernet_key_ok key); [|eauto].
  destruct (read_only st); eauto.
Qed.


(** X2: under a cipher that decrypts what it encrypted and a JSON
    library that reads back the record it wrote, what [store_token] has
    stored is what [get_token] returns, and [get_credentials] returns it
    whatever the environment holds. *)
Theorem stored_credentials_read_back token workspace_id st st' env :
  (forall k r m, fernet_key_ok k = true ->
                 fernet_decrypt k (fernet_encrypt k r m) = Some m) ->
  json_loads (json_dumps (token_data token workspace_id))
  = Some (token_data token workspace_id) ->
  store_token token workspace_id st = (Ok true, st') ->
  fst (get_token st')
  = Ok (Some {| api_token := JStr token; workspace_id := JStr workspace_id |})
  /\ fst (get_credentials env st')
     = Ok (Some {| api_token := JStr token; workspace_id := JStr workspace_id |}).
Proof.
  intros Hrt Hjson Hs.
  destruct (store_token_stored _ _ _ _ Hs) as (Hv & Hro & key & r & Hk & Hok & Hkf & Htf).
  assert (Hrec : stored_record st'
                 = Some {| api_token := JStr token;
                           workspace_id := JStr workspace_id |}).
  { unfold Claims.stored_record, Claims.key_in_use. rewrite Htf, Hkf, Hok.
    rewrite Hrt by exact Hok. rewrite CredentialFacts.decode_encode, Hjson.
    unfold TokenManager.token_data, getitem.
    rewrite lookup_insert_eq.
    rewrite lookup_insert_ne by discriminate. rewrite lookup_insert_eq.
    rewrite Hv. reflexivity. }
  split.
  - rewrite CredentialFacts.get_token_stored. rewrite Hrec. reflexivity.
  - rewrite CredentialFacts.get_credentials_tiers. rewrite Hrec. reflexivity.
Qed.


(** [clear_token] on every disk *)
Lemma clear_token_run st :
  clear_token st
  = match token_file st with
    | Missing => (Ok true, st)
    | _ =>
        if read_only st then (Ok false, st)
        else (Ok true, {| token_file := Missing; key_file := key_file st;
                          read_only := false; drawn := drawn st |})
    end.
Proof.
  destruct st as [tf kf ro dr]. unfold clear_token, try_except.
  destruct tf as [| |data]; [reflexivity| |]; destruct ro; reflexivity.
Qed.


(** X4: [setup_interactive] strips the two lines typed.  When either
    is blank it returns [False] and writes nothing.  When it returns
    [True], the token stored is the stripped line and it has the token
    shape in the strict sense: the prefix, 50 to 200 characters, letters,
    digits, hyphens and underscores only, and no trailing newline. *)
Theorem setup_interactive_outcome typed_token typed_workspace st :
  exists stored st',
    setup_interactive typed_token typed_workspace st = (Ok stored, st')
    /\ (strip typed_token = "" \/ strip typed_workspace = "" ->
        stored = false /\ st' = st)
    /\ (stored = true ->
        token_shape (strip typed_token) = true
        /\ strip typed_workspace <> ""
        /\ exists key r,
             token_file st'
             = Content (fernet_encrypt key r
                          (encode (json_dumps
                                     (token_data (strip typed_token)
                                        (strip typed_workspace)))))).
Proof.
  unfold TokenManager.setup_interactive, TokenManager.store_credentials. cbv zeta.
  destruct (String.eqb_spec (strip typed_token) "") as [Et|Et].
  { exists false, st. split; [reflexivity|]. split; [auto|discriminate]. }
  destruct (String.eqb_spec (strip typed_workspace) "") as [Ew|Ew].
  { exists false, st. split; [reflexivity|]. split; [auto|discriminate]. }
  rewrite bind_run.
  destruct (store_token_returns (strip typed_token) (strip typed_workspace) st)
    as (stored & st' & E).
  rewrite E. exists stored, st'.
  split; [destruct stored; reflexivity|].
  split; [intros [H|H]; contradiction|].
  intros ->.
  destruct (store_token_stored _ _ _ _ E) as (Hv & _ & key & r & _ & _ & _ & Htf).
  split; [|split; [exact Ew|eauto]].
  apply validate_token_accepts in Hv.
  destruct Hv as (Hlen & body & rest & Heq & Hne & Hall & Hd).
  apply at_dollar_cases in Hd. destruct Hd as [->| ->].
  - rewrite PyFacts.app_empty_r in Heq. unfold token_shape.
    rewrite Heq in *. rewrite PyFacts.startswith_app.
    change (drop 4 ("pat_" ++ body)) with body. rewrite Hall.
    destruct Hlen as [H1 H2].
    apply Nat.leb_le in H1, H2. rewrite H1, H2. reflexivity.
  - exfalso. apply (PyFacts.strip_no_newline typed_token ("pat_" ++ body)).
    rewrite Heq. rewrite PyFacts.app_assoc_string. reflexivity.
Qed.

End Store.

(** With the toy cipher, a token stored on an empty disk is read back. *)
Lemma stored_credentials_read_back_witness :
  fst (TokenManager.get_token toy_urandom toy_key_ok toy_generate_key toy_decrypt
         good_record_loads
         (snd (TokenManager.store_token toy_urandom toy_key_ok toy_generate_key
                 toy_encrypt toy_json_dumps toy_sha256 good_token "ws" empty_disk)))
  = Ok (Some {| api_token := JStr good_token; workspace_id := JStr "ws" |}).
Proof.
  refine (proj1 (stored_credentials_read_back toy_urandom toy_key_ok
                   toy_generate_key toy_encrypt toy_decrypt good_record_loads
                   toy_json_dumps toy_sha256 good_token "ws" empty_disk _ ∅ _ _ _)).
  - intros k r m _. reflexivity.
  - reflexivity.
  - vm_compute. reflexivity.
Defined.



(** A blank line for the token: nothing is stored. *)
Lemma setup_interactive_outcome_witness :
  TokenManager.setup_interactive toy_urandom toy_key_ok toy_generate_key toy_encrypt
    toy_json_dumps toy_sha256 "   " "ws" empty_disk
  = (Ok false, empty_disk).
Proof.
  destruct (setup_interactive_outcome toy_urandom toy_key_ok toy_generate_key
              toy_encrypt toy_json_dumps toy_sha256 "   " "ws" empty_disk)
    as (stored & st' & E & Hblank & _).
  rewrite E. destruct Hblank as [-> ->]; [left|]; reflexivity.
Defined.

End StoreFacts.

(** ** Loading the credentials at start-up *)

Module StartupFacts.
Import Py Claims Examples MonadFacts World.

#[local] Arguments Py.truthy : simpl never.
#[local] Arguments Py.strip : simpl never.

Section Startup.

Variable urandom : nat -> bytes.
Variable fernet_key_ok : bytes -> bool.
Variable fernet_generate_key : bytes -> bytes.
Variable fernet_decrypt : bytes -> bytes -> option bytes.
Variable json_loads : string -> option json.
Variable env : gmap string string.
Variable LayerTokenManager : option (res unit).

Local Abbreviation get_credentials :=
  (TokenManager.get_credentials urandom fernet_key_ok fernet_generate_key
     fernet_decrypt json_loads env).
Local Abbreviation stored_record :=
  (Claims.stored_record urandom fernet_key_ok fernet_generate_key fernet_decrypt
     json_loads).
Local Abbreviation secure_credentials :=
  (Outcomes.secure_credentials urandom fernet_key_ok fernet_generate_key
     fernet_decrypt json_loads env).
Local Abbreviation load_secure :=
  (ProductionReady.load_secure urandom fernet_key_ok fernet_generate_key
     fernet_decrypt json_loads env).
Local Abbreviation production_load :=
  (ProductionReady._load_credentials urandom fernet_key_ok fernet_generate_key
     fernet_decrypt json_loads env LayerTokenManager).
Local Abbreviation critical_load :=
  (CriticalBugFixes._load_credentials urandom fernet_key_ok fernet_generate_key
     fernet_decrypt json_loads env LayerTokenManager).
Local Abbreviation env_token := (TokenManager.getenv env "LAYER_API_TOKEN").
Local Abbreviation env_workspace := (TokenManager.getenv env "LAYER_WORKSPACE_ID").

(** The lines shared by the two loaders, once the manager is
    constructed *)
Lemma load_secure_run s :
  exists s',
    load_secure (Ok tt) s
    = (Ok (bool_decide (is_Some (secure_credentials (Some (Ok tt))
                                   (ProductionReady.config s)))), s')
    /\ match secure_credentials (Some (Ok tt)) (ProductionReady.config s) with
       | Some c =>
           ProductionReady.api_token s' = TokenManager.api_token c
           /\ ProductionReady.workspace_id s' = TokenManager.workspace_id c
       | None =>
           ProductionReady.records s' = ProductionReady.records s
       end.
Proof.
  unfold ProductionReady.load_secure, Outcomes.secure_credentials.
  rewrite bind_lift, bind_run. unfold ProductionReady.on_config.
  pose proof (CredentialFacts.get_credentials_tiers urandom fernet_key_ok
                fernet_generate_key fernet_decrypt json_loads env
                (ProductionReady.config s)) as H.
  destruct (get_credentials (ProductionReady.config s)) as [[found|e] d];
    cbn [fst] in H; [|discriminate].
  injection H as ->.
  destruct (match stored_record (ProductionReady.config s) with
            | Some c => Some c
            | None => TokenManager.env_get_token env
            end) as [c|].
  - eexists. split; [reflexivity|]. split; reflexivity.
  - eexists. split; [reflexivity|]. reflexivity.
Qed.

(** [_load_credentials] of the production-ready server, on what the token
    manager gives *)
Lemma production_load_run s :
  match secure_credentials LayerTokenManager (ProductionReady.config s) with
  | Some c =>
      exists s',
        production_load s = (Ok tt, s')
        /\ ProductionReady.api_token s' = TokenManager.api_token c
        /\ ProductionReady.workspace_id s' = TokenManager.workspace_id c
  | None =>
      exists s',
        production_load s
        = (if String.eqb (strip env_token) "" || String.eqb (strip env_workspace) ""
           then throw ValueError ProductionReady.missing_credentials
           else Ok tt, s')
        /\ ProductionReady.api_token s' = JStr (strip env_token)
        /\ ProductionReady.workspace_id s' = JStr (strip env_workspace)
  end.
Proof.
  assert (Hfall : forall s1,
            exists s',
              bind (ret false : M ProductionReady.startup bool)
                (fun loaded : bool =>
                   if loaded then ret tt
                   else
                     bind (ProductionReady.set_api_token (JStr (strip env_token)))
                       (fun _ =>
                     bind (ProductionReady.set_workspace_id
                             (JStr (strip env_workspace)))
                       (fun _ =>
                     bind get (fun s0 : ProductionReady.startup =>
                       if negb (truthy (ProductionReady.api_token s0))
                          || negb (truthy (ProductionReady.workspace_id s0))
                       then raise ValueError ProductionReady.missing_credentials
                       else ProductionReady.log_record INFO
                              "🔑 Using environment variable credentials")))) s1
              = (if String.eqb (strip env_token) ""
                    || String.eqb (strip env_workspace) ""
                 then throw ValueError ProductionReady.missing_credentials
                 else Ok tt, s')
              /\ ProductionReady.api_token s' = JStr (strip env_token)
              /\ ProductionReady.workspace_id s' = JStr (strip env_workspace)).
  { intros s1. cbn. unfold truthy.
    destruct (String.eqb (strip env_token) ""),
      (String.eqb (strip env_workspace) ""); cbn;
      eexists; (split; [reflexivity|]); split; reflexivity. }
  unfold ProductionReady._load_credentials.
  destruct LayerTokenManager as [[[]|e]|]; cbn [Outcomes.secure_credentials].
  - destruct (load_secure_run s) as (s1 & E & H).
    cbn [Outcomes.secure_credentials] in E, H.
    rewrite bind_run. unfold try_except. rewrite E.
    destruct (match stored_record (ProductionReady.config s) with
              | Some c => Some c
              | None => TokenManager.env_get_token env
              end) as [c|].
    + rewrite bool_decide_eq_true_2 by eauto. exists s1. split; [reflexivity|exact H].
    + rewrite bool_decide_eq_false_2 by (intros [x Hx]; discriminate).
      apply (Hfall s1).
  - rewrite bind_run. unfold try_except, ProductionReady.load_secure.
    rewrite bind_lift. rewrite bind_run. cbn [ProductionReady.log_record ret M_monad].
    apply Hfall.
  - apply Hfall.
Qed.


(** A credential of the token manager carries a non-empty string as its
    token. *)
Lemma secure_token_not_empty st c :
  secure_credentials LayerTokenManager st = Some c ->
  exists tok, TokenManager.api_token c = JStr tok /\ tok <> "".
Proof.
  assert (Henv : TokenManager.env_get_token env = Some c ->
                 exists tok, TokenManager.api_token c = JStr tok /\ tok <> "").
  { intros H. apply TokenManagerFacts.env_get_token_rule in H.
    destruct H as (-> & Hne & _). eexists. split; [reflexivity|exact Hne]. }
  unfold Outcomes.secure_credentials.
  destruct LayerTokenManager as [[[]|e]|]; try discriminate.
  unfold Claims.stored_record.
  destruct (TokenManager.token_file st) as [| |data]; try exact Henv.
  destruct (key_in_use urandom fernet_generate_key st) as [key|]; try exact Henv.
  destruct (fernet_key_ok key); try exact Henv.
  destruct (fernet_decrypt key data) as [plain|]; try exact Henv.
  destruct (decode plain) as [text|]; try exact Henv.
  destruct (json_loads text) as [td|]; try exact Henv.
  destruct (getitem td "api_token") as [[| | |tok| |]|];
    try (destruct (getitem td "workspace_id")); try exact Henv.
  destruct (TokenManager._validate_token tok) eqn:Hv; try exact Henv.
  intros H. injection H as <-. exists tok. split; [reflexivity|].
  intros ->. discriminate.
Qed.

(** [_load_credentials] of [critical_bug_fixes.py], likewise *)
Lemma critical_load_run s :
  match LayerTokenManager with
  | Some (Raise e) => critical_load s = (Raise e, s)
  | _ =>
      match secure_credentials LayerTokenManager (ProductionReady.config s) with
      | Some c =>
          exists s',
            critical_load s = (Ok tt, s')
            /\ ProductionReady.api_token s' = TokenManager.api_token c
            /\ ProductionReady.workspace_id s' = TokenManager.workspace_id c
      | None =>
          exists s',
            critical_load s
            = (if String.eqb env_token "" || String.eqb env_workspace ""
               then throw ValueError ProductionReady.missing_credentials
               else Ok tt, s')
            /\ ProductionReady.api_token s' = JStr env_token
            /\ ProductionReady.workspace_id s' = JStr env_workspace
      end
  end.
Proof.
  assert (Hfall : forall s1,
            exists s',
              bind (ret false : M ProductionReady.startup bool)
                (fun loaded : bool =>
                   if loaded then ret tt
                   else
                     bind (ProductionReady.set_api_token (JStr env_token))
                       (fun _ =>
                     bind (ProductionReady.set_workspace_id (JStr env_workspace))
                       (fun _ =>
                     bind get (fun s0 : ProductionReady.startup =>
                       if negb (truthy (ProductionReady.api_token s0))
                          || negb (truthy (ProductionReady.workspace_id s0))
                       then
                         bind (ProductionReady.log_record ERROR
                                 "❌ No valid credentials found")
                           (fun _ => raise ValueError
                                       ProductionReady.missing_credentials)
                       else ret tt)))) s1
              = (if String.eqb env_token "" || String.eqb env_workspace ""
                 then throw ValueError ProductionReady.missing_credentials
                 else Ok tt, s')
              /\ ProductionReady.api_token s' = JStr env_token
              /\ ProductionReady.workspace_id s' = JStr env_workspace).
  { intros s1. cbn. unfold truthy.
    destruct (String.eqb env_token ""), (String.eqb env_workspace ""); cbn;
      eexists; (split; [reflexivity|]); split; reflexivity. }
  unfold CriticalBugFixes._load_credentials.
  destruct LayerTokenManager as [[[]|e]|]; cbn [Outcomes.secure_credentials].
  - destruct (load_secure_run s) as (s1 & E & H).
    cbn [Outcomes.secure_credentials] in E, H.
    rewrite bind_run. rewrite E.
    destruct (match stored_record (ProductionReady.config s) with
              | Some c => Some c
              | None => TokenManager.env_get_token env
              end) as [c|].
    + rewrite bool_decide_eq_true_2 by eauto. exists s1. split; [reflexivity|exact H].
    + rewrite bool_decide_eq_false_2 by (intros [x Hx]; discriminate).
      apply (Hfall s1).
  - rewrite bind_run. unfold ProductionReady.load_secure.
    rewrite bind_lift. reflexivity.
  - apply Hfall.
Qed.


(** X5: [_load_credentials] of the production-ready server raises
    nothing but the [ValueError] of missing credentials, even when the
    token manager cannot be constructed.  When the manager gives
    credentials (the stored record, or the checked environment) the
    server takes them.  Otherwise it takes the two environment values,
    stripped, with no check of their format, and raises exactly when one
    of them is blank.  After a successful load the token is a non-empty
    string. *)
Theorem load_credentials_outcome s :
  match secure_credentials LayerTokenManager (ProductionReady.config s) with
  | Some c =>
      exists s',
        production_load s = (Ok tt, s')
        /\ ProductionReady.api_token s' = TokenManager.api_token c
        /\ ProductionReady.workspace_id s' = TokenManager.workspace_id c
  | None =>
      exists s',
        production_load s
        = (if String.eqb (strip env_token) "" || String.eqb (strip env_workspace) ""
           then throw ValueError ProductionReady.missing_credentials
           else Ok tt, s')
        /\ ProductionReady.api_token s' = JStr (strip env_token)
        /\ ProductionReady.workspace_id s' = JStr (strip env_workspace)
  end
  /\ (forall s', production_load s = (Ok tt, s') ->
        exists tok, ProductionReady.api_token s' = JStr tok /\ tok <> "").
Proof.
  split; [apply production_load_run|].
  intros s' E. pose proof (production_load_run s) as H.
  destruct (secure_credentials LayerTokenManager (ProductionReady.config s))
    as [c|] eqn:Ec.
  - destruct H as (s1 & E1 & Ht & _). rewrite E1 in E. injection E as <-.
    rewrite Ht. eapply secure_token_not_empty, Ec.
  - destruct H as (s1 & E1 & Ht & _). rewrite E1 in E.
    destruct (String.eqb_spec (strip env_token) "") as [|Hne]; [discriminate|].
    injection E as _ <-. eauto.
Qed.

(** X6: [_load_credentials] of [critical_bug_fixes.py] lets an exception
    of the construction of the token manager escape.  Otherwise it takes
    what the manager gives, or the two environment values as they are,
    not stripped, and raises the [ValueError] exactly when one of them is
    empty.  So, when the manager is constructed or absent, it succeeds
    wherever the production-ready loader does. *)
Theorem critical_load_credentials_outcome s :
  match LayerTokenManager with
  | Some (Raise e) => critical_load s = (Raise e, s)
  | _ =>
      match secure_credentials LayerTokenManager (ProductionReady.config s) with
      | Some c =>
          exists s',
            critical_load s = (Ok tt, s')
            /\ ProductionReady.api_token s' = TokenManager.api_token c
            /\ ProductionReady.workspace_id s' = TokenManager.workspace_id c
      | None =>
          exists s',
            critical_load s
            = (if String.eqb env_token "" || String.eqb env_workspace ""
               then throw ValueError ProductionReady.missing_credentials
               else Ok tt, s')
            /\ ProductionReady.api_token s' = JStr env_token
            /\ ProductionReady.workspace_id s' = JStr env_workspace
      end
  end
  /\ ((forall e, LayerTokenManager <> Some (Raise e)) ->
      forall s1, production_load s = (Ok tt, s1) ->
                 exists s2, critical_load s = (Ok tt, s2)).
Proof.
  split; [apply critical_load_run|].
  intros Hc s1 E.
  pose proof (production_load_run s) as Hp.
  pose proof (critical_load_run s) as Hk.
  destruct LayerTokenManager as [[[]|e]|] eqn:El;
    try (exfalso; eapply Hc; reflexivity);
    destruct (secure_credentials _ (ProductionReady.config s)) as [c|];
    try (destruct Hk as (s2 & E2 & _); eauto; fail);
    destruct Hp as (sp & Ep & _); destruct Hk as (s2 & E2 & _);
    rewrite Ep in E; exists s2; rewrite E2;
    destruct (String.eqb_spec (strip env_token) "") as [|Ht]; try discriminate;
    destruct (String.eqb_spec (strip env_workspace) "") as [|Hw]; try discriminate;
    destruct (String.eqb_spec env_token "") as [Et|_];
    try (rewrite Et in Ht; exfalso; apply Ht; reflexivity);
    destruct (String.eqb_spec env_workspace "") as [Ew|_];
    try (rewrite Ew in Hw; exfalso; apply Hw; reflexivity);
    reflexivity.
Qed.

End Startup.

(** No token manager, and an environment whose token the validators
    reject: the server takes it. *)
Lemma load_credentials_outcome_witness :
  exists s',
    ProductionReady._load_credentials toy_urandom toy_key_ok toy_generate_key
      toy_decrypt toy_json_loads lax_env None blank_startup = (Ok tt, s')
    /\ ProductionReady.api_token s' = JStr lax_token
    /\ TokenManager._validate_token lax_token = false.
Proof.
  destruct (load_credentials_outcome toy_urandom toy_key_ok toy_generate_key
              toy_decrypt toy_json_loads lax_env None blank_startup) as [H _].
  cbn [Outcomes.secure_credentials] in H. destruct H as (s' & E & Ht & _).
  exists s'. split; [rewrite E; vm_compute; reflexivity|].
  split; [rewrite Ht; vm_compute; reflexivity|vm_compute; reflexivity].
Defined.

(** The configuration directory cannot be created: the exception
    leaves the loader of [critical_bug_fixes.py]. *)
Lemma critical_load_credentials_outcome_witness :
  CriticalBugFixes._load_credentials toy_urandom toy_key_ok toy_generate_key
    toy_decrypt toy_json_loads lax_env (Some (Raise mkdir_denied)) blank_startup
  = (Raise mkdir_denied, blank_startup).
Proof.
  exact (proj1 (critical_load_credentials_outcome toy_urandom toy_key_ok
                  toy_generate_key toy_decrypt toy_json_loads lax_env
                  (Some (Raise mkdir_denied)) blank_startup)).
Defined.

End StartupFacts.

(** ** Encoding an image *)

Module ImageFacts.
Import Py Claims Examples MonadFacts World.

Section Image.

Variable file_content : string -> bytes.
Variable b64encode : bytes -> string.

Local Abbreviation production_encode :=
  (ProductionReady._encode_image_to_base64 file_content b64encode).
Local Abbreviation critical_encode :=
  (CriticalBugFixes._encode_image_to_base64 file_content b64encode).
Local Abbreviation read_failure image_path cause :=
  (throw Exception ("Failed to read image file " ++ image_path ++ ": " ++ cause)).
Local Abbreviation encode_failure image_path cause :=
  (throw Exception ("Failed to encode image " ++ image_path ++ ": " ++ cause)).

Lemma stat_empty w : stat w "" = None.
Proof. reflexivity. Qed.

Lemma stat_not_empty w p nd : stat w p = Some nd -> String.eqb p "" = false.
Proof. unfold stat. destruct (String.eqb p ""); [discriminate|reflexivity]. Qed.

(** [_encode_image_to_base64] of the production-ready server, case by
    case *)
Lemma production_encode_run image_path w :
  production_encode image_path w
  = (match stat w image_path with
     | None =>
         if String.eqb image_path ""
         then encode_failure image_path "Image path cannot be empty"
         else read_failure image_path ("Image file not found: " ++ image_path)
     | Some Directory =>
         encode_failure image_path ("Path is not a file: " ++ image_path)
     | Some (RegularFile size readable) =>
         if (size =? 0)%N
         then encode_failure image_path ("Image file is empty: " ++ image_path)
         else if (50 * 1024 * 1024 <? size)%N
         then encode_failure image_path
                ("Image file too large (>50MB): " ++ image_path)
         else if readable then Ok (b64encode (file_content image_path))
         else read_failure image_path "Permission denied"
     end, w).
Proof.
  unfold ProductionReady._encode_image_to_base64, try_except.
  destruct (stat w image_path) as [nd|] eqn:Hs.
  - rewrite (stat_not_empty _ _ _ Hs).
    rewrite bind_run. unfold path_exists. rewrite bind_run. cbn [get ret M_monad].
    rewrite Hs. rewrite bool_decide_eq_true_2 by eauto. cbn [negb].
    rewrite bind_run. unfold path_isfile. rewrite bind_run. cbn [get ret M_monad].
    rewrite Hs. destruct nd as [|size readable]; [reflexivity|]. cbn [negb].
    rewrite bind_run. unfold ProductionReady.getsize. rewrite bind_run.
    cbn [get ret M_monad]. rewrite Hs. cbn [ret M_monad].
    destruct (size =? 0)%N; [reflexivity|].
    destruct (50 * 1024 * 1024 <? size)%N; [reflexivity|].
    rewrite bind_run. unfold read_file. rewrite bind_run. cbn [get].
    rewrite Hs. destruct readable; reflexivity.
  - destruct (String.eqb image_path "") eqn:E; [reflexivity|].
    rewrite bind_run. unfold path_exists. rewrite bind_run. cbn [get ret M_monad].
    rewrite Hs. rewrite bool_decide_eq_false_2 by (intros [x Hx]; discriminate).
    reflexivity.
Qed.

(** [_encode_image_to_base64] of [critical_bug_fixes.py], case by case *)
Lemma critical_encode_run image_path w :
  critical_encode image_path w
  = (match stat w image_path with
     | None => read_failure image_path ("Image file not found: " ++ image_path)
     | Some Directory =>
         encode_failure image_path ("Path is not a file: " ++ image_path)
     | Some (RegularFile _ false) => read_failure image_path "Permission denied"
     | Some (RegularFile _ true) =>
         let n := N.of_nat (length (file_content image_path)) in
         if (n =? 0)%N
         then encode_failure image_path ("Image file is empty: " ++ image_path)
         else if (50 * 1024 * 1024 <? n)%N
         then encode_failure image_path
                ("Image file too large (>50MB): " ++ image_path)
         else Ok (b64encode (file_content image_path))
     end, w).
Proof.
  unfold CriticalBugFixes._encode_image_to_base64, try_except.
  rewrite bind_run. unfold path_exists. rewrite bind_run. cbn [get ret M_monad].
  destruct (stat w image_path) as [nd|] eqn:Hs.
  - rewrite bool_decide_eq_true_2 by eauto. cbn [negb].
    rewrite bind_run. unfold path_isfile. rewrite bind_run. cbn [get ret M_monad].
    rewrite Hs. destruct nd as [|size readable]; [reflexivity|]. cbn [negb].
    rewrite bind_run. unfold read_file. rewrite bind_run. cbn [get].
    rewrite Hs. destruct readable; [|reflexivity]. cbn [ret M_monad]. cbv zeta.
    destruct (N.of_nat (length (file_content image_path)) =? 0)%N; [reflexivity|].
    destruct (50 * 1024 * 1024 <? N.of_nat (length (file_content image_path)))%N;
      reflexivity.
  - rewrite bool_decide_eq_false_2 by (intros [x Hx]; discriminate).
    reflexivity.
Qed.

(** X7: [_encode_image_to_base64] of the production-ready server leaves
    the world as it is.  It returns the encoding of the content exactly
    when the path names a readable regular file of 1 byte to 50 MiB, the
    bound included.  Every failure is a plain [Exception]: one that
    starts with "Failed to read image file" when the file does not exist
    or cannot be read, and one that starts with "Failed to encode image"
    otherwise. *)
Theorem encode_image_outcome image_path w :
  snd (production_encode image_path w) = w
  /\ (forall s,
        fst (production_encode image_path w) = Ok s <->
        s = b64encode (file_content image_path)
        /\ exists size,
             stat w image_path = Some (RegularFile size true)
             /\ (0 < size <= 50 * 1024 * 1024)%N)
  /\ (forall e,
        fst (production_encode image_path w) = Raise e ->
        ekind e = Exception
        /\ exists cause,
             (emsg e = "Failed to read image file " ++ image_path ++ ": " ++ cause
              /\ (stat w image_path = None
                  \/ exists size, stat w image_path = Some (RegularFile size false)))
             \/ emsg e = "Failed to encode image " ++ image_path ++ ": " ++ cause).
Proof.
  rewrite production_encode_run. cbn [fst snd].
  split; [reflexivity|]. split.
  - intros s. split.
    + destruct (stat w image_path) as [[|size readable]|].
      * discriminate.
      * destruct (N.eqb_spec size 0); [discriminate|].
        destruct (N.ltb_spec (50 * 1024 * 1024) size); [discriminate|].
        destruct readable; [|discriminate].
        intros Heq. injection Heq as <-. split; [reflexivity|].
        exists size. split; [reflexivity|lia].
      * destruct (String.eqb image_path ""); discriminate.
    + intros (-> & size & -> & Hsz).
      destruct (N.eqb_spec size 0); [lia|].
      destruct (N.ltb_spec (50 * 1024 * 1024) size); [lia|]. reflexivity.
  - intros e.
    destruct (stat w image_path) as [[|size readable]|].
    + intros H. injection H as <-. split; [reflexivity|]. eauto.
    + destruct (size =? 0)%N;
        [intros H; injection H as <-; split; [reflexivity|]; eauto|].
      destruct (50 * 1024 * 1024 <? size)%N;
        [intros H; injection H as <-; split; [reflexivity|]; eauto|].
      destruct readable; [discriminate|].
      intros H. injection H as <-. split; [reflexivity|].
      eexists. left. split; [reflexivity|]. eauto.
    + destruct (String.eqb image_path "");
        intros H; injection H as <-; (split; [reflexivity|]); eauto.
Qed.

(** X8: when the content of the file has the length the file system
    gives as its size, the [_encode_image_to_base64] of
    [critical_bug_fixes.py], which reads the file before it checks it,
    returns a result for the same files as that of the production-ready
    server, and the same result; it leaves the world as it is and raises
    plain [Exception]s only. *)
Theorem encode_image_variants_agree image_path w :
  (forall size readable,
     stat w image_path = Some (RegularFile size readable) ->
     N.of_nat (length (file_content image_path)) = size) ->
  (forall s, fst (production_encode image_path w) = Ok s
             <-> fst (critical_encode image_path w) = Ok s)
  /\ snd (critical_encode image_path w) = w
  /\ (forall e, fst (critical_encode image_path w) = Raise e -> ekind e = Exception).
Proof.
  intros Hsize. rewrite production_encode_run, critical_encode_run. cbn [fst snd].
  destruct (stat w image_path) as [[|size readable]|] eqn:Hs.
  - split; [intros s; split; discriminate|]. split; [reflexivity|].
    intros e Heq. injection Heq as <-. reflexivity.
  - rewrite (Hsize size readable eq_refl). cbv zeta.
    destruct readable.
    + split; [intros s; reflexivity|]. split; [reflexivity|].
      intros e.
      destruct (size =? 0)%N; [intros Heq; injection Heq as <-; reflexivity|].
      destruct (50 * 1024 * 1024 <? size)%N;
        [intros Heq; injection Heq as <-; reflexivity|discriminate].
    + split.
      { intros s. destruct (size =? 0)%N; [split; discriminate|].
        destruct (50 * 1024 * 1024 <? size)%N; split; discriminate. }
      split; [reflexivity|]. intros e Heq. injection Heq as <-. reflexivity.
  - split.
    { intros s. destruct (String.eqb image_path ""); split; discriminate. }
    split; [reflexivity|]. intros e Heq. injection Heq as <-. reflexivity.
Qed.

End Image.

(** An image of three bytes is encoded. *)
Lemma encode_image_outcome_witness :
  fst (ProductionReady._encode_image_to_base64 three_bytes toy_b64encode "a.png"
         (world_with one_image)) = Ok "AQID".
Proof.
  destruct (encode_image_outcome three_bytes toy_b64encode "a.png"
              (world_with one_image)) as (_ & H & _).
  apply H. split; [reflexivity|].
  exists 3%N. split; [reflexivity|lia].
Defined.

(** The same image through the other server *)
Lemma encode_image_variants_agree_witness :
  fst (CriticalBugFixes._encode_image_to_base64 three_bytes toy_b64encode "a.png"
         (world_with one_image)) = Ok "AQID".
Proof.
  destruct (encode_image_variants_agree three_bytes toy_b64encode "a.png"
              (world_with one_image)) as (H & _).
  - intros size readable Hs. vm_compute in Hs. injection Hs as <- _. reflexivity.
  - apply H. vm_compute. reflexivity.
Defined.

End ImageFacts.

(** ** Paths and extensions of downloads *)

Module PathFacts.
Import Py Claims Shapes Examples MonadFacts.

Lemma all_chars_app p a b :
  all_chars p (a ++ b) = all_chars p a && all_chars p b.
Proof.
  induction a as [|c a IH]; [reflexivity|].
  rewrite PyFacts.app_cons. cbn [all_chars]. rewrite IH. apply andb_assoc.
Qed.

Lemma len_app a b : len (a ++ b) = (len a + len b)%nat.
Proof.
  induction a as [|c a IH]; [reflexivity|].
  rewrite PyFacts.app_cons. unfold len in *. cbn [String.length]. rewrite IH.
  reflexivity.
Qed.

(** The last dot of a name splits it into what [stem] keeps and what
    [suffix] keeps. *)
Lemma rfind_dot_split s i :
  rfind_dot s = Some i ->
  exists rest,
    drop i s = String "." rest /\ all_chars not_dot rest = true
    /\ s = take i s ++ String "." rest /\ len (take i s) = i.
Proof.
  revert i. induction s as [|c s IH]; intros i; [discriminate|].
  cbn [rfind_dot].
  destruct (rfind_dot s) as [j|] eqn:Ej.
  - intros H. injection H as <-.
    destruct (IH j eq_refl) as (rest & Hd & Ha & Hs & Hl).
    exists rest. cbn [drop take len String.length].
    split; [exact Hd|]. split; [exact Ha|].
    split; [rewrite PyFacts.app_cons; f_equal; exact Hs|].
    f_equal. exact Hl.
  - destruct (Ascii.eqb_spec c ".") as [->|Hc]; [|discriminate].
    intros H. injection H as <-. exists s. cbn [drop take].
    split; [reflexivity|]. split; [|split; reflexivity].
    clear IH. induction s as [|d s IH]; [reflexivity|].
    cbn [rfind_dot] in Ej. destruct (rfind_dot s); [discriminate|].
    cbn [all_chars]. unfold not_dot at 1.
    destruct (Ascii.eqb d "."); [discriminate|]. apply IH. reflexivity.
Qed.

Lemma all_chars_drop p n s : all_chars p s = true -> all_chars p (drop n s) = true.
Proof.
  revert s. induction n as [|n IH]; intros s H; [exact H|].
  destruct s as [|c s]; [reflexivity|]. cbn [drop]. apply IH.
  cbn [all_chars] in H. apply andb_true_iff in H. apply H.
Qed.

Lemma all_chars_take p n s : all_chars p s = true -> all_chars p (take n s) = true.
Proof.
  revert s. induction n as [|n IH]; intros s H; [destruct s; reflexivity|].
  destruct s as [|c s]; [reflexivity|]. cbn [take all_chars] in *.
  apply andb_true_iff in H. destruct H as [H1 H2].
  rewrite H1. apply IH, H2.
Qed.

(** No component of a path holds a slash. *)
Lemma path_components_no_slash s :
  forall cur, all_chars not_slash cur = true ->
              Forall (fun x => all_chars not_slash x = true) (path_components cur s).
Proof.
  induction s as [|c s IH]; intros cur Hc; cbn [path_components].
  - constructor; [exact Hc|constructor].
  - destruct (Ascii.eqb c "/") eqn:E.
    + constructor; [exact Hc|]. apply IH. reflexivity.
    + apply IH. rewrite all_chars_app, Hc. cbn [all_chars].
      unfold not_slash. rewrite E. reflexivity.
Qed.

(** A string without a slash is one component. *)
Lemma path_components_plain s :
  forall cur, all_chars not_slash s = true -> path_components cur s = [cur ++ s].
Proof.
  induction s as [|c s IH]; intros cur H; cbn [path_components].
  - rewrite PyFacts.app_empty_r. reflexivity.
  - cbn [all_chars] in H. apply andb_true_iff in H. destruct H as [H1 H2].
    unfold not_slash in H1. destruct (Ascii.eqb c "/"); [discriminate|].
    rewrite IH by exact H2. rewrite PyFacts.app_assoc_string. reflexivity.
Qed.

Lemma last_Forall {A} (P : A -> Prop) l d : Forall P l -> P d -> P (List.last l d).
Proof.
  intros H Hd. induction H as [|x l Hx Hl IH]; [exact Hd|].
  destruct l; [exact Hx|]. exact IH.
Qed.

Lemma filter_Forall {A} (P : A -> Prop) (f : A -> bool) l :
  Forall P l -> Forall P (List.filter f l).
Proof.
  induction 1 as [|x l Hx Hl IH]; cbn [List.filter]; [constructor|].
  destruct (f x); [constructor; assumption|assumption].
Qed.

Lemma name_no_slash p : all_chars not_slash (Pathlib.name (Pathlib.Path p)) = true.
Proof.
  unfold Pathlib.name, Pathlib.Path, Pathlib.components. cbn [Pathlib.tail].
  apply (last_Forall (fun x => all_chars not_slash x = true)); [|reflexivity].
  apply filter_Forall. apply path_components_no_slash. reflexivity.
Qed.

Lemma suffix_shape p :
  Pathlib.suffix (Pathlib.Path p) = ""
  \/ dot_extension (Pathlib.suffix (Pathlib.Path p)).
Proof.
  unfold Pathlib.suffix. pose proof (name_no_slash p) as Hn.
  set (name := Pathlib.name (Pathlib.Path p)) in *.
  destruct (rfind_dot name) as [i|] eqn:Ei; [|left; reflexivity].
  destruct (Nat.ltb_spec 0 i); [|left; reflexivity].
  destruct (Nat.ltb_spec i (len name - 1)) as [Hlt|]; [|left; reflexivity].
  right. cbn [andb].
  destruct (rfind_dot_split name i Ei) as (rest & Hd & Ha & Hs & Hl).
  exists rest. split; [exact Hd|]. split; [|split; [exact Ha|]].
  - intros ->. rewrite Hs in Hlt. rewrite len_app, Hl in Hlt.
    cbn in Hlt. lia.
  - assert (Hdr := all_chars_drop not_slash i name Hn). rewrite Hd in Hdr.
    cbn [all_chars] in Hdr. apply andb_true_iff in Hdr. apply Hdr.
Qed.


Lemma constant_extension rest :
  rest <> "" -> all_chars not_dot rest = true -> all_chars not_slash rest = true ->
  dot_extension (String "." rest).
Proof. intros. exists rest. auto. Qed.

Ltac constants :=
  repeat match goal with
         | |- dot_extension (if negb (String.eqb ?x "") then _ else _) =>
             destruct (String.eqb_spec x ""); cbn [negb]
         | |- dot_extension (if ?c then _ else _) => destruct c
         end;
  try (apply constant_extension; [discriminate|reflexivity|reflexivity]).

Lemma production_extension_shape content_type filename :
  dot_extension (ProductionReady._determine_file_extension content_type filename).
Proof.
  unfold ProductionReady._determine_file_extension. cbv zeta. constants.
  change (path_suffix filename) with (Pathlib.suffix (Pathlib.Path filename)) in *.
  destruct (suffix_shape filename) as [E|H]; [contradiction|exact H].
Qed.

Lemma critical_extension_shape content_type filename :
  dot_extension (CriticalBugFixes._determine_file_extension content_type filename).
Proof.
  unfold CriticalBugFixes._determine_file_extension. cbv zeta. constants.
  change (path_suffix filename) with (Pathlib.suffix (Pathlib.Path filename)) in *.
  destruct (suffix_shape filename) as [E|H]; [contradiction|exact H].
Qed.

Lemma no_slash_contains s : all_chars not_slash s = true -> contains "/" s = false.
Proof.
  induction s as [|c s IH]; [reflexivity|].
  cbn [all_chars contains startswith]. unfold not_slash at 1.
  rewrite (Ascii.eqb_sym "/" c). intros H. apply andb_true_iff in H. destruct H as [H1 H2].
  destruct (Ascii.eqb c "/"); [discriminate|]. cbn [andb orb]. apply IH, H2.
Qed.

Lemma no_slash_start s : all_chars not_slash s = true -> startswith s "/" = false.
Proof.
  destruct s as [|c s]; [reflexivity|].
  cbn [all_chars startswith]. unfold not_slash at 1.
  rewrite (Ascii.eqb_sym "/" c).
  destruct (Ascii.eqb c "/"); [discriminate|reflexivity].
Qed.

Lemma stem_no_slash p : all_chars not_slash (Pathlib.stem (Pathlib.Path p)) = true.
Proof.
  unfold Pathlib.stem. pose proof (name_no_slash p) as Hn.
  destruct (rfind_dot _) as [i|]; [|exact Hn].
  destruct (_ && _); [apply all_chars_take|]; exact Hn.
Qed.

(** A name made of a stem and an extension stays in its directory. *)
Lemma stem_ext_plain stem ext :
  all_chars not_slash stem = true -> dot_extension ext -> plain_name (stem ++ ext).
Proof.
  intros Hs (rest & -> & Hne & Hd & Hsl).
  assert (Hlen : len (stem ++ String "." rest) = (len stem + S (len rest))%nat)
    by (rewrite len_app; reflexivity).
  assert (Hr : (1 <= len rest)%nat) by (destruct rest; [contradiction|cbn; lia]).
  split; [intros E; rewrite E in Hlen; cbn in Hlen; lia|].
  split; [intros E; rewrite E in Hlen; cbn in Hlen; lia|].
  split.
  - intros E. rewrite E in Hlen. cbn in Hlen.
    destruct stem as [|c stem]; [|cbn in Hlen; lia].
    change ("" ++ String "." rest) with (String "." rest) in E.
    injection E as ->. discriminate Hd.
  - rewrite all_chars_app, Hs. cbn [all_chars]. rewrite Hsl. reflexivity.
Qed.

Lemma plain_components name : plain_name name -> Pathlib.components name = [name].
Proof.
  intros (H1 & H2 & _ & Hs). unfold Pathlib.components.
  rewrite path_components_plain by exact Hs. cbn [List.filter].
  change ("" ++ name) with name.
  destruct (String.eqb_spec name ""); [contradiction|].
  destruct (String.eqb_spec name "."); [contradiction|]. reflexivity.
Qed.

Lemma component_not_empty p x : In x (Pathlib.components p) -> x <> "".
Proof.
  unfold Pathlib.components. intros H. apply List.filter_In in H.
  destruct H as [_ H]. intros ->. discriminate.
Qed.

Lemma with_suffix_run root dir name ext :
  dot_extension ext -> name <> "" ->
  Pathlib.suffix {| Pathlib.root := root; Pathlib.tail := dir ++ [name] |} = "" ->
  Pathlib.with_suffix {| Pathlib.root := root; Pathlib.tail := dir ++ [name] |} ext
  = Ok {| Pathlib.root := root; Pathlib.tail := dir ++ [name ++ ext] |}.
Proof.
  intros (rest & -> & Hne & Hd & Hsl) Hn Hsuf. unfold Pathlib.with_suffix.
  rewrite no_slash_contains by (cbn [all_chars]; rewrite Hsl; reflexivity).
  cbn [String.eqb startswith Ascii.eqb Bool.eqb andb negb orb].
  destruct rest as [|c rest]; [contradiction|].
  cbn [String.eqb Ascii.eqb Bool.eqb andb].
  unfold Pathlib.name. cbn [Pathlib.tail Pathlib.root]. rewrite List.last_last.
  destruct (String.eqb_spec name ""); [contradiction|].
  rewrite Hsuf. cbn [String.eqb]. rewrite List.removelast_last. reflexivity.
Qed.

(** X9: the extension [_determine_file_extension] returns, in either
    server and for every content type and file name, is a dot followed by
    at least one character, with no other dot and no slash in it. *)
Theorem determine_file_extension_shape content_type filename :
  dot_extension (ProductionReady._determine_file_extension content_type filename)
  /\ dot_extension (CriticalBugFixes._determine_file_extension content_type filename).
Proof.
  split; [apply production_extension_shape|apply critical_extension_shape].
Qed.

(** X10: the path a download is written to.  When [save_path] ends in a
    slash, it is the directory [save_path] with one more component, the
    stem of the file name followed by the extension; that component holds
    no slash and is neither empty nor [.] nor [..], whatever the file
    name is.  Otherwise it is [save_path] itself, with the extension
    added when its last component has none; a [save_path] without any
    component (empty, [.], [/]) makes [with_suffix] raise a
    [ValueError]. *)
Theorem full_path_resolution save_path content_type filename :
  let ext := ProductionReady._determine_file_extension content_type filename in
  let saved := ProductionReady.full_path save_path filename ext in
  (endswith save_path "/" = true ->
     let name := Pathlib.stem (Pathlib.Path filename) ++ ext in
     saved = Ok {| Pathlib.root := Pathlib.parse_root save_path;
                   Pathlib.tail := Pathlib.components save_path ++ [name] |}
     /\ plain_name name)
  /\ (endswith save_path "/" = false -> Pathlib.components save_path = [] ->
      saved = throw ValueError
                ("PosixPath('" ++ Pathlib.str (Pathlib.Path save_path)
                 ++ "') has an empty name"))
  /\ (forall dir name,
        endswith save_path "/" = false ->
        Pathlib.components save_path = (dir ++ [name])%list ->
        saved = Ok {| Pathlib.root := Pathlib.parse_root save_path;
                      Pathlib.tail :=
                        (dir ++ [if String.eqb
                                      (Pathlib.suffix (Pathlib.Path save_path)) ""
                                 then (name ++ ext)%string else name])%list |}).
Proof.
  cbv zeta. pose proof (production_extension_shape content_type filename) as Hext.
  set (ext := ProductionReady._determine_file_extension content_type filename) in *.
  unfold ProductionReady.full_path.
  split; [|split].
  - intros ->.
    pose proof (stem_ext_plain _ _ (stem_no_slash filename) Hext) as Hp.
    split; [|exact Hp]. unfold Pathlib.joinpath.
    rewrite no_slash_start by apply Hp.
    rewrite plain_components by exact Hp. reflexivity.
  - intros -> Hc. unfold Pathlib.suffix, Pathlib.name, Pathlib.Path.
    cbn [Pathlib.tail]. rewrite Hc. cbn [List.last rfind_dot String.eqb].
    unfold Pathlib.with_suffix, Pathlib.name. cbn [Pathlib.tail List.last String.eqb].
    destruct Hext as (rest & -> & Hne & Hd & Hsl).
    rewrite no_slash_contains by (cbn [all_chars]; rewrite Hsl; reflexivity).
    cbn [String.eqb startswith Ascii.eqb Bool.eqb andb negb orb].
    destruct rest as [|c rest]; [contradiction|]. reflexivity.
  - intros dir name -> Hc. unfold Pathlib.Path. rewrite Hc.
    destruct (String.eqb_spec
                (Pathlib.suffix {| Pathlib.root := Pathlib.parse_root save_path;
                                   Pathlib.tail := dir ++ [name] |}) "") as [E|E];
      [|reflexivity].
    apply with_suffix_run; [exact Hext| |exact E].
    apply (component_not_empty save_path). rewrite Hc.
    apply in_or_app. right. left. reflexivity.
Qed.

(** A file name that points out of the directory: only its stem is
    used. *)
Lemma full_path_resolution_witness :
  ProductionReady.full_path "out/" "../../etc/dragon"
    (ProductionReady._determine_file_extension "image/png" "../../etc/dragon")
  = Ok {| Pathlib.root := ""; Pathlib.tail := ["out"; "dragon.png"] |}.
Proof.
  exact (proj1 (proj1 (full_path_resolution "out/" "image/png" "../../etc/dragon")
                  eq_refl)).
Defined.

End PathFacts.

(** ** File transfer: downloads *)

Module DownloadFacts.
Import Py Claims Examples MonadFacts World.

#[local] Arguments Py.truthy : simpl never.

Section Prefix.

Variable net : nat -> reply.
Variable repr : json -> string.
Variable persist : string -> string -> string -> gmap string node ->
                   res (string * gmap string node).

Local Abbreviation _download_result_files :=
  (ProductionReady._download_result_files net repr persist).

(** X11: [_download_result_files] before any transfer.  An inference
    without files, or with an empty list of files, gives "no files
    generated"; a first file without a URL gives "no download URL"; and
    an inference that has files but no id raises a [KeyError], whether
    or not the file has a name, since the default name is computed
    first.  In each case the world is left as it was: nothing is sent. *)
Theorem download_without_transfer (inference_data : gmap string json) save_path w :
  let run := _download_result_files (JObj inference_data) save_path w in
  (truthy (default (JArr []) (inference_data !! "files")) = false ->
     run = (Ok ProductionReady.NoFilesGenerated, w))
  /\ (forall (file_info : gmap string json) rest,
        inference_data !! "files" = Some (JArr (JObj file_info :: rest)) ->
        inference_data !! "id" = None ->
        run = (throw KeyError "'id'", w))
  /\ (forall (file_info : gmap string json) rest job,
        inference_data !! "files" = Some (JArr (JObj file_info :: rest)) ->
        inference_data !! "id" = Some job ->
        truthy (default JNull (file_info !! "url")) = false ->
        run = (Ok ProductionReady.NoDownloadUrl, w)).
Proof.
  cbv zeta. unfold ProductionReady._download_result_files.
  rewrite bind_lift. cbn [dict_get].
  split; [|split].
  - intros ->. reflexivity.
  - intros file_info rest -> Hid. cbn [default id].
    change (truthy (JArr (JObj file_info :: rest))) with true. cbn [negb].
    rewrite bind_lift. cbn [index0]. rewrite bind_lift. cbn [dict_get].
    rewrite bind_lift. cbn [getitem]. rewrite Hid. reflexivity.
  - intros file_info rest i -> Hid Hurl. cbn [default id].
    change (truthy (JArr (JObj file_info :: rest))) with true. cbn [negb].
    rewrite bind_lift. cbn [index0]. rewrite bind_lift. cbn [dict_get].
    rewrite bind_lift. cbn [getitem]. rewrite Hid.
    rewrite bind_lift. cbn [dict_get]. rewrite Hurl. reflexivity.
Qed.

End Prefix.

Section Transfer.

Variable net : nat -> reply.
Variable repr : json -> string.
Variable write_file : string -> gmap string node -> res (gmap string node).

Local Abbreviation _download_result_files :=
  (ProductionReady._download_result_files net repr
     (ProductionReady.persist_file write_file)).

(** X12: the transfer of [_download_result_files], for a first file
    with a URL.  Exactly one GET is sent, nothing is slept or logged, and
    no exception leaves the function.  A status other than 200 is
    reported and nothing is written.  On a 200 the file is written at the
    path resolved from [save_path], the file name and the extension of
    the content type, and the report carries that path, the size, the URL
    and the content type; a transport failure, a path that cannot be
    resolved and a failed write are reported as download errors. *)
Theorem download_transfer (inference_data file_info : gmap string json) rest job url
    name save_path w :
  inference_data !! "files" = Some (JArr (JObj file_info :: rest)) ->
  inference_data !! "id" = Some job ->
  file_info !! "url" = Some (JStr url) -> url <> "" ->
  default (JStr ("result_" ++ ProductionReady.str repr job)) (file_info !! "name")
  = JStr name ->
  let sent := {| outbox := Get url :: outbox w; slept := slept w; fs := fs w;
                 log := log w |} in
  _download_result_files (JObj inference_data) save_path w
  = match net (length (outbox w)) with
    | Failure e => (Ok (ProductionReady.DownloadError e), sent)
    | Response status_code headers text _ =>
        if (status_code =? 200)%Z then
          let content_type := default "" (headers !! "content-type") in
          let ext := ProductionReady._determine_file_extension content_type name in
          match ProductionReady.full_path save_path name ext with
          | Ok p =>
              match write_file (Pathlib.str p) (fs w) with
              | Ok fs' =>
                  (Ok (ProductionReady.FileSaved (Pathlib.str p) (len text) url
                         content_type),
                   {| outbox := Get url :: outbox w; slept := slept w; fs := fs';
                      log := log w |})
              | Raise e => (Ok (ProductionReady.DownloadError e), sent)
              end
          | Raise e => (Ok (ProductionReady.DownloadError e), sent)
          end
        else (Ok (ProductionReady.DownloadFailed status_code), sent)
    end.
Proof.
  intros Hf Hid Hurl Hne Hname sent.
  unfold ProductionReady._download_result_files.
  rewrite bind_lift. cbn [dict_get]. rewrite Hf. cbn [default id].
  change (truthy (JArr (JObj file_info :: rest))) with true. cbn [negb].
  rewrite bind_lift. cbn [index0]. rewrite bind_lift. cbn [dict_get].
  rewrite bind_lift. cbn [getitem]. rewrite Hid.
  rewrite bind_lift. cbn [dict_get]. rewrite Hurl, Hname. cbn [default id].
  assert (Ht : truthy (JStr url) = true).
  { unfold truthy. destruct (String.eqb_spec url ""); [contradiction|reflexivity]. }
  rewrite Ht. cbn [negb].
  unfold ProductionReady.fetch_and_save, try_except.
  rewrite bind_run. unfold send. rewrite bind_run. cbn [get]. rewrite bind_run.
  cbn [put ret M_monad]. fold sent.
  destruct (net (length (outbox w))) as [e|status_code headers text body];
    [reflexivity|].
  destruct (status_code =? 200)%Z; [|reflexivity]. cbv zeta.
  rewrite bind_run. cbn [get fs sent]. unfold ProductionReady.persist_file.
  cbn [bind res_monad].
  destruct (ProductionReady.full_path save_path name _) as [p|e]; [|reflexivity].
  destruct (write_file (Pathlib.str p) (fs w)) as [fs'|e]; reflexivity.
Qed.

End Transfer.

(** An inference with a file and no id *)
Lemma download_without_transfer_witness :
  ProductionReady._download_result_files offline repr_opaque persist_ok
    (JObj no_id_job) "out/" empty_world
  = (throw KeyError "'id'", empty_world).
Proof.
  destruct (download_without_transfer offline repr_opaque persist_ok no_id_job "out/"
              empty_world) as (_ & H & _).
  eapply H; reflexivity.
Defined.

(** A PNG saved in a directory *)
Lemma download_transfer_witness :
  fst (ProductionReady._download_result_files cdn repr_opaque
         (ProductionReady.persist_file write_ok) (JObj finished_job) "out/"
         empty_world)
  = Ok (ProductionReady.FileSaved "out/dragon.png" 7 "https://cdn.example/r"
          "image/png").
Proof.
  rewrite (download_transfer cdn repr_opaque write_ok finished_job
             (<["url" := JStr "https://cdn.example/r"]>
              {[ "name" := JStr "../../etc/dragon" ]}) []
             (JStr "job-1") "https://cdn.example/r" "../../etc/dragon" "out/"
             empty_world);
    [vm_compute; reflexivity|reflexivity|reflexivity|reflexivity|discriminate
    |reflexivity].
Defined.

End DownloadFacts.

(** ** The transport client: any number of attempts *)

Module RetryFacts.
Import Py Claims MonadFacts World.

Section Retry.

Variable net : nat -> reply.
Variable repr : json -> string.

Local Abbreviation read_response := (ProductionReady.read_response repr).
Local Abbreviation attempts := (ProductionReady.attempts net repr).
Local Abbreviation _make_graphql_request_n :=
  (ProductionReady._make_graphql_request_n net repr).
Local Abbreviation failure max_retries last :=
  (throw Exception
     ("GraphQL request failed after " ++ pretty max_retries ++ " attempts: "
      ++ ProductionReady.str_last_error last)).

Lemma replicate_shift {A} m (x : A) l :
  (replicate m x ++ x :: l = x :: replicate m x ++ l)%list.
Proof. induction m as [|m IH]; cbn; [reflexivity|]. rewrite IH. reflexivity. Qed.

Lemma pow2_succ a : 2 ^ Z.of_nat (S a) = 2 * 2 ^ Z.of_nat a.
Proof. rewrite Nat2Z.inj_succ, Z.pow_succ_r by lia. reflexivity. Qed.

(** The attempts [a], ..., [a + m - 1], the last of the loop, when all
    of them fail *)
Lemma attempts_all_fail operation variables max_retries m :
  forall a last w,
    (a + m = max_retries)%nat ->
    (forall i, (i < m)%nat ->
               exists e, read_response (net (length (outbox w) + i)) = Raise e) ->
    exists w' last',
      attempts operation variables max_retries (seq a m) last w
      = (failure max_retries last', w')
      /\ outbox w' = (replicate m (Post operation variables) ++ outbox w)%list
      /\ fs w' = fs w
      /\ slept w'
         = slept w + match m with
                     | O => 0
                     | S _ => 2 ^ Z.of_nat (max_retries - 1) - 2 ^ Z.of_nat a
                     end
      /\ match m with
         | O => last' = last
         | S m' => exists e, last' = Some e
                             /\ read_response (net (length (outbox w) + m')) = Raise e
         end.
Proof.
  induction m as [|m IH]; intros a last w Ham Hfail.
  - exists w, last. cbn. repeat split; try reflexivity. lia.
  - cbn [seq]. rewrite TransportFacts.attempts_step. cbv zeta.
    destruct (Hfail 0%nat ltac:(lia)) as [e He]. rewrite Nat.add_0_r in He.
    rewrite He.
    match goal with
    | |- context [attempts _ _ _ _ _ ?w1] =>
        destruct (IH (S a) (Some e) w1 ltac:(lia)) as (w' & last' & E & Ho & Hf & Hs & Hl)
    end.
    { intros i Hi. destruct (Hfail (S i) ltac:(lia)) as [e' He'].
      exists e'. rewrite <- He'. f_equal. f_equal.
      destruct (a <? max_retries - 1)%nat; cbn [outbox length]; lia. }
    exists w', last'. split; [exact E|].
    split.
    { rewrite Ho. destruct (a <? max_retries - 1)%nat; cbn [outbox];
        apply replicate_shift. }
    split.
    { rewrite Hf. destruct (a <? max_retries - 1)%nat; reflexivity. }
    split.
    { rewrite Hs. destruct m as [|m'].
      - destruct (Nat.ltb_spec a (max_retries - 1)); [lia|]. cbn [slept].
        replace (max_retries - 1)%nat with a by lia. lia.
      - destruct (Nat.ltb_spec a (max_retries - 1)); [|lia]. cbn [slept].
        rewrite pow2_succ. lia. }
    destruct m as [|m'].
    + subst last'. exists e. split; [reflexivity|]. rewrite Nat.add_0_r. exact He.
    + destruct Hl as (e' & -> & He'). exists e'. split; [reflexivity|].
      rewrite <- He'. f_equal. f_equal.
      destruct (a <? max_retries - 1)%nat; cbn [outbox length]; lia.
Qed.

(** The attempts from [a] on, when the first [k] of them fail and the
    next gives a result *)
Lemma attempts_then_result operation variables max_retries k :
  forall a m last w result,
    (a + m = max_retries)%nat -> (k < m)%nat ->
    (forall i, (i < k)%nat ->
               exists e, read_response (net (length (outbox w) + i)) = Raise e) ->
    read_response (net (length (outbox w) + k)) = Ok result ->
    exists w',
      attempts operation variables max_retries (seq a m) last w = (Ok result, w')
      /\ outbox w' = (replicate (S k) (Post operation variables) ++ outbox w)%list
      /\ fs w' = fs w
      /\ slept w' = slept w + (2 ^ Z.of_nat (a + k) - 2 ^ Z.of_nat a).
Proof.
  induction k as [|k IH]; intros a m last w result Ham Hk Hfail Hok.
  - destruct m as [|m]; [lia|]. cbn [seq].
    rewrite TransportFacts.attempts_step. cbv zeta.
    rewrite Nat.add_0_r in Hok. rewrite Hok.
    eexists. split; [reflexivity|]. cbn [outbox fs slept replicate app].
    rewrite Nat.add_0_r. split; [reflexivity|]. split; [reflexivity|]. lia.
  - destruct m as [|m]; [lia|]. cbn [seq].
    rewrite TransportFacts.attempts_step. cbv zeta.
    destruct (Hfail 0%nat ltac:(lia)) as [e He]. rewrite Nat.add_0_r in He.
    rewrite He.
    destruct (Nat.ltb_spec a (max_retries - 1)); [|lia].
    match goal with
    | |- context [attempts _ _ _ _ _ ?w1] =>
        destruct (IH (S a) m (Some e) w1 result ltac:(lia) ltac:(lia))
          as (w' & E & Ho & Hf & Hs)
    end.
    { intros i Hi. destruct (Hfail (S i) ltac:(lia)) as [e' He'].
      exists e'. rewrite <- He'. f_equal. f_equal. cbn [outbox length]. lia. }
    { rewrite <- Hok. f_equal. f_equal. cbn [outbox length]. lia. }
    exists w'. split; [exact E|].
    split.
    { rewrite Ho. cbn [outbox]. apply replicate_shift. }
    split; [rewrite Hf; reflexivity|].
    rewrite Hs. cbn [slept].
    replace (S a + k)%nat with (S (a + k)) by lia.
    replace (a + S k)%nat with (S (a + k)) by lia.
    rewrite (pow2_succ a). lia.
Qed.

(** X13: [_make_graphql_request] for any number of attempts.  When the
    first [k] attempts fail and the next gives a result, that result is
    returned after [k + 1] identical requests and [2 ** k - 1] seconds of
    back-off.  When all [max_retries] attempts fail, the request has been
    sent [max_retries] times, [2 ** (max_retries - 1) - 1] seconds have
    been slept (nothing is slept after the last attempt), and the
    exception raised carries the message of the last failure; with
    [max_retries = 0] nothing is sent and the message ends in "None".
    The file system is not touched. *)
Theorem retry_schedule operation variables max_retries w :
  let post := Post operation variables in
  let run := _make_graphql_request_n operation variables max_retries w in
  let failed i := exists e, read_response (net (length (outbox w) + i)) = Raise e in
  (forall k result,
     (k < max_retries)%nat ->
     (forall i, (i < k)%nat -> failed i) ->
     read_response (net (length (outbox w) + k)) = Ok result ->
     fst run = Ok result
     /\ outbox (snd run) = (replicate (S k) post ++ outbox w)%list
     /\ slept (snd run) = slept w + (2 ^ Z.of_nat k - 1)
     /\ fs (snd run) = fs w)
  /\ ((forall i, (i < max_retries)%nat -> failed i) ->
      outbox (snd run) = (replicate max_retries post ++ outbox w)%list
      /\ slept (snd run) = slept w + (2 ^ Z.of_nat (max_retries - 1) - 1)
      /\ fs (snd run) = fs w
      /\ match max_retries with
         | O => fst run = failure 0%nat None
         | S n =>
             exists e, read_response (net (length (outbox w) + n)) = Raise e
                       /\ fst run = failure max_retries (Some e)
         end).
Proof.
  cbv zeta. unfold ProductionReady._make_graphql_request_n. split.
  - intros k result Hk Hfail Hok.
    destruct (attempts_then_result operation variables max_retries k 0 max_retries
                None w result ltac:(lia) Hk Hfail Hok) as (w' & E & Ho & Hf & Hs).
    rewrite E. cbn [fst snd].
    split; [reflexivity|]. split; [exact Ho|]. split; [exact Hs|exact Hf].
  - intros Hfail.
    destruct (attempts_all_fail operation variables max_retries max_retries 0 None w
                ltac:(lia) Hfail) as (w' & last' & E & Ho & Hf & Hs & Hl).
    rewrite E. cbn [fst snd].
    split; [exact Ho|]. split; [|split; [exact Hf|]].
    + rewrite Hs. destruct max_retries; cbn; lia.
    + destruct max_retries as [|n].
      * subst last'. reflexivity.
      * destruct Hl as (e & -> & He). exists e. split; [exact He|reflexivity].
Qed.

End Retry.

(** Five attempts on a network that is down: 1 + 2 + 4 + 8 seconds *)
Lemma retry_schedule_witness :
  slept (snd (ProductionReady._make_graphql_request_n offline repr_opaque
                "GetInferenceStatus" JNull 5 empty_world)) = 15.
Proof.
  destruct (retry_schedule offline repr_opaque "GetInferenceStatus" JNull 5
              empty_world) as [_ H].
  destruct H as (_ & Hs & _); [|exact Hs].
  intros i _. eexists. reflexivity.
Defined.

End RetryFacts.

(** ** File transfer: the stages of an upload *)

Module TransferFacts.
Import Py Claims Examples MonadFacts World.

#[local] Arguments Py.truthy : simpl never.

Section Upload.

Variable net : nat -> reply.
Variable workspace_id : string.
Variable repr : json -> string.

Local Abbreviation production_upload :=
  (ProductionReady._upload_file_to_layer net workspace_id repr).
Local Abbreviation critical_upload :=
  (CriticalBugFixes._upload_file_to_layer net workspace_id repr).
Local Abbreviation get_upload_url :=
  (ProductionReady.get_upload_url net workspace_id repr).
Local Abbreviation put_file := (ProductionReady.put_file net).
Local Abbreviation media_url := (ProductionReady.media_url workspace_id repr).
Local Abbreviation slot_request filename w :=
  (ProductionReady._make_graphql_request net repr "CreateUploadUrls"
     (ProductionReady.upload_variables workspace_id filename) w).

(** Every exception of the first [try] is wrapped. *)
Lemma get_upload_url_raises filename w e w1 :
  get_upload_url filename w = (Raise e, w1) ->
  exists cause,
    e = {| ekind := Exception; emsg := "Failed to get upload URL: " ++ cause |}.
Proof.
  unfold ProductionReady.get_upload_url, try_except.
  match goal with
  | |- context [match ?c w with _ => _ end] => destruct (c w) as [[x|e0] w0]
  end; [discriminate|].
  intros H. injection H as <- _. eauto.
Qed.

(** The second [try], case by case *)
Lemma put_file_run file_path upload_url w :
  put_file file_path upload_url w
  = match stat w file_path with
    | Some (RegularFile _ true) =>
        match upload_url with
        | JStr url =>
            (match net (length (outbox w)) with
             | Failure e => throw Exception ("Failed to upload file: " ++ emsg e)
             | Response status_code _ text _ =>
                 if (status_code =? 200)%Z || (status_code =? 201)%Z then Ok tt
                 else throw Exception
                        ("Failed to upload file: Upload failed with status "
                         ++ pretty status_code ++ ": " ++ text)
             end,
             {| outbox := Put url file_path :: outbox w; slept := slept w;
                fs := fs w; log := log w |})
        | _ => (throw Exception "Failed to upload file: Invalid type for url", w)
        end
    | Some (RegularFile _ false) =>
        (throw Exception "Failed to upload file: Permission denied", w)
    | Some Directory => (throw Exception "Failed to upload file: Is a directory", w)
    | None =>
        (throw Exception "Failed to upload file: No such file or directory", w)
    end.
Proof.
  unfold ProductionReady.put_file, try_except. rewrite bind_run.
  unfold read_file. rewrite bind_run. cbn [get].
  destruct (stat w file_path) as [[|size [|]]|]; try reflexivity.
  cbn [ret M_monad].
  destruct upload_url; try reflexivity.
  rewrite bind_run. unfold send. rewrite bind_run. cbn [get]. rewrite bind_run.
  cbn [put ret M_monad].
  destruct (net (length (outbox w))) as [e|status_code headers text body];
    [reflexivity|].
  destruct ((status_code =? 200)%Z || (status_code =? 201)%Z); reflexivity.
Qed.

(** The upload once the path is accepted *)
Lemma upload_run file_path w nd :
  stat w file_path = Some nd ->
  critical_upload file_path w
  = match get_upload_url (basename file_path) w with
    | (Ok (upload_url, file_id), w1) =>
        match put_file file_path upload_url w1 with
        | (Ok _, w2) => (Ok (media_url file_id (basename file_path)), w2)
        | (Raise e, w2) => (Raise e, w2)
        end
    | (Raise e, w1) => (Raise e, w1)
    end.
Proof.
  intros Hs. unfold CriticalBugFixes._upload_file_to_layer.
  rewrite bind_run. unfold path_exists. rewrite bind_run. cbn [get ret M_monad].
  rewrite Hs, (ImageFacts.stat_not_empty _ _ _ Hs).
  rewrite bool_decide_eq_true_2 by eauto. cbn [negb orb]. cbv zeta.
  rewrite bind_run.
  destruct (get_upload_url (basename file_path) w) as [[[upload_url file_id]|e] w1];
    [|reflexivity].
  rewrite bind_run.
  destruct (put_file file_path upload_url w1) as [[[]|e] w2]; reflexivity.
Qed.

Lemma production_upload_regular file_path w size readable :
  stat w file_path = Some (RegularFile size readable) ->
  production_upload file_path w = critical_upload file_path w.
Proof.
  intros Hs. unfold ProductionReady._upload_file_to_layer,
    CriticalBugFixes._upload_file_to_layer.
  rewrite (ImageFacts.stat_not_empty _ _ _ Hs).
  rewrite !bind_run. unfold path_exists. rewrite !bind_run. cbn [get ret M_monad].
  rewrite Hs. rewrite bool_decide_eq_true_2 by eauto. cbn [negb orb].
  rewrite bind_run. unfold path_isfile. rewrite bind_run. cbn [get ret M_monad].
  rewrite Hs. reflexivity.
Qed.

(** One request: the same message one to three times, and nothing
    else *)
Lemma request_outbox operation variables w :
  exists k,
    (1 <= k <= 3)%nat
    /\ outbox (snd (ProductionReady._make_graphql_request net repr operation
                      variables w))
       = (replicate k (Post operation variables) ++ outbox w)%list
    /\ fs (snd (ProductionReady._make_graphql_request net repr operation
                  variables w)) = fs w.
Proof.
  unfold ProductionReady._make_graphql_request,
    ProductionReady._make_graphql_request_n.
  cbn [seq]. rewrite TransportFacts.attempts_step. cbv zeta.
  destruct (ProductionReady.read_response repr (net (length (outbox w))));
    [exists 1%nat; split; [lia|split; reflexivity]|].
  rewrite TransportFacts.attempts_step. cbv zeta.
  cbn [Nat.ltb Nat.leb Nat.sub outbox length].
  destruct (ProductionReady.read_response repr (net (S (length (outbox w)))));
    [exists 2%nat; split; [lia|split; reflexivity]|].
  rewrite TransportFacts.attempts_step. cbv zeta.
  cbn [Nat.ltb Nat.leb Nat.sub outbox length].
  exists 3%nat. split; [lia|].
  destruct (ProductionReady.read_response repr (net (S (S (length (outbox w))))));
    split; reflexivity.
Qed.

Lemma slot_world filename w :
  exists k,
    (1 <= k <= 3)%nat
    /\ outbox (snd (get_upload_url filename w))
       = (replicate k (Post "CreateUploadUrls"
                         (ProductionReady.upload_variables workspace_id filename))
          ++ outbox w)%list
    /\ forall file_path,
         stat (snd (get_upload_url filename w)) file_path = stat w file_path.
Proof.
  rewrite UploadFacts.get_upload_url_world.
  destruct (request_outbox "CreateUploadUrls"
              (ProductionReady.upload_variables workspace_id filename) w)
    as (k & Hk & Ho & Hf).
  exists k. split; [exact Hk|]. split; [exact Ho|].
  intros file_path. unfold stat. rewrite Hf. reflexivity.
Qed.

(** X14: the two stages of an upload of a regular file.  The request
    for a slot is sent one to three times and nothing else is sent before
    a slot is granted.  When no slot is obtained, the exception starts
    with "Failed to get upload URL: " and no byte of the file has been
    sent.  With a slot, a file that cannot be read gives an exception
    that starts with "Failed to upload file: ", without any PUT and in
    the world the request for the slot left; otherwise the bytes are PUT
    exactly once, with no retry: a status of 200 or 201 gives the URL of
    the file under the workspace, the file id and the base name, and any
    other status or a transport failure gives an exception that starts
    with "Failed to upload file: ". *)
Theorem upload_stages file_path size readable w :
  stat w file_path = Some (RegularFile size readable) ->
  let filename := basename file_path in
  let slot := Post "CreateUploadUrls"
                (ProductionReady.upload_variables workspace_id filename) in
  exists k w1,
    (1 <= k <= 3)%nat
    /\ outbox w1 = (replicate k slot ++ outbox w)%list
    /\ match fst (get_upload_url filename w) with
       | Raise e =>
           production_upload file_path w = (Raise e, w1)
           /\ exists cause,
                e = {| ekind := Exception;
                       emsg := "Failed to get upload URL: " ++ cause |}
       | Ok (upload_url, file_id) =>
           if readable then
             match upload_url with
             | JStr url =>
                 production_upload file_path w
                 = (match net (length (outbox w1)) with
                    | Failure e =>
                        throw Exception ("Failed to upload file: " ++ emsg e)
                    | Response status_code _ text _ =>
                        if (status_code =? 200)%Z || (status_code =? 201)%Z
                        then Ok (media_url file_id filename)
                        else throw Exception
                               ("Failed to upload file: Upload failed with status "
                                ++ pretty status_code ++ ": " ++ text)
                    end,
                    {| outbox := Put url file_path :: outbox w1; slept := slept w1;
                       fs := fs w1; log := log w1 |})
             | _ =>
                 production_upload file_path w
                 = (throw Exception "Failed to upload file: Invalid type for url", w1)
             end
           else
             exists cause,
               production_upload file_path w
               = (throw Exception ("Failed to upload file: " ++ cause), w1)
       end.
Proof.
  intros Hs filename slot.
  rewrite (production_upload_regular _ _ _ _ Hs), (upload_run _ _ _ Hs).
  destruct (slot_world filename w) as (k & Hk & Ho & Hst).
  fold filename in Ho, Hst |- *.
  pose proof (get_upload_url_raises filename w) as Hr.
  destruct (get_upload_url filename w) as [[[upload_url file_id]|e] w1];
    cbn [fst snd] in *; exists k, w1; (split; [exact Hk|]); (split; [exact Ho|]).
  - rewrite put_file_run, Hst, Hs.
    destruct readable; [|eexists; reflexivity].
    destruct upload_url; try reflexivity.
    destruct (net (length (outbox w1))) as [e|status_code headers text body];
      [reflexivity|].
    destruct ((status_code =? 200)%Z || (status_code =? 201)%Z); reflexivity.
  - split; [reflexivity|]. eapply Hr. reflexivity.
Qed.

(** X15: on a regular file the uploads of the two servers are the same
    computation.  On a directory they differ: the production-ready
    server raises a [ValueError] at once and sends nothing, while that of
    [critical_bug_fixes.py] first asks for an upload slot, one to three
    times, and then raises, without any PUT. *)
Theorem upload_variants file_path w :
  (forall size readable,
     stat w file_path = Some (RegularFile size readable) ->
     production_upload file_path w = critical_upload file_path w)
  /\ (stat w file_path = Some Directory ->
      production_upload file_path w
      = (throw ValueError ("Path is not a file: " ++ file_path), w)
      /\ exists e k w1,
           critical_upload file_path w = (Raise e, w1)
           /\ ekind e = Exception
           /\ (1 <= k <= 3)%nat
           /\ outbox w1
              = (replicate k (Post "CreateUploadUrls"
                                (ProductionReady.upload_variables workspace_id
                                   (basename file_path)))
                 ++ outbox w)%list).
Proof.
  split; [intros size readable; apply production_upload_regular|].
  intros Hs. split.
  { unfold ProductionReady._upload_file_to_layer.
    rewrite (ImageFacts.stat_not_empty _ _ _ Hs).
    rewrite bind_run. unfold path_exists. rewrite bind_run. cbn [get ret M_monad].
    rewrite Hs. rewrite bool_decide_eq_true_2 by eauto. cbn [negb].
    rewrite bind_run. unfold path_isfile. rewrite bind_run. cbn [get ret M_monad].
    rewrite Hs. reflexivity. }
  rewrite (upload_run _ _ _ Hs).
  destruct (slot_world (basename file_path) w) as (k & Hk & Ho & Hst).
  pose proof (get_upload_url_raises (basename file_path) w) as Hr.
  destruct (get_upload_url (basename file_path) w)
    as [[[upload_url file_id]|e] w1]; cbn [fst snd] in *.
  - rewrite put_file_run, Hst, Hs. do 3 eexists.
    split; [reflexivity|]. split; [reflexivity|]. split; [exact Hk|exact Ho].
  - destruct (Hr e w1 eq_refl) as [cause ->]. do 3 eexists.
    split; [reflexivity|]. split; [reflexivity|]. split; [exact Hk|exact Ho].
Qed.

End Upload.

(** A slot is granted for a file that cannot be read. *)
Lemma upload_stages_witness :
  exists cause w1,
    ProductionReady._upload_file_to_layer storage "ws" repr_opaque "secret.png"
      (world_with locked_file)
    = (throw Exception ("Failed to upload file: " ++ cause), w1).
Proof.
  destruct (upload_stages storage "ws" repr_opaque "secret.png" 5 false
              (world_with locked_file) eq_refl) as (k & w1 & _ & _ & H).
  cbv zeta in H.
  assert (E : fst (ProductionReady.get_upload_url storage "ws" repr_opaque
                     (basename "secret.png") (world_with locked_file))
              = Ok (JStr "https://upload.example/slot", JStr "f1"))
    by (vm_compute; reflexivity).
  rewrite E in H. destruct H as [cause H]. exists cause, w1. exact H.
Defined.

(** A directory given as an input file *)
Lemma upload_variants_witness :
  ProductionReady._upload_file_to_layer offline "ws" repr_opaque "assets"
    (world_with one_directory)
  = (throw ValueError "Path is not a file: assets", world_with one_directory).
Proof.
  exact (proj1 (proj2 (upload_variants offline "ws" repr_opaque "assets"
                         (world_with one_directory)) eq_refl)).
Defined.

End TransferFacts.

(** ** Creating an asset: validation, submission and dispatch *)

Module AssetFacts.
Import Py Claims Examples MonadFacts World.

#[local] Arguments Py.truthy : simpl never.
#[local] Arguments Py.strip : simpl never.
#[local] Arguments Py.num_lt : simpl never.

Lemma clamp_not_a_number lo hi v :
  as_number v = None ->
  ProductionReady.clamp lo hi v
  = throw TypeError "'<' not supported between instances".
Proof.
  intros H. unfold ProductionReady.clamp, py_min, py_lt. rewrite H. reflexivity.
Qed.

Lemma clamp_a_number lo hi v n :
  as_number v = Some n -> exists r, ProductionReady.clamp lo hi v = Ok r.
Proof.
  intros H. unfold ProductionReady.clamp, py_min, py_lt. rewrite H.
  cbn [as_number bind res_monad]. unfold py_max, py_lt. cbn [as_number].
  destruct (num_lt n hi); [rewrite H|cbn [as_number]]; eauto.
Qed.

Section Asset.

Variable net : nat -> reply.
Variable workspace_id : string.
Variable repr : json -> string.
Variable persist : string -> string -> string -> gmap string node ->
                   res (string * gmap string node).
Variable float_of_string : string -> option num.
Variable int_of_string : string -> option Z.
Variable mkdir_parents : string -> gmap string node -> res (gmap string node).

Local Abbreviation prepare_submission :=
  (ProductionReady.prepare_submission net workspace_id repr float_of_string
     int_of_string mkdir_parents).
Local Abbreviation _create_asset :=
  (ProductionReady._create_asset net workspace_id repr persist float_of_string
     int_of_string mkdir_parents).
Local Abbreviation create_inference :=
  (ProductionReady.create_inference net workspace_id repr persist).
Local Abbreviation arg := ProductionReady.arg.

(** X16: [_create_asset] validates before it acts.  A prompt that is
    absent, null, empty or blank gives "prompt required" and leaves the
    world as it was.  With a prompt, a width, height, number of steps or
    guidance scale that is neither a number nor a boolean makes the
    clamping raise a [TypeError], which is reported as a failed creation:
    nothing has been sent, no directory has been created and nothing
    slept. *)
Theorem create_asset_validates_first fuel arguments w :
  let prompt := arg arguments "prompt" JNull in
  let run := _create_asset fuel arguments w in
  (truthy prompt = false \/ (exists s, prompt = JStr s /\ strip s = "") ->
   run = (Ok ProductionReady.PromptRequired, w))
  /\ (forall s,
        prompt = JStr s -> strip s <> "" ->
        as_number (arg arguments "width" (JNum (Int 512))) = None
        \/ as_number (arg arguments "height" (JNum (Int 512))) = None
        \/ as_number (arg arguments "steps" (JNum (Int 20))) = None
        \/ as_number (arg arguments "guidance_scale" (JNum (Flt 7.5))) = None ->
        exists e,
          fst run = Ok (ProductionReady.CreationFailed e)
          /\ ekind e = TypeError
          /\ outbox (snd run) = outbox w /\ fs (snd run) = fs w
          /\ slept (snd run) = slept w).
Proof.
  cbv zeta. unfold ProductionReady._create_asset, try_except,
    ProductionReady.create_asset_body.
  rewrite bind_run. unfold ProductionReady.prepare_submission. cbv zeta.
  rewrite bind_run.
  split.
  - intros [Hf|(s & Hs & Hb)].
    + rewrite Hf. reflexivity.
    + rewrite Hs. destruct (truthy (JStr s)); cbn [negb ret M_monad];
        [rewrite Hb|]; reflexivity.
  - intros s Hs Hne Hbad. rewrite Hs.
    assert (Ht : truthy (JStr s) = true).
    { unfold truthy. destruct (String.eqb_spec s "") as [->|]; [|reflexivity].
      exfalso. apply Hne. reflexivity. }
    rewrite Ht. cbn [negb ret M_monad].
    destruct (String.eqb_spec (strip s) ""); [contradiction|].
    rewrite bind_lift.
    destruct (as_number (arg arguments "width" (JNum (Int 512)))) as [nw|] eqn:Ew.
    2:{ rewrite (clamp_not_a_number _ _ _ Ew). eexists.
        split; [reflexivity|]. repeat split. }
    destruct (clamp_a_number (Int 64) (Int 2048) _ _ Ew) as [rw ->].
    rewrite bind_lift.
    destruct (as_number (arg arguments "height" (JNum (Int 512)))) as [nh|] eqn:Eh.
    2:{ rewrite (clamp_not_a_number _ _ _ Eh). eexists.
        split; [reflexivity|]. repeat split. }
    destruct (clamp_a_number (Int 64) (Int 2048) _ _ Eh) as [rh ->].
    rewrite bind_lift.
    destruct (as_number (arg arguments "steps" (JNum (Int 20)))) as [ns|] eqn:Es.
    2:{ rewrite (clamp_not_a_number _ _ _ Es). eexists.
        split; [reflexivity|]. repeat split. }
    destruct (clamp_a_number (Int 1) (Int 100) _ _ Es) as [rs ->].
    rewrite bind_lift.
    destruct (as_number (arg arguments "guidance_scale" (JNum (Flt 7.5))))
      as [ng|] eqn:Eg.
    2:{ rewrite (clamp_not_a_number _ _ _ Eg). eexists.
        split; [reflexivity|]. repeat split. }
    destruct Hbad as [H|[H|[H|H]]]; discriminate H.
Qed.


Lemma not_empty_truthy (m : gmap string json) k v :
  m !! k = Some v -> truthy (JObj m) = true.
Proof.
  intros H. unfold truthy. destruct (map_to_list m) eqn:E; [|reflexivity].
  apply map_to_list_empty_iff in E. subst m. rewrite lookup_empty in H.
  discriminate.
Qed.

(** X17: what [_create_asset] makes of the response to the submission.
    A response with a message is a rejection, reported with that message;
    a response without an id is reported as invalid; in both cases, and
    when the caller does not wait, the world is the one the submission
    left: no status request is sent.  A response with an id and no status
    raises a [KeyError].  Otherwise the job is reported as started, or
    the loop is entered when [wait_for_completion] is true. *)
Theorem create_inference_outcome fuel parameters wait save_path w result w1 data
    (response : gmap string json) :
  ProductionReady._make_graphql_request net repr "CreateInference"
    (ProductionReady.inference_variables workspace_id parameters) w
  = (Ok result, w1) ->
  getitem result "data" = Ok data ->
  getitem data "createInference" = Ok (JObj response) ->
  let run := create_inference fuel parameters wait save_path w in
  (forall m, response !! "message" = Some m ->
             run = (Ok (ProductionReady.GenerationRejected m), w1))
  /\ (response !! "message" = None -> response !! "id" = None ->
      run = (Ok (ProductionReady.InvalidInferenceResponse (JObj response)), w1))
  /\ (forall inference_id,
        response !! "message" = None -> response !! "id" = Some inference_id ->
        (response !! "status" = None -> run = (throw KeyError "'status'", w1))
        /\ (forall status created_at,
              response !! "status" = Some status ->
              response !! "createdAt" = Some created_at ->
              run = if truthy wait then
                      match ProductionReady._wait_for_completion_with_retry net
                              repr persist fuel inference_id save_path w1 with
                      | (Ok completion, w2) =>
                          (Ok (ProductionReady.Waited inference_id status
                                 created_at completion), w2)
                      | (Raise e, w2) => (Raise e, w2)
                      end
                    else (Ok (ProductionReady.Started inference_id status
                                created_at), w1))).
Proof.
  intros Hreq Hdata Hresp. cbv zeta.
  unfold ProductionReady.create_inference.
  rewrite bind_run, Hreq, bind_lift, Hdata, bind_lift, Hresp, bind_lift.
  cbn [py_in].
  split; [|split].
  - intros m Hm. rewrite bool_decide_eq_true_2 by eauto.
    rewrite bind_lift. cbn [getitem]. rewrite Hm. reflexivity.
  - intros Hm Hid.
    rewrite bool_decide_eq_false_2 by (rewrite Hm; intros [x Hx]; discriminate).
    rewrite bind_run.
    destruct (truthy (JObj response)); cbn [negb ret M_monad lift].
    + rewrite bool_decide_eq_false_2 by (rewrite Hid; intros [x Hx]; discriminate).
      reflexivity.
    + reflexivity.
  - intros inference_id Hm Hid.
    rewrite bool_decide_eq_false_2 by (rewrite Hm; intros [x Hx]; discriminate).
    rewrite bind_run. rewrite (not_empty_truthy _ _ _ Hid).
    cbn [negb lift]. rewrite bool_decide_eq_true_2 by eauto. cbn [negb].
    rewrite bind_lift. cbn [getitem]. rewrite Hid. rewrite bind_lift.
    split.
    + intros Hs. rewrite Hs. reflexivity.
    + intros status created_at Hs Hc. rewrite Hs. rewrite bind_lift, Hc.
      destruct (truthy wait); cbn [negb]; [|reflexivity].
      rewrite bind_run.
      destruct (ProductionReady._wait_for_completion_with_retry _ _ _ _ _ _ w1)
        as [[completion|e] w2]; reflexivity.
Qed.

(** X18: whenever [_create_asset] gets as far as submitting, the prompt
    was a string that is not blank, the directory of [save_path] (the
    argument, or [./assets/generated_asset.png]) was created in the world
    as it was, and the flag it waits on is: true when
    [wait_for_completion] is absent; for a string, whether it is [true]
    up to case, so that [yes] or [1] do not wait; and any other value as
    given. *)
Theorem submission_controls arguments w parameters wait save_path w' :
  prepare_submission arguments w = (Ok (inr (parameters, wait, save_path)), w') ->
  wait = match arguments !! "wait_for_completion" with
         | None => JBool true
         | Some (JStr s) => JBool (String.eqb (lower s) "true")
         | Some v => v
         end
  /\ arg arguments "save_path" (JStr "./assets/generated_asset.png") = JStr save_path
  /\ (exists fs', mkdir_parents save_path (fs w) = Ok fs')
  /\ exists s, arg arguments "prompt" JNull = JStr s /\ strip s <> "".
Proof.
  unfold ProductionReady.prepare_submission. cbv zeta. intros H.
  apply bind_ok in H as (stripped & w1 & Ep & H).
  assert (Hp : w1 = w /\ exists s, arg arguments "prompt" JNull = JStr s
                                    /\ stripped = Some (strip s)
                                       \/ stripped = None).
  { destruct (truthy (arg arguments "prompt" JNull)); cbn [negb] in Ep.
    - destruct (arg arguments "prompt" JNull); try discriminate.
      apply ret_ok in Ep as [-> ->]. split; [reflexivity|]. eauto.
    - apply ret_ok in Ep as [-> ->]. split; [reflexivity|].
      exists "". right. reflexivity. }
  destruct Hp as (-> & s & Hs).
  destruct stripped as [p|]; [|apply ret_ok in H as [H _]; discriminate].
  destruct Hs as [[Hs Hp]|Hp]; [|discriminate]. injection Hp as ->.
  destruct (String.eqb_spec (strip s) "") as [|Hne];
    [apply ret_ok in H as [H _]; discriminate|].
  apply bind_ok in H as (width & w2 & Ew & H). apply lift_ok in Ew as [_ ->].
  apply bind_ok in H as (height & w3 & Eh & H). apply lift_ok in Eh as [_ ->].
  apply bind_ok in H as (steps & w4 & Es & H). apply lift_ok in Es as [_ ->].
  apply bind_ok in H as (guidance & w5 & Eg & H). apply lift_ok in Eg as [_ ->].
  apply bind_ok in H as (sp & w6 & Esp & H).
  destruct (arg arguments "save_path" (JStr "./assets/generated_asset.png"))
    as [| | |sp0| |] eqn:Ea; try discriminate.
  apply bind_ok in Esp as (w0 & w7 & Eget & Esp). injection Eget as <- <-.
  apply bind_ok in Esp as (fs' & w8 & Em & Esp). apply lift_ok in Em as [Em ->].
  apply bind_ok in Esp as (u & w9 & _ & Esp). apply ret_ok in Esp as [-> _].
  apply bind_ok in H as (p1 & w10 & _ & H).
  apply bind_ok in H as (r & w11 & _ & H).
  destruct r as [early|p2]; apply ret_ok in H as [H _]; [discriminate|].
  injection H as _ Hw Hsp. subst wait save_path.
  split.
  { unfold ProductionReady.arg.
    destruct (arguments !! "wait_for_completion") as [[]|]; reflexivity. }
  split; [reflexivity|]. split; [eauto|]. eauto.
Qed.

Lemma create_asset_returns fuel arguments w :
  exists r w', _create_asset fuel arguments w = (Ok r, w').
Proof.
  unfold ProductionReady._create_asset, try_except.
  destruct (ProductionReady.create_asset_body _ _ _ _ _ _ _ _ _ w) as [[r|e] w1];
    eauto.
Qed.

(** X19: [handle_call_tool] never raises and its own [except] is never
    taken: a failure of [create_asset] arrives as the result of
    [_create_asset].  A tool other than [create_asset] leaves the world as
    the record of the call left it, and a name that is none of the five
    tools gives "unknown tool". *)
Theorem handle_call_tool_outcome fuel name arguments w :
  let run := ProductionReady.handle_call_tool net workspace_id repr persist
               float_of_string int_of_string mkdir_parents fuel name arguments w in
  let called := snd (logger INFO ("Calling tool: " ++ name) w) in
  (exists r w', run = (Ok r, w') /\ forall e, r <> ProductionReady.ToolError e)
  /\ (name = "create_asset" ->
      exists r w',
        _create_asset fuel arguments called = (Ok r, w')
        /\ run = (Ok (ProductionReady.Asset r), w'))
  /\ (name <> "create_asset" -> snd run = called)
  /\ (name <> "create_asset" -> name <> "remove_background" ->
      name <> "describe_image" -> name <> "generate_prompt" ->
      name <> "get_workspace_info" ->
      fst run = Ok (ProductionReady.UnknownTool name)).
Proof.
  cbv zeta. unfold ProductionReady.handle_call_tool, try_except.
  rewrite bind_run.
  assert (El : logger INFO ("Calling tool: " ++ name) w
               = (Ok tt, snd (logger INFO ("Calling tool: " ++ name) w)))
    by reflexivity.
  rewrite El. clear El.
  destruct (String.eqb_spec name "create_asset") as [->|H1].
  { rewrite bind_run.
    destruct (create_asset_returns fuel arguments
                (snd (logger INFO ("Calling tool: " ++ "create_asset") w)))
      as (r & w' & E).
    rewrite E. cbn [ret M_monad].
    split; [exists (ProductionReady.Asset r), w'; split; [reflexivity|discriminate]|].
    split; [intros _; exists r, w'; split; [exact E|reflexivity]|].
    split; [intros H; contradiction|]. intros H; contradiction. }
  destruct (String.eqb_spec name "remove_background") as [->|H2];
    [|destruct (String.eqb_spec name "describe_image") as [->|H3];
      [|destruct (String.eqb_spec name "generate_prompt") as [->|H4];
        [|destruct (String.eqb_spec name "get_workspace_info") as [->|H5]]]];
    cbn [ret M_monad fst snd];
    (split; [do 2 eexists; split; [reflexivity|discriminate]|]);
    (split; [intros H; try discriminate H; contradiction|]);
    (split; [reflexivity|]);
    intros; try contradiction; reflexivity.
Qed.

End Asset.

(** A prompt of three spaces *)
Lemma create_asset_validates_first_witness :
  ProductionReady._create_asset offline "ws" repr_opaque persist_ok no_number
    no_number mkdir_ok 0 {[ "prompt" := JStr "   " ]} empty_world
  = (Ok ProductionReady.PromptRequired, empty_world).
Proof.
  apply (proj1 (create_asset_validates_first offline "ws" repr_opaque persist_ok
                  no_number no_number mkdir_ok 0 {[ "prompt" := JStr "   " ]}
                  empty_world)).
  right. exists "   ". split; reflexivity.
Defined.

(** A job turned down for lack of credits: one request, no poll *)
Lemma create_inference_outcome_witness :
  exists w1,
    ProductionReady.create_inference job_rejected "ws" repr_opaque persist_ok 0 ∅
      (JBool true) "out.png" empty_world
    = (Ok (ProductionReady.GenerationRejected (JStr "Insufficient credits")), w1)
    /\ length (outbox w1) = 1%nat.
Proof.
  exists (snd (ProductionReady._make_graphql_request job_rejected repr_opaque
                 "CreateInference"
                 (ProductionReady.inference_variables "ws" ∅) empty_world)).
  split; [|reflexivity].
  apply (proj1 (create_inference_outcome job_rejected "ws" repr_opaque persist_ok 0
                  ∅ (JBool true) "out.png" empty_world rejection_body _
                  (JObj {[ "createInference" := JObj rejection_response ]})
                  rejection_response ltac:(vm_compute; reflexivity) eq_refl
                  eq_refl)).
  reflexivity.
Defined.

(** [wait_for_completion] given as [yes] *)
Lemma submission_controls_witness :
  JBool false
  = match eager_request !! "wait_for_completion" with
    | None => JBool true
    | Some (JStr s) => JBool (String.eqb (lower s) "true")
    | Some v => v
    end.
Proof.
  eapply (fun parameters w' H =>
            proj1 (submission_controls offline "ws" repr_opaque no_number no_number
                     mkdir_ok eager_request empty_world parameters (JBool false)
                     "./assets/generated_asset.png" w' H)).
  vm_compute. reflexivity.
Defined.

(** A tool that does not exist *)
Lemma handle_call_tool_outcome_witness :
  fst (ProductionReady.handle_call_tool offline "ws" repr_opaque persist_ok
         no_number no_number mkdir_ok 0 "delete_everything" ∅ empty_world)
  = Ok (ProductionReady.UnknownTool "delete_everything").
Proof.
  apply (handle_call_tool_outcome offline "ws" repr_opaque persist_ok no_number
           no_number mkdir_ok 0 "delete_everything" ∅ empty_world);
    discriminate.
Defined.

End AssetFacts.

(** ** The polling loop on two networks *)

Module LoopFacts.
Import Py Claims Examples MonadFacts World.

Section Loop.

Variable net : nat -> reply.
Variable repr : json -> string.
Variable persist : string -> string -> string -> gmap string node ->
                   res (string * gmap string node).

Local Abbreviation read_response := (ProductionReady.read_response repr).
Local Abbreviation poll := (ProductionReady.poll net repr persist).
Local Abbreviation wait_loop := (ProductionReady.wait_loop net repr persist).
Local Abbreviation _wait_for_completion_with_retry :=
  (ProductionReady._wait_for_completion_with_retry net repr persist).
Local Abbreviation status_post inference_id :=
  (Post "GetInferenceStatus" (ProductionReady.status_variables inference_id)).
Local Abbreviation at_ elapsed failures :=
  {| ProductionReady.elapsed_time := elapsed;
     ProductionReady.consecutive_failures := failures |}.

(** A turn of the loop whose three attempts all fail *)
Lemma failing_turn inference_id save_path w l :
  (forall i, (i < 3)%nat ->
             exists e, read_response (net (length (outbox w) + i)) = Raise e) ->
  exists last w1,
    let e := {| ekind := Exception;
                emsg := "GraphQL request failed after 3 attempts: " ++ emsg last |} in
    let failures := ProductionReady.consecutive_failures l + 1 in
    try_except (poll inference_id save_path) ProductionReady.poll_failed (w, l)
    = (Ok (if (failures >=? 3)%Z
           then Some (ProductionReady.StatusCheckFailed failures e)
           else None),
       (w1, at_ (ProductionReady.elapsed_time l) failures))
    /\ read_response (net (length (outbox w) + 2)) = Raise last
    /\ outbox w1 = (replicate 3 (status_post inference_id) ++ outbox w)%list
    /\ slept w1 = slept w + 3.
Proof.
  intros Hfail. rewrite PollingFacts.poll_turn.
  unfold ProductionReady._make_graphql_request,
    ProductionReady._make_graphql_request_n.
  destruct (RetryFacts.attempts_all_fail net repr "GetInferenceStatus"
              (ProductionReady.status_variables inference_id) 3 3 0 None w
              eq_refl Hfail) as (w1 & last' & E & Ho & Hf & Hs & last & -> & Hl).
  rewrite E. unfold throw. rewrite PollingFacts.poll_failed_run. cbv zeta.
  exists last. eexists. split; [reflexivity|]. split; [exact Hl|].
  cbn [logger bind M_monad get put snd outbox slept].
  split; [exact Ho|]. rewrite Hs. reflexivity.
Qed.

(** X20: with the network down, the loop gives up after its third
    poll.  When the first nine attempts fail, whatever the fuel from 3
    on, the report is "status check failed" after 3 failures, with the
    exception of the transport client that carries the message of the
    ninth failure; the status request has been sent 9 times and 19
    seconds have been slept: 1 + 2 of back-off in each of the three
    polls, and 5 after the first and after the second. *)
Theorem network_down_aborts inference_id save_path fuel w :
  (3 <= fuel)%nat ->
  (forall i, (i < 9)%nat ->
             exists e, read_response (net (length (outbox w) + i)) = Raise e) ->
  exists last w',
    _wait_for_completion_with_retry fuel inference_id save_path w
    = (Ok (Some (ProductionReady.StatusCheckFailed 3
                   {| ekind := Exception;
                      emsg := "GraphQL request failed after 3 attempts: "
                              ++ emsg last |})), w')
    /\ read_response (net (length (outbox w) + 8)) = Raise last
    /\ outbox w' = (replicate 9 (status_post inference_id) ++ outbox w)%list
    /\ slept w' = slept w + 19.
Proof.
  intros Hfuel Hfail.
  destruct fuel as [|[|[|fuel]]]; try lia.
  unfold ProductionReady._wait_for_completion_with_retry.
  (* first turn *)
  rewrite PollingFacts.wait_loop_turn.
  change (ProductionReady.elapsed_time (at_ 0 0) <? 300)%Z with true. cbv iota.
  destruct (failing_turn inference_id save_path w (at_ 0 0))
    as (l1 & w1 & E1 & _ & Ho1 & Hs1).
  { intros i Hi. apply Hfail. lia. }
  cbv zeta in E1. rewrite E1. clear E1.
  change (ProductionReady.consecutive_failures (at_ 0 0) + 1 >=? 3)%Z with false.
  cbv iota.
  change (ProductionReady.elapsed_time (at_ 0 0)) with 0.
  change (ProductionReady.consecutive_failures (at_ 0 0) + 1) with 1.
  cbn [ProductionReady.elapsed_time ProductionReady.consecutive_failures].
  change (0 + ProductionReady.check_interval) with 5.
  set (w2 := snd (sleep ProductionReady.check_interval w1)).
  assert (Ho2 : outbox w2 = outbox w1) by reflexivity.
  assert (Hs2 : slept w2 = slept w1 + 5) by reflexivity.
  clearbody w2.
  (* second turn *)
  rewrite PollingFacts.wait_loop_turn.
  change (ProductionReady.elapsed_time (at_ 5 1) <? 300)%Z with true. cbv iota.
  destruct (failing_turn inference_id save_path w2 (at_ 5 1))
    as (l2 & w3 & E2 & _ & Ho3 & Hs3).
  { intros i Hi. rewrite Ho2, Ho1, length_app, length_replicate.
    destruct (Hfail (3 + i)%nat ltac:(lia)) as [e He]. exists e. rewrite <- He.
    f_equal. f_equal. lia. }
  cbv zeta in E2. rewrite E2. clear E2.
  change (ProductionReady.consecutive_failures (at_ 5 1) + 1 >=? 3)%Z with false.
  cbv iota.
  change (ProductionReady.consecutive_failures (at_ 5 1) + 1) with 2.
  cbn [ProductionReady.elapsed_time ProductionReady.consecutive_failures].
  change (5 + ProductionReady.check_interval) with 10.
  set (w4 := snd (sleep ProductionReady.check_interval w3)).
  assert (Ho4 : outbox w4 = outbox w3) by reflexivity.
  assert (Hs4 : slept w4 = slept w3 + 5) by reflexivity.
  clearbody w4.
  (* third turn *)
  rewrite PollingFacts.wait_loop_turn.
  change (ProductionReady.elapsed_time (at_ 10 2) <? 300)%Z with true. cbv iota.
  destruct (failing_turn inference_id save_path w4 (at_ 10 2))
    as (l3 & w5 & E3 & Hl3 & Ho5 & Hs5).
  { intros i Hi. rewrite Ho4, Ho3, Ho2, Ho1, !length_app, !length_replicate.
    destruct (Hfail (6 + i)%nat ltac:(lia)) as [e He]. exists e. rewrite <- He.
    f_equal. f_equal. lia. }
  cbv zeta in E3. rewrite E3. clear E3.
  change (ProductionReady.consecutive_failures (at_ 10 2) + 1 >=? 3)%Z with true.
  cbv iota.
  change (ProductionReady.consecutive_failures (at_ 10 2) + 1) with 3.
  exists l3, w5. split; [reflexivity|].
  split.
  { rewrite <- Hl3. f_equal. f_equal.
    rewrite Ho4, Ho3, Ho2, Ho1, !length_app, !length_replicate. lia. }
  split.
  { rewrite Ho5, Ho4, Ho3, Ho2, Ho1. rewrite !app_assoc. reflexivity. }
  lia.
Qed.


(** A turn of the loop whose first attempt finds the job still going *)
Lemma pending_turn inference_id save_path w l status_result inferences
    inference_data status :
  read_response (net (length (outbox w))) = Ok status_result ->
  ProductionReady.read_inferences repr status_result = Ok inferences ->
  truthy inferences = true ->
  index0 inferences = Ok inference_data ->
  dict_get inference_data "status" (JStr "UNKNOWN") = Ok status ->
  eq_str status "COMPLETE" = false -> eq_str status "FAILED" = false ->
  eq_str status "CANCELLED" = false ->
  try_except (poll inference_id save_path) ProductionReady.poll_failed (w, l)
  = (Ok None,
     ({| outbox := status_post inference_id :: outbox w; slept := slept w;
         fs := fs w; log := log w |},
      at_ (ProductionReady.elapsed_time l) 0)).
Proof.
  intros Hr Hi Ht Hd Hs Hc Hf Hx. rewrite PollingFacts.poll_turn.
  unfold ProductionReady._make_graphql_request,
    ProductionReady._make_graphql_request_n.
  cbn [seq]. rewrite TransportFacts.attempts_step. cbv zeta. rewrite Hr.
  rewrite (PollingFacts.examine_status net repr persist _ _ _ _ _ _ _ Hi Ht Hd Hs).
  cbv zeta. rewrite Hc, Hf, Hx. reflexivity.
Qed.

(** [n] turns before the deadline, the job still going at each of
    them *)
Lemma pending_turns inference_id save_path n :
  forall fuel w l,
    (n < fuel)%nat ->
    ProductionReady.elapsed_time l = 300 - 5 * Z.of_nat n ->
    (forall i, (i < n)%nat ->
       exists status_result inferences inference_data status,
         read_response (net (length (outbox w) + i)) = Ok status_result
         /\ ProductionReady.read_inferences repr status_result = Ok inferences
         /\ truthy inferences = true
         /\ index0 inferences = Ok inference_data
         /\ dict_get inference_data "status" (JStr "UNKNOWN") = Ok status
         /\ eq_str status "COMPLETE" = false /\ eq_str status "FAILED" = false
         /\ eq_str status "CANCELLED" = false) ->
    exists w' l',
      wait_loop fuel inference_id save_path (w, l)
      = (Ok (Some (ProductionReady.TimedOut 300)), (w', l'))
      /\ outbox w' = (replicate n (status_post inference_id) ++ outbox w)%list
      /\ slept w' = slept w + 5 * Z.of_nat n
      /\ fs w' = fs w /\ log w' = log w.
Proof.
  induction n as [|n IH]; intros fuel w l Hfuel Hel Hpending.
  - destruct fuel as [|fuel]; [lia|]. exists w, l.
    rewrite PollingFacts.wait_loop_turn.
    destruct (Z.ltb_spec (ProductionReady.elapsed_time l) 300); [lia|].
    split; [reflexivity|]. cbn [replicate app]. repeat split. lia.
  - destruct fuel as [|fuel]; [lia|].
    rewrite PollingFacts.wait_loop_turn.
    destruct (Z.ltb_spec (ProductionReady.elapsed_time l) 300); [|lia].
    destruct (Hpending 0%nat ltac:(lia))
      as (status_result & inferences & inference_data & status
          & Hr & Hi & Ht & Hd & Hs & Hc & Hf & Hx).
    rewrite Nat.add_0_r in Hr.
    rewrite (pending_turn _ _ _ _ _ _ _ _ Hr Hi Ht Hd Hs Hc Hf Hx).
    match goal with
    | |- context [wait_loop fuel _ _ (?w2, ?l2)] =>
        destruct (IH fuel w2 l2) as (w' & l' & E & Ho & Hsl & Hfs & Hlog)
    end.
    { lia. }
    { cbn [ProductionReady.elapsed_time]. unfold ProductionReady.check_interval.
      lia. }
    { intros i Hi'. cbn [sleep bind M_monad get put snd outbox length].
      destruct (Hpending (S i) ltac:(lia)) as (sr & H').
      exists sr. replace (S (length (outbox w)) + i)%nat
        with (length (outbox w) + S i)%nat by lia. exact H'. }
    exists w', l'. split; [exact E|].
    cbn [sleep bind M_monad get put snd outbox slept fs log] in Ho, Hsl, Hfs, Hlog.
    split.
    { rewrite Ho. apply (RetryFacts.replicate_shift n). }
    split; [rewrite Hsl; unfold ProductionReady.check_interval; lia|].
    split; assumption.
Qed.

(** X21: a job that stays in a state other than COMPLETE, FAILED and
    CANCELLED, on a network where each of 60 polls gets its answer at the
    first attempt, is reported as timed out after exactly 60 status
    requests and 300 seconds of sleep; nothing is written or logged. *)
Theorem pending_job_times_out inference_id save_path fuel w :
  (60 < fuel)%nat ->
  (forall i, (i < 60)%nat ->
     exists status_result inferences inference_data status,
       read_response (net (length (outbox w) + i)) = Ok status_result
       /\ ProductionReady.read_inferences repr status_result = Ok inferences
       /\ truthy inferences = true
       /\ index0 inferences = Ok inference_data
       /\ dict_get inference_data "status" (JStr "UNKNOWN") = Ok status
       /\ eq_str status "COMPLETE" = false /\ eq_str status "FAILED" = false
       /\ eq_str status "CANCELLED" = false) ->
  exists w',
    _wait_for_completion_with_retry fuel inference_id save_path w
    = (Ok (Some (ProductionReady.TimedOut 300)), w')
    /\ outbox w' = (replicate 60 (status_post inference_id) ++ outbox w)%list
    /\ slept w' = slept w + 300
    /\ fs w' = fs w /\ log w' = log w.
Proof.
  intros Hfuel Hpending.
  destruct (pending_turns inference_id save_path 60 fuel w (at_ 0 0) Hfuel eq_refl
              Hpending) as (w' & l' & E & Ho & Hs & Hf & Hl).
  exists w'. unfold ProductionReady._wait_for_completion_with_retry.
  rewrite E. split; [reflexivity|]. split; [exact Ho|].
  split; [rewrite Hs; reflexivity|]. split; assumption.
Qed.

End Loop.

(** No network at all *)
Lemma network_down_aborts_witness :
  exists w',
    ProductionReady._wait_for_completion_with_retry offline repr_opaque persist_ok 3
      (JStr "job-1") "out.png" empty_world
    = (Ok (Some (ProductionReady.StatusCheckFailed 3
                   {| ekind := Exception;
                      emsg := "GraphQL request failed after 3 attempts: "
                              ++ "connection refused" |})), w')
    /\ slept w' = 19.
Proof.
  destruct (network_down_aborts offline repr_opaque persist_ok (JStr "job-1")
              "out.png" 3 empty_world) as (last & w' & E & Hl & _ & Hs).
  - lia.
  - intros i _. eexists. reflexivity.
  - injection Hl as <-. exists w'. split; [exact E|exact Hs].
Defined.

(** A job that never ends *)
Lemma pending_job_times_out_witness :
  exists w',
    ProductionReady._wait_for_completion_with_retry in_progress repr_opaque
      persist_ok 61 (JStr "job-1") "out.png" empty_world
    = (Ok (Some (ProductionReady.TimedOut 300)), w')
    /\ length (outbox w') = 60%nat /\ slept w' = 300.
Proof.
  destruct (pending_job_times_out in_progress repr_opaque persist_ok (JStr "job-1")
              "out.png" 61 empty_world) as (w' & E & Ho & Hs & _).
  - lia.
  - intros i _. do 4 eexists.
    split; [vm_compute; reflexivity|].
    split; [vm_compute; reflexivity|].
    split; [reflexivity|]. split; [reflexivity|]. split; [reflexivity|].
    split; [reflexivity|]. split; reflexivity.
  - exists w'. split; [exact E|]. split; [rewrite Ho; reflexivity|exact Hs].
Defined.

End LoopFacts.

(** ** The encryption key on disk *)

Module KeyFacts.
Import Py Claims Examples Frames MonadFacts TokenManager.

#[local] Arguments TokenManager._validate_token : simpl never.

Section Key.

Variable urandom : nat -> bytes.
Variable fernet_key_ok : bytes -> bool.
Variable fernet_generate_key : bytes -> bytes.
Variable fernet_encrypt : bytes -> bytes -> bytes -> bytes.
Variable fernet_decrypt : bytes -> bytes -> option bytes.
Variable json_loads : string -> option json.
Variable json_dumps : json -> string.
Variable sha256_hexdigest : bytes -> string.

Local Abbreviation store_token :=
  (TokenManager.store_token urandom fernet_key_ok fernet_generate_key fernet_encrypt
     json_dumps sha256_hexdigest).
Local Abbreviation get_token :=
  (TokenManager.get_token urandom fernet_key_ok fernet_generate_key fernet_decrypt
     json_loads).
Local Abbreviation get_credentials :=
  (TokenManager.get_credentials urandom fernet_key_ok fernet_generate_key
     fernet_decrypt json_loads).
Local Abbreviation _get_or_create_key :=
  (TokenManager._get_or_create_key urandom fernet_generate_key).

(** The state [get_token] leaves: the disk as it was, or with the key
    that reading the record has created *)
Lemma get_token_disk st :
  snd (get_token st)
  = match token_file st, key_file st with
    | Content _, Missing =>
        if read_only st
        then {| token_file := token_file st; key_file := Missing;
                read_only := true; drawn := S (drawn st) |}
        else {| token_file := token_file st;
                key_file := Content (fernet_generate_key (urandom (drawn st)));
                read_only := false; drawn := S (drawn st) |}
    | _, _ => st
    end.
Proof.
  unfold TokenManager.get_token, try_except. rewrite bind_run. cbn [get].
  destruct st as [tf kf ro dr]. cbn [token_file key_file read_only drawn].
  destruct tf as [| |data]; cbn [exists_ negb read_bytes]; [reflexivity| |].
  { rewrite bind_lift. reflexivity. }
  rewrite bind_lift. rewrite bind_run.
  unfold TokenManager._decrypt_data. rewrite bind_run.
  unfold TokenManager._get_or_create_key at 1.
  destruct kf as [| |k]; [destruct ro| |]; cbn.
  - reflexivity.
  - unfold TokenManager.Fernet.
    destruct (fernet_key_ok _); cbn; [|reflexivity].
    destruct (fernet_decrypt _ data) as [plain|]; cbn; [|reflexivity].
    destruct (decode plain) as [text|]; cbn; [|reflexivity].
    destruct (json_loads text) as [td|]; cbn; [|reflexivity].
    destruct (getitem td "api_token") as [tok|e]; cbn; [|reflexivity].
    destruct (validate_stored tok) as [[]|e]; cbn; try reflexivity.
    destruct (getitem td "workspace_id"); reflexivity.
  - reflexivity.
  - unfold TokenManager.Fernet.
    destruct (fernet_key_ok _); cbn; [|reflexivity].
    destruct (fernet_decrypt _ data) as [plain|]; cbn; [|reflexivity].
    destruct (decode plain) as [text|]; cbn; [|reflexivity].
    destruct (json_loads text) as [td|]; cbn; [|reflexivity].
    destruct (getitem td "api_token") as [tok|e]; cbn; [|reflexivity].
    destruct (validate_stored tok) as [[]|e]; cbn; try reflexivity.
    destruct (getitem td "workspace_id"); reflexivity.
Qed.

(** X22: a key that is on disk is never replaced: storing a token,
    reading the record and clearing the token all leave the key file
    with the same content, and reading leaves the whole disk as it
    was. *)
Theorem key_is_kept st key token workspace_id :
  key_file st = Content key ->
  key_file (snd (store_token token workspace_id st)) = Content key
  /\ snd (get_token st) = st
  /\ key_file (snd (clear_token st)) = Content key.
Proof.
  intros Hk. split; [|split].
  - rewrite StoreFacts.store_token_run. unfold Claims.key_in_use. rewrite Hk.
    destruct (_validate_token token); [|exact Hk]. cbv zeta.
    destruct (fernet_key_ok key); [destruct (read_only st)|]; reflexivity.
  - rewrite get_token_disk, Hk. destruct (token_file st); reflexivity.
  - rewrite StoreFacts.clear_token_run.
    destruct (token_file st); [exact Hk| |]; destruct (read_only st);
      first [exact Hk|reflexivity].
Qed.

(** X23: reading is not free of writes.  With a record on disk, no key
    file and a directory that can be written, [get_token] generates a
    key and writes it, leaving the record in place; when that key does
    not decrypt the record, the answer is [None]. *)
Theorem reading_creates_a_key st data :
  token_file st = Content data -> key_file st = Missing -> read_only st = false ->
  key_file (snd (get_token st))
  = Content (fernet_generate_key (urandom (drawn st)))
  /\ token_file (snd (get_token st)) = Content data
  /\ (fernet_decrypt (fernet_generate_key (urandom (drawn st))) data = None ->
      fst (get_token st) = Ok None).
Proof.
  intros Ht Hk Hro. rewrite get_token_disk, Ht, Hk, Hro. cbn.
  split; [reflexivity|]. split; [reflexivity|].
  intros Hd. rewrite CredentialFacts.get_token_stored.
  unfold Claims.stored_record, Claims.key_in_use. rewrite Ht, Hk, Hro, Hd.
  destruct (fernet_key_ok _); reflexivity.
Qed.

End Key.

(** Reading a damaged record leaves the disk as it was. *)
Lemma key_is_kept_witness :
  snd (TokenManager.get_token toy_urandom toy_key_ok toy_generate_key toy_decrypt
         toy_json_loads damaged_disk) = damaged_disk.
Proof.
  exact (proj1 (proj2 (key_is_kept toy_urandom toy_key_ok toy_generate_key
                         toy_encrypt toy_decrypt toy_json_loads toy_json_dumps
                         toy_sha256 damaged_disk [1%N] lax_token "ws" eq_refl))).
Defined.

(** Reading a record whose key is lost writes a key. *)
Lemma reading_creates_a_key_witness :
  key_file (snd (TokenManager.get_token toy_urandom toy_key_ok toy_generate_key
                   toy_decrypt toy_json_loads orphan_record))
  = Content [0%N].
Proof.
  exact (proj1 (reading_creates_a_key toy_urandom toy_key_ok toy_generate_key
                  toy_decrypt toy_json_loads orphan_record [1%N; 2%N] eq_refl
                  eq_refl eq_refl)).
Defined.

End KeyFacts.
